(** * Defensive strategy relay: phase sequencing and artifact passing

    A shallow embedding of [orientation/strategy_relay_defensive.py]:
    the five phase functions and the [main] orchestrator, written in a
    small monad that threads the outside world (file system and clock),
    records every log line, sleep and agent invocation, and stops at
    [sys.exit] or at an uncaught exception.

    The external collaborators (the agent, the file system, the clock,
    [json.dumps], the helpers of [strategy_utils] and the Unicode case
    tables) are the fields of the interface [Env]; every theorem holds
    for every implementation of it. *)

From Stdlib Require Import String Ascii List ZArith Lia Bool PeanoNat DecimalString.
Import ListNotations.
Open Scope list_scope.
Open Scope string_scope.

Arguments String.append : simpl never.

(** ** Python strings

    A [str] is held as its UTF-8 encoding, one byte per [ascii]: a
    character (a code point) is a byte below 128, or a leading byte
    followed by its continuation bytes, which lie between 128 and 191.
    Lengths and slices count characters, as Python does. *)

Definition dq : string := String "034"%char EmptyString.

Definition is_continuation (c : ascii) : bool :=
  ((128 <=? nat_of_ascii c) && (nat_of_ascii c <? 192))%nat.

(** [s.isascii()] *)
Fixpoint is_ascii (s : string) : bool :=
  match s with
  | EmptyString => true
  | String c s' => (nat_of_ascii c <? 128)%nat && is_ascii s'
  end.

(** [len(s)] *)
Fixpoint char_count (s : string) : nat :=
  match s with
  | EmptyString => O
  | String c s' => if is_continuation c then char_count s' else S (char_count s')
  end.

(** What [str.lower] does to a character of ASCII text. *)
Definition lower_char (c : ascii) : ascii :=
  let n := nat_of_ascii c in
  if (65 <=? n)%nat && (n <=? 90)%nat then ascii_of_nat (n + 32) else c.

Fixpoint map_string (f : ascii -> ascii) (s : string) : string :=
  match s with
  | EmptyString => EmptyString
  | String c s' => String (f c) (map_string f s')
  end.

(** [s.replace(old, new)] for one-character ASCII [old] and [new]; no
    byte of a longer character equals an ASCII byte. *)
Definition replace (old new : ascii) (s : string) : string :=
  map_string (fun c => if Ascii.eqb c old then new else c) s.

(** [s[:n]]: the first [n] characters, each with all its bytes. *)
Fixpoint slice_to (n : nat) (s : string) : string :=
  match s with
  | EmptyString => EmptyString
  | String c s' =>
      if is_continuation c then String c (slice_to n s')
      else match n with
           | O => EmptyString
           | S n' => String c (slice_to n' s')
           end
  end.

(** [s * n] *)
Fixpoint repeat_str (s : string) (n : nat) : string :=
  match n with
  | O => EmptyString
  | S n' => s ++ repeat_str s n'
  end.

(** [sep.join(l)] *)
Definition join (sep : string) (l : list string) : string := String.concat sep l.

(** [str(n)] for a length. *)
Definition str_of_nat (n : nat) : string := NilZero.string_of_uint (Nat.to_uint n).

(** Truth value of an optional string: [None] and the empty string are false. *)
Definition truthy (o : option string) : bool :=
  match o with
  | Some (String _ _) => true
  | _ => false
  end.

(** How an f-string renders an optional string. *)
Definition py_str (o : option string) : string :=
  match o with
  | Some s => s
  | None => "None"
  end.

(** ** Paths

    A [pathlib.PosixPath] with a root, as its root and the components
    below it.  Every path of the relay has one: the case folder is
    resolved (line 755) and the others are joined to it. *)

Inductive Root := Slash | DoubleSlash.

Record Path := mkPath {
  path_root : Root;
  path_parts : list string
}.

(** The path [/]. *)
Definition root : Path := mkPath Slash [].

(** [s.split(sep)] *)
Fixpoint split_on (sep : ascii) (s : string) : list string :=
  match s with
  | EmptyString => [EmptyString]
  | String c s' =>
      if Ascii.eqb c sep then EmptyString :: split_on sep s'
      else match split_on sep s' with
           | part :: parts => String c part :: parts
           | [] => [String c EmptyString]
           end
  end.

(** The root a path string starts with: none, [/], or [//] when it
    starts with exactly two slashes. *)
Definition parse_root (s : string) : option Root :=
  match s with
  | String "/"%char (String "/"%char (String "/"%char _)) => Some Slash
  | String "/"%char (String "/"%char _) => Some DoubleSlash
  | String "/"%char _ => Some Slash
  | _ => None
  end.

(** The components of a path string: what stands between the slashes,
    without the empty components and the dots. *)
Definition parse_parts (s : string) : list string :=
  filter (fun part => negb (String.eqb part "" || String.eqb part "."))
    (split_on "/" s).

(** [p / s]: the components of [s] are added to [p]; an [s] that has a
    root replaces [p]. *)
Definition path_join (p : Path) (s : string) : Path :=
  match parse_root s with
  | Some r => mkPath r (parse_parts s)
  | None => mkPath (path_root p) (path_parts p ++ parse_parts s)%list
  end.
Notation "p // s" := (path_join p s) (at level 40, left associativity).
Arguments path_join : simpl never.

Definition root_str (r : Root) : string :=
  match r with
  | Slash => "/"
  | DoubleSlash => "//"
  end.

(** [str(p)] *)
Definition path_str (p : Path) : string :=
  root_str (path_root p) ++ String.concat "/" (path_parts p).

(** [p.name] *)
Definition path_name (p : Path) : string := last (path_parts p) "".

(** [p.parent] *)
Definition path_parent (p : Path) : Path :=
  mkPath (path_root p) (removelast (path_parts p)).

(** A string that is one component: not empty, not a dot, no slash. *)
Fixpoint has_slash (s : string) : bool :=
  match s with
  | EmptyString => false
  | String c s' => Ascii.eqb c "/" || has_slash s'
  end.

Definition is_component (s : string) : bool :=
  negb (String.eqb s "") && negb (String.eqb s ".") && negb (has_slash s).

(** ** Data model *)

(** One entry of the [attacks] list of ATTACKS.json, as the
    specification's data model has it: an object whose [id] and [name]
    are strings (the relay reads them by subscript, lines 223, 224, 832
    and 833) and whose lists hold strings.  [targets],
    [opposing_argument], [their_argument] and [jurisdiction] are read
    with [dict.get] and may be absent.  Entries of another shape are
    outside this model. *)
Record Attack := mkAttack {
  attack_id : string;
  attack_name : string;
  targets : option (list string);
  opposing_argument : option string;
  their_argument : option string;
  jurisdiction : option string;
  cases_cited_by_opponent : list string;
  danger_level : string;
  status : string
}.

(** A parsed JSON object, seen through the keys the relay reads;
    [other_keys] holds every other key with its rendered value. *)
Record Document := mkDocument {
  doc_file_search_store_id : option string;
  doc_attacks : option (list Attack);
  doc_other_keys : list (string * string)
}.

(** [not data] for a loaded object: the empty dict. *)
Definition document_is_empty (d : Document) : bool :=
  match doc_file_search_store_id d, doc_attacks d, doc_other_keys d with
  | None, None, [] => true
  | _, _, _ => false
  end.

(** [attack.get("opposing_argument", attack.get("their_argument", ""))] *)
Definition get_opposing_argument (attack : Attack) : string :=
  match opposing_argument attack with
  | Some s => s
  | None => match their_argument attack with
            | Some s => s
            | None => ""
            end
  end.

Definition option_list_eq_dec {A} (dec : forall x y : A, {x = y} + {x <> y})
  (x y : option (list A)) : {x = y} + {x <> y}.
Proof. decide equality. apply list_eq_dec, dec. Defined.

Definition option_string_eq_dec (x y : option string) : {x = y} + {x <> y}.
Proof. decide equality. apply string_dec. Defined.

(** Equality of two attack dicts, as [==] and [!=] decide it. *)
Definition Attack_eq_dec (a b : Attack) : {a = b} + {a <> b}.
Proof.
  decide equality;
    first [ apply string_dec | apply option_string_eq_dec
          | apply (list_eq_dec string_dec) | apply (option_list_eq_dec string_dec) ].
Defined.

Definition attack_eqb (a b : Attack) : bool :=
  if Attack_eq_dec a b then true else false.

(** The parsed command line (lines 702-752). [arg_case_folder] is the
    resolved path. *)
Record Args := mkArgs {
  arg_case_folder : Path;
  arg_workspace : string;
  arg_strategy : string;
  arg_agent : string;
  arg_attack : option string;
  arg_skip_evidence : bool;
  arg_skip_counter_req : bool;
  arg_auto_detect : bool;
  arg_motion : string
}.

(** The arguments of one [run_agent] call. *)
Record AgentCall := mkAgentCall {
  call_agent : string;
  call_role : string;
  call_task : string;
  call_context : string;
  call_cwd : Path;
  call_max_retries : nat;
  call_timeout : nat;
  call_phase_name : string;
  call_output_file : option string
}.

(** What a run does that an observer can see. *)
Inductive Event :=
| Log (message : string) (level : option string)
| Sleep (seconds : Z)
| Invoke (call : AgentCall).

Inductive Exception := AttributeError | IndexError.

(** How a computation ends: it returns, calls [sys.exit], or raises. *)
Inductive Result (A : Type) :=
| Ret (a : A)
| Exit (code : Z)
| Raise (e : Exception).
Arguments Ret {A} a.
Arguments Exit {A} code.
Arguments Raise {A} e.

(** The status the interpreter hands to the shell. *)
Definition exit_status (r : Result unit) : Z :=
  match r with
  | Ret _ => 0
  | Exit code => code
  | Raise _ => 1
  end.

(** ** The outside world *)

Class Env := {
  World : Type;
  (** [Path.exists] *)
  fs_exists : World -> Path -> bool;
  (** [Path.mkdir(parents=True, exist_ok=True)] *)
  fs_mkdir : World -> Path -> World;
  (** [Path.glob], in the order the file system lists the entries *)
  fs_glob : World -> Path -> string -> list Path;
  (** [Path.read_text(encoding="utf-8")] *)
  fs_read_text : World -> Path -> string;
  (** [datetime.now().isoformat()] *)
  clock_isoformat : World -> string;
  (** [datetime.now().strftime("%Y-%m-%d %H:%M")] *)
  clock_strftime : World -> string;
  (** [time.sleep] *)
  clock_sleep : Z -> World -> World;
  (** [json.dumps(value, indent=2)]; [None] is Python's None *)
  json_dumps : option Document -> string;
  (** [strategy_utils.load_json_file]; [None] is Python's None *)
  util_load_json_file : World -> Path -> option Document;
  (** [strategy_utils.build_context_string] *)
  util_build_context_string : World -> list Path -> string;
  (** [strategy_utils.run_agent]: the text it returns and what it does
      to the world *)
  util_run_agent : AgentCall -> World -> string * World;
  (** [str.lower] on text that is not all ASCII: the case mapping of the
      Unicode tables, with its rule for a final sigma *)
  unicode_lower : string -> string
}.

Section Relay.

Context {env : Env}.

(** ** The monad of the script *)

Record Run (A : Type) := mkRun {
  result : Result A;
  final : World;
  trace : list Event
}.
Arguments mkRun {A} result final trace.
Arguments result {A} r.
Arguments final {A} r.
Arguments trace {A} r.

Definition M (A : Type) : Type := World -> Run A.

Definition ret {A} (a : A) : M A := fun w => mkRun (Ret a) w [].

Definition bind {A B} (m : M A) (f : A -> M B) : M B := fun w =>
  let r := m w in
  match result r with
  | Ret a => let r' := f a (final r) in
             mkRun (result r') (final r') (trace r ++ trace r')%list
  | Exit code => mkRun (Exit code) (final r) (trace r)
  | Raise e => mkRun (Raise e) (final r) (trace r)
  end.

Notation "x <- m ;; k" := (bind m (fun x => k))
  (at level 61, m at next level, right associativity).
Notation "m ;; k" := (bind m (fun _ => k))
  (at level 61, right associativity).

(** [sys.exit(code)] *)
Definition sys_exit {A} (code : Z) : M A := fun w => mkRun (Exit code) w [].

Definition raise {A} (e : Exception) : M A := fun w => mkRun (Raise e) w [].

(** Modelled from the spec: [strategy_utils.log] is not among the
    sources; a log line is user-visible output tagged with a severity
    marker and touches nothing else. [level] is [None] where the call
    gives no marker. *)
Definition log (message : string) (level : option string) : M unit :=
  fun w => mkRun (Ret tt) w [Log message level].

Definition time_sleep (seconds : Z) : M unit :=
  fun w => mkRun (Ret tt) (clock_sleep seconds w) [Sleep seconds].

Definition path_exists (p : Path) : M bool :=
  fun w => mkRun (Ret (fs_exists w p)) w [].

Definition path_mkdir (p : Path) : M unit :=
  fun w => mkRun (Ret tt) (fs_mkdir w p) [].

Definition path_glob (p : Path) (pattern : string) : M (list Path) :=
  fun w => mkRun (Ret (fs_glob w p pattern)) w [].

Definition path_read_text (p : Path) : M string :=
  fun w => mkRun (Ret (fs_read_text w p)) w [].

Definition datetime_now_isoformat : M string :=
  fun w => mkRun (Ret (clock_isoformat w)) w [].

Definition datetime_now_strftime : M string :=
  fun w => mkRun (Ret (clock_strftime w)) w [].

Definition load_json_file (p : Path) : M (option Document) :=
  fun w => mkRun (Ret (util_load_json_file w p)) w [].

Definition build_context_string (files : list Path) : M string :=
  fun w => mkRun (Ret (util_build_context_string w files)) w [].

Definition run_agent (call : AgentCall) : M string :=
  fun w => mkRun (Ret (fst (util_run_agent call w))) (snd (util_run_agent call w))
                 [Invoke call].

(** [for x in l: body] *)
Fixpoint for_each {A} (l : list A) (body : A -> M unit) : M unit :=
  match l with
  | [] => ret tt
  | x :: l' => body x ;; for_each l' body
  end.

(** [d.get(...)] on what [load_json_file] returned: None has no [get]. *)
Definition dict_get {A} (data : option Document) (field : Document -> A) : M A :=
  match data with
  | Some d => ret (field d)
  | None => raise AttributeError
  end.

(** Lines 49-68. *)
Definition run_agent_defensive (agent role task context : string) (cwd : Path)
    (phase_name : string) (output_file : option string) : M string :=
  run_agent (mkAgentCall agent role task context cwd 5 600 phase_name output_file).

(** ** The prompts *)

(** Lines 102-118. *)
Definition phase_0_file_search_note (motion_search_term : string)
    (file_search_store_id : option string) : string :=
  if truthy file_search_store_id then
    "
You have access to semantic document search via `file_search_query_legal-hub`.
Store ID: " ++ py_str file_search_store_id ++ "

Use this to find and read the opposing motion:
- Query: " ++ dq ++ "What are the arguments in the " ++ motion_search_term ++ "?" ++ dq ++ "
- Query: " ++ dq ++ "What claims does the defendant attack in their motion?" ++ dq ++ "
- Query: " ++ dq ++ "What legal theories does the motion rely on?" ++ dq ++ "

You can also query for specific details about each argument.
"
  else
    "
Review the documents_index.json to find the " ++ motion_search_term ++ ".
Read the document to extract the attacks.
".

(** Lines 122-169. *)
Definition phase_0_task (strategy_dir : Path) (motion_search_term file_search_note : string)
    (output_file : Path) (detected_at : string) : string :=
  "You are analyzing an opposing motion to extract the ATTACKS we must defend against.

Search Term: " ++ dq ++ motion_search_term ++ dq ++ "

Your job:
1. FIND the opposing motion in the case documents
2. READ the motion carefully
3. EXTRACT each distinct attack/argument they make
4. For each attack, identify:
   - What claims/counts it targets
   - Their core argument
   - Cases they cite
   - How dangerous this attack is (high/medium/low)

" ++ file_search_note ++ "

**IMPORTANT**:
- Each attack should be a DISTINCT argument, not a sub-point
- Group related sub-arguments under one attack
- Identify the governing standard (e.g., Rule 12(b)(6) for MTD)

OUTPUT: Write a JSON file to " ++ path_str output_file ++ " with this exact structure:

{
  " ++ dq ++ "strategy_id" ++ dq ++ ": " ++ dq ++ path_name strategy_dir ++ dq ++ ",
  " ++ dq ++ "strategy_type" ++ dq ++ ": " ++ dq ++ "defensive" ++ dq ++ ",
  " ++ dq ++ "responding_to" ++ dq ++ ": {
    " ++ dq ++ "document" ++ dq ++ ": " ++ dq ++ "[Full name of the motion]" ++ dq ++ ",
    " ++ dq ++ "filed_by" ++ dq ++ ": " ++ dq ++ "[Who filed it]" ++ dq ++ ",
    " ++ dq ++ "filed_date" ++ dq ++ ": " ++ dq ++ "[Date if known, otherwise null]" ++ dq ++ "
  },
  " ++ dq ++ "governing_standard" ++ dq ++ ": " ++ dq ++ "[e.g., Rule 12(b)(6) - Failure to State a Claim]" ++ dq ++ ",
  " ++ dq ++ "attacks" ++ dq ++ ": [
    {
      " ++ dq ++ "id" ++ dq ++ ": " ++ dq ++ "001" ++ dq ++ ",
      " ++ dq ++ "name" ++ dq ++ ": " ++ dq ++ "[Short descriptive name for this attack]" ++ dq ++ ",
      " ++ dq ++ "targets" ++ dq ++ ": [" ++ dq ++ "Count I" ++ dq ++ ", " ++ dq ++ "Count II" ++ dq ++ "],
      " ++ dq ++ "opposing_argument" ++ dq ++ ": " ++ dq ++ "[Their argument in 2-3 sentences]" ++ dq ++ ",
      " ++ dq ++ "cases_cited_by_opponent" ++ dq ++ ": [" ++ dq ++ "Case 1" ++ dq ++ ", " ++ dq ++ "Case 2" ++ dq ++ "],
      " ++ dq ++ "danger_level" ++ dq ++ ": " ++ dq ++ "high|medium|low" ++ dq ++ ",
      " ++ dq ++ "status" ++ dq ++ ": " ++ dq ++ "confirmed" ++ dq ++ "
    }
  ],
  " ++ dq ++ "auto_detected" ++ dq ++ ": true,
  " ++ dq ++ "detected_at" ++ dq ++ ": " ++ dq ++ detected_at ++ dq ++ "
}

Be thorough - capture ALL distinct attacks in the motion.".

(** Lines 239-246. *)
Definition phase_a_attack_details (attack_id attack_name : string) (targets : list string)
    (their_argument : string) : string :=
  "

=== ATTACK BEING ANALYZED ===
Attack ID: " ++ attack_id ++ "
Attack Name: " ++ attack_name ++ "
Claims Targeted: " ++ join ", " targets ++ "
Their Argument: " ++ their_argument ++ "
".

(** Lines 249-263. *)
Definition phase_a_file_search_note (file_search_store_id : option string) : string :=
  if truthy file_search_store_id then
    "
You have access to semantic document search via `file_search_query_legal-hub`.
Store ID: " ++ py_str file_search_store_id ++ "

Use this to query case documents, e.g.:
- " ++ dq ++ "What does the contract say about assignment?" ++ dq ++ "
- " ++ dq ++ "Who is named as the creditor in the contract?" ++ dq ++ "
- " ++ dq ++ "What documents did CPS provide in their validation response?" ++ dq ++ "
"
  else
    "
Review the documents_index.json to understand what documents are available.
Read specific documents as needed using their file paths.
".

(** Lines 267-325. *)
Definition phase_a_task (attack_id attack_name file_search_note : string)
    (output_file : Path) : string :=
  "You are analyzing the EVIDENCE that opposing counsel relies on for this attack.

Your job is to:

1. IDENTIFY what evidence they cite or rely on
   - What documents did they attach?
   - What facts do they assert?
   - What do they claim their evidence proves?

2. ANALYZE what their evidence ACTUALLY shows
   - Read the actual documents (use file search or local files)
   - What do the documents actually say vs. what they claim?
   - Who is named in the documents?
   - What's MISSING from the documents?

3. APPLY burden-shifting analysis
   - Under the applicable legal standard, who has the burden of proof?
   - Has opposing counsel met their burden?
   - What gaps exist in their proof?

4. SURFACE additional arguments
   - Based on evidence gaps, what arguments can we make?
   - What did they fail to prove?
   - What assumptions are they making without support?
   - For legal basis of arguments, use the `search_cases_legal-hub` tool or `quick_search_legal-hub` tool to find real authority. Never invent citations.

" ++ file_search_note ++ "

OUTPUT: Write a JSON file to " ++ path_str output_file ++ " with this exact structure:

{
  " ++ dq ++ "attack_id" ++ dq ++ ": " ++ dq ++ attack_id ++ dq ++ ",
  " ++ dq ++ "attack_name" ++ dq ++ ": " ++ dq ++ attack_name ++ dq ++ ",
  " ++ dq ++ "evidence_they_rely_on" ++ dq ++ ": [
    {
      " ++ dq ++ "document" ++ dq ++ ": " ++ dq ++ "[Document name/description]" ++ dq ++ ",
      " ++ dq ++ "what_they_claim" ++ dq ++ ": " ++ dq ++ "[What they say it proves]" ++ dq ++ ",
      " ++ dq ++ "what_it_actually_shows" ++ dq ++ ": " ++ dq ++ "[What it actually says]" ++ dq ++ ",
      " ++ dq ++ "gaps_identified" ++ dq ++ ": [" ++ dq ++ "Gap 1" ++ dq ++ ", " ++ dq ++ "Gap 2" ++ dq ++ "],
      " ++ dq ++ "document_level_findings" ++ dq ++ ": {
        " ++ dq ++ "parties_named" ++ dq ++ ": " ++ dq ++ "[Who is named]" ++ dq ++ ",
        " ++ dq ++ "key_missing_elements" ++ dq ++ ": [" ++ dq ++ "Missing 1" ++ dq ++ ", " ++ dq ++ "Missing 2" ++ dq ++ "]
      }
    }
  ],
  " ++ dq ++ "burden_analysis" ++ dq ++ ": {
    " ++ dq ++ "applicable_standard" ++ dq ++ ": " ++ dq ++ "[Legal standard/statute]" ++ dq ++ ",
    " ++ dq ++ "who_has_burden" ++ dq ++ ": " ++ dq ++ "[Which party]" ++ dq ++ ",
    " ++ dq ++ "burden_met" ++ dq ++ ": false,
    " ++ dq ++ "why_not" ++ dq ++ ": " ++ dq ++ "[Explanation]" ++ dq ++ "
  },
  " ++ dq ++ "additional_arguments_surfaced" ++ dq ++ ": [
    {
      " ++ dq ++ "argument" ++ dq ++ ": " ++ dq ++ "[The argument]" ++ dq ++ ",
      " ++ dq ++ "legal_basis" ++ dq ++ ": " ++ dq ++ "[Statute or case law]" ++ dq ++ ",
      " ++ dq ++ "factual_support" ++ dq ++ ": " ++ dq ++ "[What facts support this]" ++ dq ++ "
    }
  ]
}".

(** Lines 382-393. *)
Definition phase_b_context (evidence_analysis documents_index : option Document)
    (attack : Attack) : string :=
  "
=== EVIDENCE ANALYSIS (from Phase A) ===
" ++ json_dumps evidence_analysis ++ "

=== ATTACK DETAILS ===
Attack ID: " ++ attack_id attack ++ "
Attack Name: " ++ attack_name attack ++ "
Their Argument: " ++ get_opposing_argument attack ++ "

=== AVAILABLE CASE DOCUMENTS ===
" ++ json_dumps documents_index ++ "
".

(** Lines 396-409. *)
Definition phase_b_file_search_note (file_search_store_id : option string) : string :=
  if truthy file_search_store_id then
    "
You have semantic document search via the `file_search_query_legal-hub` tool.
Store ID: " ++ py_str file_search_store_id ++ "

Use this to find facts in case documents:
- " ++ dq ++ "What evidence supports [requirement]?" ++ dq ++ "
- " ++ dq ++ "What does the contract say about [topic]?" ++ dq ++ "
- " ++ dq ++ "What facts relate to [issue]?" ++ dq ++ "
"
  else
    "
Review the documents_index.json above and read specific documents as needed to find supporting facts.
".

(** Lines 413-475. *)
Definition phase_b_task (attack_id attack_name jurisdiction file_search_note : string)
    (output_file : Path) : string :=
  "Based on the evidence analysis, extract the COUNTER-REQUIREMENTS needed to rebut this attack,
AND map specific facts from case documents to each counter-requirement.

A counter-requirement is something WE must prove to defeat THEIR argument.

## PART 1: Counter-Requirement Extraction

For each counter-requirement, determine:
1. What must we prove?
2. What is the legal basis? Use the `search_cases_legal-hub` tool and `deep_research_legal-hub` tool to find REAL statutes and case law. Never invent citations.
3. How do we establish this?

Consider:
- Arguments that REFRAME their attack (e.g., " ++ dq ++ "This isn't 'show me the note' - it's contract authenticity" ++ dq ++ ")
- Arguments based on EVIDENCE GAPS (e.g., " ++ dq ++ "No assignment documentation" ++ dq ++ ")
- Arguments based on BURDEN-SHIFTING (e.g., " ++ dq ++ "They failed to meet their burden under § 11-3-308" ++ dq ++ ")
- Arguments that the FACTUAL DISPUTE survives the motion standard

## PART 2: Fact Matching

For EACH counter-requirement you identify, search the case documents for supporting facts:
1. Find the specific fact from our documents
2. Note the source document
3. Rate evidence strength (strong/moderate/weak)
4. Update status based on evidence found (proven/disputed/unproven)

" ++ file_search_note ++ "

Be thorough but accurate. Only cite facts that actually exist in the documents.

Jurisdiction: " ++ jurisdiction ++ "

## IMPORTANT: Tool Usage
- Use the `search_cases_legal-hub` tool to find relevant case law for each counter-requirement
- Use the `deep_research_legal-hub` tool for complex legal questions requiring comprehensive analysis
- Use the `lookup_citation_legal-hub` tool to verify any specific citation before including it
- Use the `quick_search_legal-hub` tool for quick factual lookups on statutes or standards

OUTPUT: Write a JSON file to " ++ path_str output_file ++ " with this exact structure:

{
  " ++ dq ++ "attack_id" ++ dq ++ ": " ++ dq ++ attack_id ++ dq ++ ",
  " ++ dq ++ "attack_name" ++ dq ++ ": " ++ dq ++ attack_name ++ dq ++ ",
  " ++ dq ++ "jurisdiction" ++ dq ++ ": " ++ dq ++ jurisdiction ++ dq ++ ",
  " ++ dq ++ "counter_requirements" ++ dq ++ ": [
    {
      " ++ dq ++ "id" ++ dq ++ ": " ++ dq ++ "CR1" ++ dq ++ ",
      " ++ dq ++ "requirement" ++ dq ++ ": " ++ dq ++ "[What we must prove/argue]" ++ dq ++ ",
      " ++ dq ++ "legal_basis" ++ dq ++ ": " ++ dq ++ "[Statute or case citation - MUST BE REAL, verified via MCP tools]" ++ dq ++ ",
      " ++ dq ++ "how_to_prove" ++ dq ++ ": " ++ dq ++ "[How we establish this]" ++ dq ++ ",
      " ++ dq ++ "our_facts" ++ dq ++ ": [
        {
          " ++ dq ++ "fact" ++ dq ++ ": " ++ dq ++ "[Specific fact from case documents]" ++ dq ++ ",
          " ++ dq ++ "source" ++ dq ++ ": " ++ dq ++ "[Document name/path]" ++ dq ++ ",
          " ++ dq ++ "strength" ++ dq ++ ": " ++ dq ++ "strong|moderate|weak" ++ dq ++ ",
          " ++ dq ++ "notes" ++ dq ++ ": " ++ dq ++ "[Any relevant notes]" ++ dq ++ "
        }
      ],
      " ++ dq ++ "status" ++ dq ++ ": " ++ dq ++ "proven|disputed|unproven" ++ dq ++ "
    }
  ],
  " ++ dq ++ "rebuttal_summary" ++ dq ++ ": " ++ dq ++ "[2-3 sentence summary of our rebuttal strategy]" ++ dq ++ "
}".

(** Lines 523-529. *)
Definition phase_d_context (evidence_analysis counter_reqs : option Document) : string :=
  "
=== EVIDENCE ANALYSIS ===
" ++ json_dumps evidence_analysis ++ "

=== COUNTER-REQUIREMENTS ===
" ++ json_dumps counter_reqs ++ "
".

(** Lines 533-571. *)
Definition phase_d_task (attack_id attack_name : string) (output_file : Path)
    (generated : string) : string :=
  "Analyze the rebuttal strength for Attack " ++ attack_id ++ ": " ++ attack_name ++ "

Your analysis must include:

1. REBUTTAL STRENGTH SCORE
   - STRONG: All counter-requirements proven, evidence gaps identified, burden analysis favorable
   - MODERATE: Most counter-requirements supported, some gaps in our evidence
   - WEAK: Critical counter-requirements unproven
   - FATAL: Cannot rebut this attack

2. COUNTER-REQUIREMENT SUMMARY TABLE
   For each CR: Status (✅/⚠️/❌) and evidence strength

3. THE CRITICAL DISTINCTIONS
   How do we distinguish our position from what they claim?
   (e.g., " ++ dq ++ "This is contract authenticity, not 'show me the note'" ++ dq ++ ")

4. ADVERSARIAL CHECK
   Role-play as opposing counsel responding to our rebuttal.
   - What will they say?
   - How do we handle their surrebuttal?

5. EVIDENCE MAPPED
   List all evidence supporting our rebuttal, organized by category.

6. GAPS AND RECOMMENDATIONS
   - What's still missing?
   - What discovery would help?

OUTPUT: Write a MARKDOWN file to " ++ path_str output_file ++ ". Start the file with this header:

# Analysis: " ++ attack_name ++ "

**Generated**: " ++ generated ++ "
**Attack ID**: " ++ attack_id ++ "

---

Then write the full analysis with clear sections.".

(** Lines 618-622. *)
Definition phase_e_overview (attacks_data : option Document) : string :=
  "
=== ATTACKS OVERVIEW ===
" ++ json_dumps attacks_data ++ "

".

(** Lines 638-674. *)
Definition phase_e_task (strategy_dir output_file : Path) (generated : string) : string :=
  "Create a consolidated GAP ANALYSIS report across all attacks.

Include:

1. EXECUTIVE SUMMARY
   - Overall defense strength
   - Number of attacks and rebuttal scores
   - Critical risks

2. ATTACK STATUS TABLE
   | Attack | Rebuttal Strength | Key Argument | Key Risk |

3. EVIDENCE INVENTORY
   | Evidence | Supports Which Attack | Strength |

4. CRITICAL GAPS
   For each gap:
   - Which attack it affects
   - What's missing
   - How to address it

5. PRIORITY ACTIONS
   Ordered list of next steps

6. STRATEGIC RECOMMENDATION
   Overall recommendation for the response

OUTPUT: Write a MARKDOWN file to " ++ path_str output_file ++ ". Start the file with this header:

# Gap Analysis - Defensive Strategy

**Generated**: " ++ generated ++ "
**Strategy**: " ++ path_name strategy_dir ++ "

---

Then write the full gap analysis with clear sections.".

(** ** Phase 0: attack detector (lines 75-198) *)

Definition phase_0_detect_attacks (agent : string) (case_folder strategy_dir : Path)
    (motion_search_term : string) (file_search_store_id : option string)
    : M (option Path) :=
  let case_context_dir := case_folder // "case-context" in
  let context_files := [ case_context_dir // "case_summary.md";
                         case_context_dir // "documents_index.json";
                         case_context_dir // "user_narrative.md" ] in
  context <- build_context_string context_files ;;
  let file_search_note := phase_0_file_search_note motion_search_term file_search_store_id in
  let output_file := strategy_dir // "ATTACKS.json" in
  detected_at <- datetime_now_isoformat ;;
  let task := phase_0_task strategy_dir motion_search_term file_search_note
                output_file detected_at in
  log ("Phase 0: Auto-detecting attacks from '" ++ motion_search_term ++ "'") (Some "PHASE") ;;
  run_agent_defensive agent "Legal Analyst - Motion decomposition specialist"
    task context case_folder "Phase_0_Attack_Detection" (Some (path_str output_file)) ;;
  written <- path_exists output_file ;;
  if negb written then
    log ("Agent did not create ATTACKS.json at " ++ path_str output_file) (Some "ERROR") ;;
    ret None
  else
    data <- load_json_file output_file ;;
    if match data with
       | None => true
       | Some d => document_is_empty d
                   || match doc_attacks d with
                      | None | Some [] => true
                      | Some (_ :: _) => false
                      end
       end
    then
      log "ATTACKS.json is empty or has no attacks" (Some "ERROR") ;;
      ret None
    else
      let num_attacks := match data with
                         | Some d => match doc_attacks d with
                                     | Some l => length l
                                     | None => 0%nat
                                     end
                         | None => 0%nat
                         end in
      log ("  → Detected " ++ str_of_nat num_attacks ++ " attacks") (Some "DONE") ;;
      log "  → Created: ATTACKS.json" (Some "DONE") ;;
      ret (Some output_file).

(** ** Phase A: evidence analyst (lines 205-345) *)

Definition phase_a_evidence_analysis (agent : string) (attack : Attack)
    (case_folder output_dir : Path) (file_search_store_id : option string) : M Path :=
  let their_argument := get_opposing_argument attack in
  let case_context_dir := case_folder // "case-context" in
  let context_files := [ case_context_dir // "case_summary.md";
                         case_context_dir // "documents_index.json" ] in
  context <- build_context_string context_files ;;
  let context := context ++ phase_a_attack_details (attack_id attack) (attack_name attack)
                              (match targets attack with Some l => l | None => [] end)
                              their_argument in
  let file_search_note := phase_a_file_search_note file_search_store_id in
  let output_file := output_dir // "EVIDENCE_ANALYSIS.json" in
  let task := phase_a_task (attack_id attack) (attack_name attack) file_search_note
                output_file in
  log ("Phase A: Analyzing evidence for Attack " ++ attack_id attack ++ ": "
         ++ attack_name attack) (Some "PHASE") ;;
  run_agent_defensive agent "Evidence Analyst - Document examiner and gap identifier"
    task context case_folder ("Phase_A_Evidence_" ++ attack_id attack)
    (Some (path_str output_file)) ;;
  written <- path_exists output_file ;;
  (if written then
     log ("  → Created: " ++ path_name output_file) (Some "DONE")
   else
     log ("Agent did not create " ++ path_name output_file) (Some "ERROR")) ;;
  ret output_file.

(** ** Phase B: counter-requirements and fact matching (lines 352-495) *)

Definition phase_b_counter_requirements (agent : string) (attack : Attack)
    (evidence_analysis_file case_folder output_dir : Path)
    (file_search_store_id : option string) : M Path :=
  let jurisdiction := match jurisdiction attack with
                      | Some j => j
                      | None => "Georgia"
                      end in
  evidence_analysis <- load_json_file evidence_analysis_file ;;
  let case_context_dir := case_folder // "case-context" in
  documents_index <- load_json_file (case_context_dir // "documents_index.json") ;;
  let context := phase_b_context evidence_analysis documents_index attack in
  let file_search_note := phase_b_file_search_note file_search_store_id in
  let output_file := output_dir // "counter_requirements.json" in
  let task := phase_b_task (attack_id attack) (attack_name attack) jurisdiction
                file_search_note output_file in
  log ("Phase B: Extracting counter-requirements + fact matching for Attack "
         ++ attack_id attack) (Some "PHASE") ;;
  run_agent_defensive agent
    "Legal Research Clerk - Counter-argument and fact-mapping specialist"
    task context case_folder ("Phase_B_Counter_Req_" ++ attack_id attack)
    (Some (path_str output_file)) ;;
  written <- path_exists output_file ;;
  (if written then
     log ("  → Created: " ++ path_name output_file) (Some "DONE")
   else
     log ("Agent did not create " ++ path_name output_file) (Some "ERROR")) ;;
  ret output_file.

(** ** Phase D: viability analyst (lines 502-591) *)

Definition phase_d_viability_analysis (agent : string) (attack : Attack)
    (evidence_analysis_file counter_req_file output_dir case_folder : Path) : M Path :=
  evidence_analysis <- load_json_file evidence_analysis_file ;;
  counter_reqs <- load_json_file counter_req_file ;;
  let context := phase_d_context evidence_analysis counter_reqs in
  let output_file := output_dir // "analysis.md" in
  generated <- datetime_now_strftime ;;
  let task := phase_d_task (attack_id attack) (attack_name attack) output_file generated in
  log ("Phase D: Analyzing viability for Attack " ++ attack_id attack) (Some "PHASE") ;;
  run_agent_defensive agent "Senior Litigator - Strategic case analyst"
    task context case_folder ("Phase_D_Viability_" ++ attack_id attack)
    (Some (path_str output_file)) ;;
  written <- path_exists output_file ;;
  (if written then
     log ("  → Created: " ++ path_name output_file) (Some "DONE")
   else
     log ("Agent did not create " ++ path_name output_file) (Some "ERROR")) ;;
  ret output_file.

(** ** Phase E: gap reporter (lines 598-694) *)

(** Lines 624-630: one section per JSON artifact found. *)
Fixpoint append_json_sections (files : list Path) (filename context : string) : M string :=
  match files with
  | [] => ret context
  | f :: rest =>
      let context := context ++ "
=== " ++ path_name (path_parent f) ++ "/" ++ filename ++ " ===
" in
      data <- load_json_file f ;;
      append_json_sections rest filename (context ++ json_dumps data)
  end.

(** Lines 632-634: one section per analysis found. *)
Fixpoint append_text_sections (files : list Path) (context : string) : M string :=
  match files with
  | [] => ret context
  | f :: rest =>
      let context := context ++ "
=== " ++ path_name (path_parent f) ++ "/analysis.md ===
" in
      text <- path_read_text f ;;
      append_text_sections rest (context ++ text)
  end.

Definition phase_e_gap_analysis (agent : string) (strategy_dir case_folder : Path) : M Path :=
  evidence_files <- path_glob strategy_dir "attacks/*/EVIDENCE_ANALYSIS.json" ;;
  counter_req_files <- path_glob strategy_dir "attacks/*/counter_requirements.json" ;;
  analysis_files <- path_glob strategy_dir "attacks/*/analysis.md" ;;
  let attacks_file := strategy_dir // "ATTACKS.json" in
  attacks_data <- load_json_file attacks_file ;;
  let context := phase_e_overview attacks_data in
  context <- append_json_sections evidence_files "EVIDENCE_ANALYSIS.json" context ;;
  context <- append_json_sections counter_req_files "counter_requirements.json" context ;;
  context <- append_text_sections analysis_files context ;;
  let output_file := strategy_dir // "GAP_ANALYSIS.md" in
  generated <- datetime_now_strftime ;;
  let task := phase_e_task strategy_dir output_file generated in
  log "Phase E: Generating gap analysis" (Some "PHASE") ;;
  run_agent_defensive agent "Senior Litigation Partner - Strategic advisor"
    task context case_folder "Phase_E_Gap_Analysis" (Some (path_str output_file)) ;;
  written <- path_exists output_file ;;
  (if written then
     log "  → Created: GAP_ANALYSIS.md" (Some "DONE")
   else
     log "Agent did not create GAP_ANALYSIS.md" (Some "ERROR")) ;;
  ret output_file.

(** ** The orchestrator (lines 701-923) *)

(** [s.lower()]: in ASCII text the letters A-Z become a-z, each on its
    own; any other text goes through the Unicode tables. *)
Definition lower (s : string) : string :=
  if is_ascii s then map_string lower_char s else unicode_lower s.

(** Lines 833 and 918. *)
Definition attack_name_slug (attack : Attack) : string :=
  slice_to 30 (replace "-" "_" (replace " " "_" (lower (attack_name attack)))).

(** Lines 834 and 919. *)
Definition attack_dir_of (strategy_dir : Path) (attack : Attack) : Path :=
  strategy_dir // "attacks" // (attack_id attack ++ "_" ++ attack_name_slug attack).

Definition workspace_dir_of (args : Args) : Path :=
  arg_case_folder args // "workspaces" // arg_workspace args.

Definition strategy_dir_of (args : Args) : Path :=
  workspace_dir_of args // "strategies" // arg_strategy args.

(** Lines 754-808: the paths are validated, the settings read, the
    attacks detected on request, and ATTACKS.json loaded.  Returns the
    file-search store id and the attacks. *)
Definition main_load (args : Args) : M (option string * list Attack) :=
  let case_folder := arg_case_folder args in
  let workspace_dir := workspace_dir_of args in
  let strategy_dir := strategy_dir_of args in
  let attacks_file := strategy_dir // "ATTACKS.json" in
  found <- path_exists case_folder ;;
  (if negb found then
     log ("Case folder not found: " ++ path_str case_folder) (Some "ERROR") ;;
     sys_exit 1
   else ret tt) ;;
  found <- path_exists workspace_dir ;;
  (if negb found then
     log ("Workspace not found: " ++ path_str workspace_dir) (Some "ERROR") ;;
     sys_exit 1
   else ret tt) ;;
  path_mkdir strategy_dir ;;
  let settings_file := case_folder // "case-context" // "settings.json" in
  settings <- load_json_file settings_file ;;
  file_search_store_id <- dict_get settings doc_file_search_store_id ;;
  attacks_file <-
    (if arg_auto_detect args then
       log (repeat_str "=" 60) (Some "INFO") ;;
       log "PHASE 0: AUTO-DETECT ATTACKS" (Some "START") ;;
       log (repeat_str "=" 60) (Some "INFO") ;;
       log ("Searching for: " ++ arg_motion args) None ;;
       detected <- phase_0_detect_attacks (arg_agent args) case_folder strategy_dir
                     (arg_motion args) file_search_store_id ;;
       match detected with
       | None =>
           log "Failed to auto-detect attacks. Check the raw output." (Some "ERROR") ;;
           sys_exit 1
       | Some attacks_file => ret attacks_file
       end
     else ret attacks_file) ;;
  found <- path_exists attacks_file ;;
  (if negb found then
     log ("ATTACKS.json not found: " ++ path_str attacks_file) (Some "ERROR") ;;
     log "Either run with --auto-detect or create ATTACKS.json manually" (Some "INFO") ;;
     sys_exit 1
   else ret tt) ;;
  attacks_data <- load_json_file attacks_file ;;
  attacks <- dict_get attacks_data
               (fun d => match doc_attacks d with Some l => l | None => [] end) ;;
  match attacks with
  | [] =>
      log "No attacks found in ATTACKS.json" (Some "ERROR") ;;
      sys_exit 1
  | _ :: _ => ret (file_search_store_id, attacks)
  end.

(** Lines 810-815. *)
Definition main_filter (args : Args) (attacks : list Attack) : M (list Attack) :=
  if truthy (arg_attack args) then
    let attacks := filter (fun a => String.eqb (attack_id a) (py_str (arg_attack args)))
                     attacks in
    match attacks with
    | [] =>
        log ("Attack " ++ py_str (arg_attack args) ++ " not found") (Some "ERROR") ;;
        sys_exit 1
    | _ :: _ => ret attacks
    end
  else ret attacks.

(** Lines 841-852: Phase A, or the existing file under --skip-evidence. *)
Definition main_phase_a (args : Args) (attack : Attack) (case_folder attack_dir : Path)
    (file_search_store_id : option string) : M Path :=
  let evidence_file := attack_dir // "EVIDENCE_ANALYSIS.json" in
  reuse <- (if arg_skip_evidence args then path_exists evidence_file else ret false) ;;
  if reuse then
    log "Skipping Phase A (using existing EVIDENCE_ANALYSIS.json)" (Some "INFO") ;;
    ret evidence_file
  else
    phase_a_evidence_analysis (arg_agent args) attack case_folder attack_dir
      file_search_store_id.

(** Lines 858-870: Phase B, or the existing file under --skip-counter-req. *)
Definition main_phase_b (args : Args) (attack : Attack)
    (evidence_file case_folder attack_dir : Path)
    (file_search_store_id : option string) : M Path :=
  let counter_req_file := attack_dir // "counter_requirements.json" in
  reuse <- (if arg_skip_counter_req args then path_exists counter_req_file else ret false) ;;
  if reuse then
    log "Skipping Phase B (using existing counter_requirements.json)" (Some "INFO") ;;
    ret counter_req_file
  else
    phase_b_counter_requirements (arg_agent args) attack evidence_file case_folder
      attack_dir file_search_store_id.

(** [attacks[-1]] *)
Definition last_attack (attacks : list Attack) : M Attack :=
  match attacks with
  | [] => raise IndexError
  | a :: l => ret (last l a)
  end.

(** Lines 832-892: the body of the loop over the attacks. *)
Definition process_attack (args : Args) (file_search_store_id : option string)
    (attacks : list Attack) (attack : Attack) : M unit :=
  let case_folder := arg_case_folder args in
  let strategy_dir := strategy_dir_of args in
  let attack_dir := attack_dir_of strategy_dir attack in
  path_mkdir attack_dir ;;
  log ("
" ++ repeat_str "=" 40) (Some "INFO") ;;
  log ("Processing Attack " ++ attack_id attack ++ ": " ++ attack_name attack)
    (Some "PHASE") ;;
  log (repeat_str "=" 40) (Some "INFO") ;;
  evidence_file <- main_phase_a args attack case_folder attack_dir file_search_store_id ;;
  log "  ⏳ Waiting 5s before Phase B..." (Some "INFO") ;;
  time_sleep 5 ;;
  counter_req_file <- main_phase_b args attack evidence_file case_folder attack_dir
                        file_search_store_id ;;
  log "  ⏳ Waiting 5s before Phase D..." (Some "INFO") ;;
  time_sleep 5 ;;
  phase_d_viability_analysis (arg_agent args) attack evidence_file counter_req_file
    attack_dir case_folder ;;
  log ("Attack " ++ attack_id attack ++ " complete!") (Some "DONE") ;;
  final_attack <- last_attack attacks ;;
  if negb (attack_eqb attack final_attack) then
    let delay_between_attacks := 5%Z in
    log "Waiting 5s before next attack to avoid rate limits..." (Some "INFO") ;;
    time_sleep delay_between_attacks
  else ret tt.

(** Lines 916-922. *)
Definition log_created_files (strategy_dir : Path) (attack : Attack) : M unit :=
  let attack_dir := attack_dir_of strategy_dir attack in
  log ("  - " ++ path_name attack_dir ++ "/EVIDENCE_ANALYSIS.json") None ;;
  log ("  - " ++ path_name attack_dir ++ "/counter_requirements.json") None ;;
  log ("  - " ++ path_name attack_dir ++ "/analysis.md") None.

(** Lines 817-923: the relay over the selected attacks. *)
Definition main_relay (args : Args) (file_search_store_id : option string)
    (attacks : list Attack) : M unit :=
  let case_folder := arg_case_folder args in
  let strategy_dir := strategy_dir_of args in
  log (repeat_str "=" 60) (Some "INFO") ;;
  log "DEFENSIVE STRATEGY RELAY" (Some "START") ;;
  log (repeat_str "=" 60) (Some "INFO") ;;
  log ("Case Folder: " ++ path_name case_folder) None ;;
  log ("Workspace: " ++ arg_workspace args) None ;;
  log ("Strategy: " ++ arg_strategy args) None ;;
  log ("Agent: " ++ arg_agent args) None ;;
  log ("Attacks to process: " ++ str_of_nat (length attacks)) None ;;
  (if truthy file_search_store_id then
     log ("File Search: " ++ py_str file_search_store_id) None
   else ret tt) ;;
  log (repeat_str "=" 60) (Some "INFO") ;;
  for_each attacks (process_attack args file_search_store_id attacks) ;;
  log ("
" ++ repeat_str "=" 40) (Some "INFO") ;;
  log "Generating Gap Analysis" (Some "PHASE") ;;
  log (repeat_str "=" 40) (Some "INFO") ;;
  log "  ⏳ Waiting 5s before Phase E..." (Some "INFO") ;;
  time_sleep 5 ;;
  phase_e_gap_analysis (arg_agent args) strategy_dir case_folder ;;
  log ("
" ++ repeat_str "=" 60) (Some "INFO") ;;
  log "DEFENSIVE STRATEGY RELAY COMPLETE" (Some "DONE") ;;
  log (repeat_str "=" 60) (Some "INFO") ;;
  log ("Results in: " ++ path_str strategy_dir) None ;;
  log "" None ;;
  log "Files created/updated:" None ;;
  for_each attacks (log_created_files strategy_dir) ;;
  log "  - GAP_ANALYSIS.md" None.

Definition main (args : Args) : M unit :=
  loaded <- main_load args ;;
  attacks <- main_filter args (snd loaded) ;;
  main_relay args (fst loaded) attacks.

End Relay.

Arguments Run {env} A.
Arguments mkRun {env A} result final trace.
Arguments result {env A} r.
Arguments final {env A} r.
Arguments trace {env A} r.
Arguments M {env} A.

(** ** What a trace shows *)

(** The agent invocations of a trace, in order. *)
Fixpoint calls (t : list Event) : list AgentCall :=
  match t with
  | [] => []
  | Invoke c :: t' => c :: calls t'
  | _ :: t' => calls t'
  end.

(** The phases whose agent was invoked, by the name each phase gives its call. *)
Definition phase_names (t : list Event) : list string :=
  map call_phase_name (calls t).

(** The sleeps of a trace, in order. *)
Fixpoint sleeps (t : list Event) : list Z :=
  match t with
  | [] => []
  | Sleep n :: t' => n :: sleeps t'
  | _ :: t' => sleeps t'
  end.

(** A trace without its log lines: sleeps and agent invocations. *)
Inductive Step :=
| Slept (seconds : Z)
| Called (phase : string).

Fixpoint steps (t : list Event) : list Step :=
  match t with
  | [] => []
  | Log _ _ :: t' => steps t'
  | Sleep n :: t' => Slept n :: steps t'
  | Invoke c :: t' => Called (call_phase_name c) :: steps t'
  end.

(** The error lines of a trace. *)
Fixpoint errors (t : list Event) : list string :=
  match t with
  | [] => []
  | Log m (Some "ERROR") :: t' => m :: errors t'
  | _ :: t' => errors t'
  end.

Definition phase_a_name (a : Attack) : string := "Phase_A_Evidence_" ++ attack_id a.
Definition phase_b_name (a : Attack) : string := "Phase_B_Counter_Req_" ++ attack_id a.
Definition phase_d_name (a : Attack) : string := "Phase_D_Viability_" ++ attack_id a.
Definition phase_e_name : string := "Phase_E_Gap_Analysis".
Definition phase_0_name : string := "Phase_0_Attack_Detection".

(** * Properties of the relay *)

Section RelayFacts.

Context {env : Env}.

(** ** Traces *)

Lemma calls_app (t1 t2 : list Event) : calls (t1 ++ t2) = (calls t1 ++ calls t2)%list.
Proof.
  induction t1 as [|e t1 IH]; simpl; [reflexivity|].
  destruct e; simpl; rewrite IH; reflexivity.
Qed.

Lemma sleeps_app (t1 t2 : list Event) : sleeps (t1 ++ t2) = (sleeps t1 ++ sleeps t2)%list.
Proof.
  induction t1 as [|e t1 IH]; simpl; [reflexivity|].
  destruct e; simpl; rewrite IH; reflexivity.
Qed.

Lemma steps_app (t1 t2 : list Event) : steps (t1 ++ t2) = (steps t1 ++ steps t2)%list.
Proof.
  induction t1 as [|e t1 IH]; simpl; [reflexivity|].
  destruct e; simpl; rewrite IH; reflexivity.
Qed.

(** The phase names of a trace are the [Called] steps of its skeleton. *)
Fixpoint called (s : list Step) : list string :=
  match s with
  | [] => []
  | Called p :: s' => p :: called s'
  | Slept _ :: s' => called s'
  end.

Fixpoint slept (s : list Step) : list Z :=
  match s with
  | [] => []
  | Slept n :: s' => n :: slept s'
  | Called _ :: s' => slept s'
  end.

Lemma called_steps (t : list Event) : called (steps t) = phase_names t.
Proof.
  induction t as [|e t IH]; simpl; [reflexivity|].
  destruct e; simpl; try apply IH. unfold phase_names in *. simpl. now rewrite IH.
Qed.

Lemma slept_steps (t : list Event) : slept (steps t) = sleeps t.
Proof.
  induction t as [|e t IH]; simpl; [reflexivity|].
  destruct e; simpl; now rewrite ?IH.
Qed.

Lemma called_app (s1 s2 : list Step) : called (s1 ++ s2) = (called s1 ++ called s2)%list.
Proof.
  induction s1 as [|x s1 IH]; simpl; [reflexivity|].
  destruct x; simpl; now rewrite IH.
Qed.

Lemma slept_app (s1 s2 : list Step) : slept (s1 ++ s2) = (slept s1 ++ slept s2)%list.
Proof.
  induction s1 as [|x s1 IH]; simpl; [reflexivity|].
  destruct x; simpl; now rewrite IH.
Qed.

(** ** Running the monad *)

(** [m] run in [w] returns [a], leaves the world [w'] and shows [t]. *)
Definition runs {A} (m : M A) (w : World) (a : A) (w' : World) (t : list Event) : Prop :=
  m w = mkRun (Ret a) w' t.

(** [m] run in [w] ends the process with [code]. *)
Definition exits {A} (m : M A) (w : World) (code : Z) (w' : World) (t : list Event) : Prop :=
  m w = mkRun (Exit code) w' t.

Lemma bind_runs {A B} (m : M A) (f : A -> M B) w a w1 t1 :
  runs m w a w1 t1 ->
  bind m f w = mkRun (result (f a w1)) (final (f a w1)) (t1 ++ trace (f a w1)).
Proof. unfold runs, bind. intros ->. reflexivity. Qed.

Lemma runs_bind {A B} (m : M A) (f : A -> M B) w a w1 t1 b w2 t2 :
  runs m w a w1 t1 -> runs (f a) w1 b w2 t2 -> runs (bind m f) w b w2 (t1 ++ t2).
Proof. intros H1 H2. unfold runs. rewrite (bind_runs _ _ _ _ _ _ H1), H2. reflexivity. Qed.

Lemma exits_bind_now {A B} (m : M A) (f : A -> M B) w code w1 t1 :
  exits m w code w1 t1 -> exits (bind m f) w code w1 t1.
Proof. unfold exits, bind. intros ->. reflexivity. Qed.

Lemma exits_bind_later {A B} (m : M A) (f : A -> M B) w a w1 t1 code w2 t2 :
  runs m w a w1 t1 -> exits (f a) w1 code w2 t2 -> exits (bind m f) w code w2 (t1 ++ t2).
Proof. intros H1 H2. unfold exits. rewrite (bind_runs _ _ _ _ _ _ H1), H2. reflexivity. Qed.

Lemma runs_ret {A} (a : A) w : runs (ret a) w a w [].
Proof. reflexivity. Qed.

Lemma runs_inj {A} (m : M A) w a w1 t1 b w2 t2 :
  runs m w a w1 t1 -> runs m w b w2 t2 -> a = b /\ w1 = w2 /\ t1 = t2.
Proof. unfold runs. intros -> [= -> -> ->]. auto. Qed.

Lemma split_on_component (s : string) : has_slash s = false -> split_on "/" s = [s].
Proof.
  induction s as [|c s IH]; [reflexivity|]. cbn [has_slash split_on].
  destruct (Ascii.eqb c "/"); [discriminate|]. cbn [orb]. intros H.
  rewrite (IH H). reflexivity.
Qed.

(** Joining one component adds it below the path. *)
Lemma path_join_component (p : Path) (s : string) :
  is_component s = true -> p // s = mkPath (path_root p) (path_parts p ++ [s]).
Proof.
  unfold is_component, path_join, parse_parts. intros H.
  apply andb_prop in H. destruct H as [H Hslash].
  apply andb_prop in H. destruct H as [Hempty Hdot].
  apply negb_true_iff in Hslash, Hempty, Hdot.
  rewrite (split_on_component s Hslash). cbn [filter]. rewrite Hempty, Hdot. cbn [orb negb].
  destruct s as [|c s]; [discriminate|].
  cbn [has_slash] in Hslash. apply orb_false_elim in Hslash. destruct Hslash as [Hc _].
  unfold parse_root. destruct (Ascii.eqb_spec c "/") as [->|Hne]; [discriminate|].
  destruct c as [[] [] [] [] [] [] [] []]; try reflexivity. congruence.
Qed.

Lemma path_name_join (p : Path) (s : string) :
  is_component s = true -> path_name (p // s) = s.
Proof.
  intros H. rewrite (path_join_component p s H). unfold path_name. cbn [path_parts].
  apply last_last.
Qed.

(** ** The phase functions *)

Ltac the_call w :=
  match goal with
  | |- context [util_run_agent ?c w] => exists c
  end.

Ltac by_cases_on_file :=
  match goal with
  | |- context [fs_exists ?w ?p] => destruct (fs_exists w p) eqn:?
  end.

(** What Phase A does in any world: one log line, one agent invocation,
    one line on whether the file is there, and the derived path. *)
Lemma phase_a_runs agent attack case_folder output_dir fsid w :
  let output_file := output_dir // "EVIDENCE_ANALYSIS.json" in
  exists c,
    let w' := snd (util_run_agent c w) in
    runs (phase_a_evidence_analysis agent attack case_folder output_dir fsid) w
      output_file w'
      [Log ("Phase A: Analyzing evidence for Attack " ++ attack_id attack ++ ": "
              ++ attack_name attack) (Some "PHASE");
       Invoke c;
       if fs_exists w' output_file
       then Log "  → Created: EVIDENCE_ANALYSIS.json" (Some "DONE")
       else Log "Agent did not create EVIDENCE_ANALYSIS.json" (Some "ERROR")]
    /\ call_phase_name c = phase_a_name attack.
Proof.
  intros output_file. subst output_file. unfold runs, phase_a_evidence_analysis.
  rewrite path_name_join by reflexivity. cbn. the_call w. cbn.
  split; [|reflexivity]. by_cases_on_file; reflexivity.
Qed.

Lemma phase_b_runs agent attack evidence_file case_folder output_dir fsid w :
  let output_file := output_dir // "counter_requirements.json" in
  exists c,
    let w' := snd (util_run_agent c w) in
    runs (phase_b_counter_requirements agent attack evidence_file case_folder
            output_dir fsid) w
      output_file w'
      [Log ("Phase B: Extracting counter-requirements + fact matching for Attack "
              ++ attack_id attack) (Some "PHASE");
       Invoke c;
       if fs_exists w' output_file
       then Log "  → Created: counter_requirements.json" (Some "DONE")
       else Log "Agent did not create counter_requirements.json" (Some "ERROR")]
    /\ call_phase_name c = phase_b_name attack
    /\ call_context c =
         phase_b_context (util_load_json_file w evidence_file)
           (util_load_json_file w (case_folder // "case-context" // "documents_index.json"))
           attack.
Proof.
  intros output_file. subst output_file. unfold runs, phase_b_counter_requirements.
  rewrite path_name_join by reflexivity. cbn. the_call w. cbn.
  split; [|split; reflexivity]. by_cases_on_file; reflexivity.
Qed.

Lemma phase_d_runs agent attack evidence_file counter_req_file output_dir case_folder w :
  let output_file := output_dir // "analysis.md" in
  exists c,
    let w' := snd (util_run_agent c w) in
    runs (phase_d_viability_analysis agent attack evidence_file counter_req_file
            output_dir case_folder) w
      output_file w'
      [Log ("Phase D: Analyzing viability for Attack " ++ attack_id attack) (Some "PHASE");
       Invoke c;
       if fs_exists w' output_file
       then Log "  → Created: analysis.md" (Some "DONE")
       else Log "Agent did not create analysis.md" (Some "ERROR")]
    /\ call_phase_name c = phase_d_name attack
    /\ call_context c =
         phase_d_context (util_load_json_file w evidence_file)
           (util_load_json_file w counter_req_file)
    /\ call_task c =
         phase_d_task (attack_id attack) (attack_name attack) output_file
           (clock_strftime w).
Proof.
  intros output_file. subst output_file. unfold runs, phase_d_viability_analysis.
  rewrite path_name_join by reflexivity. cbn. the_call w. cbn.
  split; [|repeat split; reflexivity]. by_cases_on_file; reflexivity.
Qed.

Lemma append_json_sections_runs files filename context w :
  exists s, runs (append_json_sections files filename context) w s w [].
Proof.
  revert context. induction files as [|f rest IH]; intros context; simpl.
  - eexists. apply runs_ret.
  - unfold runs in *. cbn.
    match goal with
    | |- context [append_json_sections rest filename ?ctx] =>
        destruct (IH ctx) as [s Hs]
    end.
    exists s. rewrite Hs. reflexivity.
Qed.

Lemma append_text_sections_runs files context w :
  exists s, runs (append_text_sections files context) w s w [].
Proof.
  revert context. induction files as [|f rest IH]; intros context; simpl.
  - eexists. apply runs_ret.
  - unfold runs in *. cbn.
    match goal with
    | |- context [append_text_sections rest ?ctx] => destruct (IH ctx) as [s Hs]
    end.
    exists s. rewrite Hs. reflexivity.
Qed.

Lemma phase_e_runs agent strategy_dir case_folder w :
  let output_file := strategy_dir // "GAP_ANALYSIS.md" in
  exists c,
    let w' := snd (util_run_agent c w) in
    runs (phase_e_gap_analysis agent strategy_dir case_folder) w
      output_file w'
      [Log "Phase E: Generating gap analysis" (Some "PHASE");
       Invoke c;
       if fs_exists w' output_file
       then Log "  → Created: GAP_ANALYSIS.md" (Some "DONE")
       else Log "Agent did not create GAP_ANALYSIS.md" (Some "ERROR")]
    /\ call_phase_name c = phase_e_name.
Proof.
  intros output_file. subst output_file. unfold runs, phase_e_gap_analysis. cbn.
  repeat match goal with
         | |- context [bind (append_json_sections ?fs ?n ?ctx) ?k w] =>
             let s := fresh "s" in
             let Hs := fresh "Hs" in
             destruct (append_json_sections_runs fs n ctx w) as [s Hs];
             rewrite (bind_runs _ k _ _ _ _ Hs); cbn
         | |- context [bind (append_text_sections ?fs ?ctx) ?k w] =>
             let s := fresh "s" in
             let Hs := fresh "Hs" in
             destruct (append_text_sections_runs fs ctx w) as [s Hs];
             rewrite (bind_runs _ k _ _ _ _ Hs); cbn
         end.
  the_call w. cbn.
  split; [|reflexivity]. by_cases_on_file; reflexivity.
Qed.

(** The postcondition Phase 0 checks: the file exists, parses, and lists
    at least one attack. *)
Definition detection_ok (w : World) (output_file : Path) : bool :=
  fs_exists w output_file
  && match util_load_json_file w output_file with
     | Some d => match doc_attacks d with
                 | Some (_ :: _) => true
                 | _ => false
                 end
     | None => false
     end.

Lemma document_is_empty_attacks d : document_is_empty d = true -> doc_attacks d = None.
Proof.
  unfold document_is_empty.
  destruct (doc_file_search_store_id d), (doc_attacks d), (doc_other_keys d);
    intros; congruence.
Qed.

Lemma phase_0_runs agent case_folder strategy_dir motion fsid w :
  let output_file := strategy_dir // "ATTACKS.json" in
  exists c,
    let w' := snd (util_run_agent c w) in
    exists t,
      runs (phase_0_detect_attacks agent case_folder strategy_dir motion fsid) w
        (if detection_ok w' output_file then Some output_file else None) w' t
      /\ steps t = [Called phase_0_name]
      /\ calls t = [c]
      /\ call_phase_name c = phase_0_name
      /\ (detection_ok w' output_file = false -> exists line, errors t = [line]).
Proof.
  intros output_file. subst output_file.
  unfold runs, phase_0_detect_attacks, detection_ok. cbn. the_call w. cbn.
  assert (Hline : forall m motion' c',
             exists line,
               errors [Log ("Phase 0: Auto-detecting attacks from '" ++ motion' ++ "'")
                         (Some "PHASE"); Invoke c'; Log m (Some "ERROR")] = [line])
    by (intros; eexists; reflexivity).
  by_cases_on_file; cbn.
  - match goal with
    | |- context [util_load_json_file ?w ?p] =>
        destruct (util_load_json_file w p) as [d|] eqn:Hload
    end; cbn.
    + destruct (document_is_empty d) eqn:Hempty; cbn.
      * rewrite (document_is_empty_attacks d Hempty). cbn.
        eexists. repeat split; auto.
      * destruct (doc_attacks d) as [[|a l]|]; cbn;
          eexists; repeat split; auto; discriminate.
    + eexists. repeat split; auto.
  - eexists. repeat split; auto.
Qed.

(** ** The loop body *)

Arguments phase_0_detect_attacks : simpl never.
Arguments phase_a_evidence_analysis : simpl never.
Arguments phase_b_counter_requirements : simpl never.
Arguments phase_d_viability_analysis : simpl never.
Arguments phase_e_gap_analysis : simpl never.

(** Lines 841-852 in any world: the file is reused exactly when
    --skip-evidence is given and the file exists; the path handed on is
    the same in both cases. *)
Lemma main_phase_a_runs args attack case_folder attack_dir fsid w :
  let evidence_file := attack_dir // "EVIDENCE_ANALYSIS.json" in
  let reuse := arg_skip_evidence args && fs_exists w evidence_file in
  exists w' t,
    runs (main_phase_a args attack case_folder attack_dir fsid) w evidence_file w' t
    /\ steps t = (if reuse then [] else [Called (phase_a_name attack)])
    /\ (reuse = true ->
        w' = w
        /\ t = [Log "Skipping Phase A (using existing EVIDENCE_ANALYSIS.json)" (Some "INFO")]).
Proof.
  intros evidence_file reuse. subst evidence_file reuse.
  destruct (phase_a_runs (arg_agent args) attack case_folder attack_dir fsid w)
    as (c & Hrun & Hname).
  unfold runs in *. unfold main_phase_a.
  destruct (arg_skip_evidence args); cbn.
  - by_cases_on_file; cbn.
    + do 2 eexists. split; [reflexivity|]. split; [reflexivity|]. auto.
    + rewrite Hrun. do 2 eexists. split; [reflexivity|]. split; [|discriminate].
      cbn. rewrite Hname. destruct (fs_exists _ _); reflexivity.
  - rewrite Hrun. do 2 eexists. split; [reflexivity|]. split; [|discriminate].
    cbn. rewrite Hname. destruct (fs_exists _ _); reflexivity.
Qed.

(** Lines 858-870 in any world.  When Phase B runs, its context is built
    from the evidence file it was handed. *)
Lemma main_phase_b_runs args attack evidence_file case_folder attack_dir fsid w :
  let counter_req_file := attack_dir // "counter_requirements.json" in
  let reuse := arg_skip_counter_req args && fs_exists w counter_req_file in
  exists w' t,
    runs (main_phase_b args attack evidence_file case_folder attack_dir fsid) w
      counter_req_file w' t
    /\ steps t = (if reuse then [] else [Called (phase_b_name attack)])
    /\ (reuse = true -> w' = w)
    /\ (forall c, In c (calls t) ->
        call_phase_name c = phase_b_name attack
        /\ call_context c =
             phase_b_context (util_load_json_file w evidence_file)
               (util_load_json_file w (case_folder // "case-context" // "documents_index.json"))
               attack).
Proof.
  intros counter_req_file reuse. subst counter_req_file reuse.
  destruct (phase_b_runs (arg_agent args) attack evidence_file case_folder attack_dir fsid w)
    as (c & Hrun & Hname & Hctx).
  assert (Hcalls : forall (line : bool) c',
             In c' (calls [Log
               ("Phase B: Extracting counter-requirements + fact matching for Attack "
                  ++ attack_id attack) (Some "PHASE"); Invoke c;
               if line
               then Log "  → Created: counter_requirements.json" (Some "DONE")
               else Log "Agent did not create counter_requirements.json" (Some "ERROR")])
             -> c' = c).
  { intros line c'. destruct line; cbn; intuition. }
  unfold runs in *. unfold main_phase_b.
  destruct (arg_skip_counter_req args); cbn.
  - by_cases_on_file; cbn.
    + do 2 eexists. split; [reflexivity|]. split; [reflexivity|]. split; [auto|].
      intros c' [].
    + rewrite Hrun. do 2 eexists. split; [reflexivity|].
      split; [|split; [discriminate|]].
      * cbn. rewrite Hname. destruct (fs_exists _ _); reflexivity.
      * intros c' Hin. apply Hcalls in Hin. subst c'. auto.
  - rewrite Hrun. do 2 eexists. split; [reflexivity|].
    split; [|split; [discriminate|]].
    + cbn. rewrite Hname. destruct (fs_exists _ _); reflexivity.
    + intros c' Hin. apply Hcalls in Hin. subst c'. auto.
Qed.

(** The skeleton of one pass through the loop body. *)
Definition attack_steps (attack : Attack) (reuse_a reuse_b is_final : bool) : list Step :=
  ((if reuse_a then [] else [Called (phase_a_name attack)])
   ++ [Slept 5]
   ++ (if reuse_b then [] else [Called (phase_b_name attack)])
   ++ [Slept 5; Called (phase_d_name attack)]
   ++ (if is_final then [] else [Slept 5]))%list.

(** [attack != attacks[-1]] is false: the attack equals the last entry. *)
Definition equals_last (attacks : list Attack) (attack : Attack) : bool :=
  attack_eqb attack (last attacks attack).

Lemma last_cons {A} (a d : A) (l : list A) : last (a :: l) d = last l a.
Proof.
  revert a d. induction l as [|b l IH]; intros a d; [reflexivity|].
  change (last (a :: b :: l) d) with (last (b :: l) d). rewrite !IH. reflexivity.
Qed.

Lemma last_attack_runs attacks attack w :
  attacks <> [] -> runs (last_attack attacks) w (last attacks attack) w [].
Proof.
  destruct attacks as [|a l]; [congruence|]. intros _.
  rewrite last_cons. reflexivity.
Qed.

(** [m] run in [w] returns, and the value, the world and the trace
    satisfy [Q]. *)
Definition spec {A} (m : M A) (w : World) (Q : A -> World -> list Event -> Prop) : Prop :=
  exists a w' t, runs m w a w' t /\ Q a w' t.

Lemma runs_then {A B} (m : M A) (f : A -> M B) w a w1 t1 Q :
  runs m w a w1 t1 ->
  spec (f a) w1 (fun b w2 t2 => Q b w2 (t1 ++ t2)%list) ->
  spec (bind m f) w Q.
Proof.
  intros H1 (b & w2 & t2 & H2 & HQ). exists b, w2, (t1 ++ t2)%list.
  split; [eapply runs_bind; eassumption | assumption].
Qed.

Lemma spec_ret {A} (a : A) w (Q : A -> World -> list Event -> Prop) :
  Q a w [] -> spec (ret a) w Q.
Proof. intros HQ. exists a, w, []. split; [reflexivity | assumption]. Qed.

Lemma spec_runs {A} (m : M A) w a w' t (Q : A -> World -> list Event -> Prop) :
  runs m w a w' t -> Q a w' t -> spec m w Q.
Proof. intros H HQ. exists a, w', t. split; assumption. Qed.

(** One primitive step: a log line, a sleep, a directory, a test. *)
Ltac prim := eapply runs_then; [reflexivity|]; cbn beta.

Ltac prims := repeat prim.

Lemma process_attack_spec args fsid attacks attack w :
  attacks <> [] ->
  let attack_dir := attack_dir_of (strategy_dir_of args) attack in
  let reuse_a := arg_skip_evidence args
                 && fs_exists (fs_mkdir w attack_dir) (attack_dir // "EVIDENCE_ANALYSIS.json") in
  spec (process_attack args fsid attacks attack) w
    (fun _ _ t =>
       exists reuse_b,
         steps t = attack_steps attack reuse_a reuse_b (equals_last attacks attack)
         /\ (arg_skip_counter_req args = false -> reuse_b = false)).
Proof.
  intros Hne attack_dir reuse_a. subst reuse_a. unfold process_attack.
  fold attack_dir. do 4 prim.
  destruct (main_phase_a_runs args attack (arg_case_folder args) attack_dir fsid
              (fs_mkdir w attack_dir)) as (wa & ta & Ha & Hsa & _).
  eapply runs_then; [exact Ha|]; cbn beta. do 2 prim.
  destruct (main_phase_b_runs args attack (attack_dir // "EVIDENCE_ANALYSIS.json")
              (arg_case_folder args) attack_dir fsid (clock_sleep 5 wa))
    as (wb & tb & Hb & Hsb & _ & _).
  eapply runs_then; [exact Hb|]; cbn beta. do 2 prim.
  destruct (phase_d_runs (arg_agent args) attack (attack_dir // "EVIDENCE_ANALYSIS.json")
              (attack_dir // "counter_requirements.json") attack_dir (arg_case_folder args)
              (clock_sleep 5 wb)) as (cd & Hd & Hnd & _).
  eapply runs_then; [exact Hd|]; cbn beta. prim.
  eapply runs_then; [apply (last_attack_runs attacks attack _ Hne)|]; cbn beta.
  fold (equals_last attacks attack).
  match goal with
  | |- spec _ _ ?Q =>
      assert (Hpost : forall (tail : list Event) (b : bool),
                 steps tail = (if b then [] else [Slept 5]) ->
                 b = equals_last attacks attack ->
                 forall (u : unit) (w0 : World), Q u w0 tail)
  end.
  { intros tail b Htail -> u w0.
    exists (arg_skip_counter_req args
            && fs_exists (clock_sleep 5 wa) (attack_dir // "counter_requirements.json")).
    split.
    - rewrite !steps_app, Hsa, Hsb, Htail. cbn [steps app]. rewrite Hnd.
      destruct (fs_exists _ (attack_dir // "analysis.md")); reflexivity.
    - intros ->. reflexivity. }
  destruct (equals_last attacks attack) eqn:Heq; cbn [negb].
  - apply spec_ret. apply (Hpost [] true); first [reflexivity | symmetry; assumption | exact tt | exact w].
  - prim. eapply spec_runs; [reflexivity|].
    apply (Hpost _ false); first [reflexivity | symmetry; assumption | exact tt | exact w].
Qed.

(** ** The relay *)

(** The skeleton of the loop over [l], the attacks being [attacks]: one
    [attack_steps] per entry, in order.  A phase is left out only under
    its skip flag. *)
Inductive loop_steps (args : Args) (attacks : list Attack) : list Attack -> list Step -> Prop :=
| loop_done : loop_steps args attacks [] []
| loop_next a l reuse_a reuse_b s :
    (arg_skip_evidence args = false -> reuse_a = false) ->
    (arg_skip_counter_req args = false -> reuse_b = false) ->
    loop_steps args attacks l s ->
    loop_steps args attacks (a :: l)
      (attack_steps a reuse_a reuse_b (equals_last attacks a) ++ s)%list.

Lemma for_each_process_spec args fsid attacks l w :
  attacks <> [] ->
  spec (for_each l (process_attack args fsid attacks)) w
    (fun _ _ t => loop_steps args attacks l (steps t)).
Proof.
  intros Hne. revert w. induction l as [|a l IH]; intros w; cbn [for_each].
  - apply spec_ret. constructor.
  - destruct (process_attack_spec args fsid attacks a w Hne)
      as ([] & w1 & t1 & Hrun & rb & Hsteps & Hrb).
    eapply runs_then; [exact Hrun|]. cbn beta.
    destruct (IH w1) as (u & w2 & t2 & Hrun2 & Hloop).
    exists u, w2, t2. split; [exact Hrun2|].
    rewrite steps_app, Hsteps. constructor; [|exact Hrb|exact Hloop].
    intros ->. reflexivity.
Qed.

Lemma for_each_log_created_files_runs strategy_dir l w :
  exists t, runs (for_each l (log_created_files strategy_dir)) w tt w t /\ steps t = [].
Proof.
  induction l as [|a l (t & Hrun & Hsteps)]; cbn [for_each].
  - exists []. split; reflexivity.
  - eexists. split.
    + eapply runs_bind; [reflexivity | exact Hrun].
    + rewrite steps_app, Hsteps. reflexivity.
Qed.

Definition relay_complete : Event := Log "DEFENSIVE STRATEGY RELAY COMPLETE" (Some "DONE").

(** In a trace [a1 ++ (a2 ++ ... ([x] ++ rest))], what stands before [x]
    and what stands after it. *)
Ltac before x t :=
  lazymatch t with
  | ([x] ++ _)%list => constr:(@nil Event)
  | (?a ++ ?rest)%list => let p := before x rest in constr:((a ++ p)%list)
  end.

Ltac after x t :=
  lazymatch t with
  | ([x] ++ ?rest)%list => rest
  | (_ ++ ?rest)%list => after x rest
  end.

(** The relay always runs to its end: the loop, then one sleep, then
    Phase E, then the closing lines. *)
Lemma main_relay_spec args fsid attacks w :
  spec (main_relay args fsid attacks) w
    (fun _ _ t =>
       exists s,
         loop_steps args attacks attacks s
         /\ steps t = (s ++ [Slept 5; Called phase_e_name])%list
         /\ exists t1 t2, t = (t1 ++ relay_complete :: t2)%list /\ steps t2 = []).
Proof.
  unfold main_relay. do 8 prim.
  assert (Hhead : spec (if truthy fsid
                        then log ("File Search: " ++ py_str fsid) None
                        else ret tt) w
                    (fun _ w' t => w' = w /\ steps t = [])).
  { destruct (truthy fsid); eapply spec_runs; try reflexivity; auto. }
  destruct Hhead as ([] & w0 & t0 & Hrun0 & -> & Hs0).
  eapply runs_then; [exact Hrun0|]. cbn beta. prim.
  assert (Hloop : spec (for_each attacks (process_attack args fsid attacks)) w
                    (fun _ _ t => loop_steps args attacks attacks (steps t))).
  { destruct attacks as [|a l].
    - apply spec_ret. constructor.
    - apply for_each_process_spec. discriminate. }
  destruct Hloop as ([] & w1 & t1 & Hrun1 & Hsteps1).
  eapply runs_then; [exact Hrun1|]. cbn beta. do 5 prim.
  destruct (phase_e_runs (arg_agent args) (strategy_dir_of args) (arg_case_folder args)
              (clock_sleep 5 w1)) as (ce & Hrune & Hne).
  eapply runs_then; [exact Hrune|]. cbn beta. prim.
  do 5 prim.
  destruct (for_each_log_created_files_runs (strategy_dir_of args) attacks
              (snd (util_run_agent ce (clock_sleep 5 w1)))) as (t3 & Hrun3 & Hs3).
  eapply runs_then; [exact Hrun3|]. cbn beta.
  eapply spec_runs; [reflexivity|].
  exists (steps t1). split; [exact Hsteps1|].
  assert (He : forall line : bool,
             steps [Log "Phase E: Generating gap analysis" (Some "PHASE"); Invoke ce;
                    if line then Log "  → Created: GAP_ANALYSIS.md" (Some "DONE")
                    else Log "Agent did not create GAP_ANALYSIS.md" (Some "ERROR")]
             = [Called phase_e_name]).
  { intros line. cbn. rewrite Hne. destruct line; reflexivity. }
  split.
  - rewrite !steps_app, Hs0, Hs3, He. cbn. rewrite ?app_nil_r. reflexivity.
  - unfold relay_complete.
    match goal with
    | |- exists t1 t2, ?t = _ /\ _ =>
        let p := before (Log "DEFENSIVE STRATEGY RELAY COMPLETE" (Some "DONE")) t in
        let s := after (Log "DEFENSIVE STRATEGY RELAY COMPLETE" (Some "DONE")) t in
        exists p, s
    end.
    split.
    + rewrite <- !app_assoc. reflexivity.
    + rewrite !steps_app, Hs3. reflexivity.
Qed.

(** ** Loading the attacks *)

Definition settings_file_of (args : Args) : Path :=
  arg_case_folder args // "case-context" // "settings.json".

Definition attacks_file_of (args : Args) : Path :=
  strategy_dir_of args // "ATTACKS.json".

(** The world once the strategy directory is there. *)
Definition world_after_setup (args : Args) (w : World) : World :=
  fs_mkdir w (strategy_dir_of args).

Definition settings_of (args : Args) (w : World) : option Document :=
  util_load_json_file (world_after_setup args w) (settings_file_of args).

Definition store_id_of (args : Args) (w : World) : option string :=
  match settings_of args w with
  | Some settings => doc_file_search_store_id settings
  | None => None
  end.

(** The run of Phase 0 that --auto-detect asks for. *)
Definition detection_run (args : Args) (w : World) : Run (option Path) :=
  phase_0_detect_attacks (arg_agent args) (arg_case_folder args) (strategy_dir_of args)
    (arg_motion args) (store_id_of args w) (world_after_setup args w).

(** The world in which ATTACKS.json is looked for and loaded. *)
Definition world_at_load (args : Args) (w : World) : World :=
  if arg_auto_detect args then final (detection_run args w) else world_after_setup args w.

Definition attacks_loaded (args : Args) (w : World) : list Attack :=
  match util_load_json_file (world_at_load args w) (attacks_file_of args) with
  | Some data => match doc_attacks data with
                 | Some l => l
                 | None => []
                 end
  | None => []
  end.

(** The conditions under which the spec says the process exits with 1. *)
Definition case_folder_missing (args : Args) (w : World) : bool :=
  negb (fs_exists w (arg_case_folder args)).

Definition workspace_missing (args : Args) (w : World) : bool :=
  negb (fs_exists w (workspace_dir_of args)).

Definition attacks_file_missing (args : Args) (w : World) : bool :=
  negb (fs_exists (world_at_load args w) (attacks_file_of args)).

Definition attacks_list_empty (args : Args) (w : World) : bool :=
  match attacks_loaded args w with
  | [] => true
  | _ :: _ => false
  end.

Definition detection_failed (args : Args) (w : World) : bool :=
  arg_auto_detect args && negb (detection_ok (world_at_load args w) (attacks_file_of args)).

Definition load_fails (args : Args) (w : World) : bool :=
  case_folder_missing args w
  || workspace_missing args w
  || attacks_file_missing args w
  || attacks_list_empty args w
  || detection_failed args w.

(** settings.json loads as an object. *)
Definition settings_readable (args : Args) (w : World) : Prop :=
  settings_of args w <> None.

(** Without --auto-detect, an ATTACKS.json that is there loads as an object. *)
Definition attacks_readable (args : Args) (w : World) : Prop :=
  arg_auto_detect args = false ->
  fs_exists (world_at_load args w) (attacks_file_of args) = true ->
  util_load_json_file (world_at_load args w) (attacks_file_of args) <> None.

(** Whether the run gets as far as Phase 0. *)
Definition detection_reached (args : Args) (w : World) : bool :=
  arg_auto_detect args
  && negb (case_folder_missing args w) && negb (workspace_missing args w).

(** [Q] holds of how [m] ends in [w]. *)
Definition outcome {A} (m : M A) (w : World)
    (Q : Result A -> World -> list Event -> Prop) : Prop :=
  Q (result (m w)) (final (m w)) (trace (m w)).

Lemma outcome_runs_then {A B} (m : M A) (f : A -> M B) w a w1 t1 Q :
  runs m w a w1 t1 ->
  outcome (f a) w1 (fun r w2 t2 => Q r w2 (t1 ++ t2)%list) ->
  outcome (bind m f) w Q.
Proof. intros H. unfold outcome. rewrite (bind_runs _ _ _ _ _ _ H). exact (fun x => x). Qed.

Lemma outcome_exits_then {A B} (m : M A) (f : A -> M B) w code w1 t1
    (Q : Result B -> World -> list Event -> Prop) :
  exits m w code w1 t1 -> Q (Exit code) w1 t1 -> outcome (bind m f) w Q.
Proof.
  intros H HQ. apply (exits_bind_now m f) in H. unfold outcome, exits in *.
  rewrite H. exact HQ.
Qed.

Ltac oprim := eapply outcome_runs_then; [reflexivity|]; cbn beta.

Arguments repeat_str : simpl never.

Lemma main_load_spec args w :
  settings_readable args w ->
  attacks_readable args w ->
  outcome (main_load args) w
    (fun r w' t =>
       (if load_fails args w
        then r = Exit 1
        else r = Ret (store_id_of args w, attacks_loaded args w)
             /\ w' = world_at_load args w)
       /\ steps t = (if detection_reached args w then [Called phase_0_name] else [])).
Proof.
  unfold settings_readable, attacks_readable, load_fails, detection_reached,
    case_folder_missing, workspace_missing, attacks_file_missing, attacks_list_empty,
    detection_failed, attacks_loaded, world_at_load, detection_run, store_id_of.
  intros Hsettings Hattacks.
  unfold main_load. oprim.
  destruct (fs_exists w (arg_case_folder args)) eqn:Hcase; cbn [negb orb andb].
  2: { eapply outcome_exits_then; [reflexivity|]. rewrite andb_false_r. split; reflexivity. }
  oprim. oprim.
  destruct (fs_exists w (workspace_dir_of args)) eqn:Hws; cbn [negb orb andb].
  2: { eapply outcome_exits_then; [reflexivity|]. rewrite andb_false_r. split; reflexivity. }
  rewrite andb_true_r.
  oprim. oprim. oprim.
  fold (world_after_setup args w). fold (settings_file_of args).
  fold (settings_of args w) in *.
  destruct (settings_of args w) as [settings|] eqn:Hs; [|congruence].
  oprim. fold (attacks_file_of args).
  destruct (arg_auto_detect args) eqn:Hauto; cbn [negb orb andb].
  - destruct (phase_0_runs (arg_agent args) (arg_case_folder args) (strategy_dir_of args)
                (arg_motion args) (doc_file_search_store_id settings)
                (world_after_setup args w)) as (c & t0 & Hrun & Hsteps & _).
    fold (attacks_file_of args) in Hrun.
    rewrite (f_equal final Hrun). cbn [final].
    set (w1 := snd (util_run_agent c (world_after_setup args w))) in *.
    destruct (detection_ok w1 (attacks_file_of args)) eqn:Hok; cbn [negb].
    + assert (Hr : runs
                (bind (log (repeat_str "=" 60) (Some "INFO")) (fun _ =>
                 bind (log "PHASE 0: AUTO-DETECT ATTACKS" (Some "START")) (fun _ =>
                 bind (log (repeat_str "=" 60) (Some "INFO")) (fun _ =>
                 bind (log ("Searching for: " ++ arg_motion args) None) (fun _ =>
                 bind (phase_0_detect_attacks (arg_agent args) (arg_case_folder args)
                         (strategy_dir_of args) (arg_motion args)
                         (doc_file_search_store_id settings)) (fun detected =>
                 match detected with
                 | None =>
                     bind (log "Failed to auto-detect attacks. Check the raw output."
                             (Some "ERROR")) (fun _ => sys_exit 1)
                 | Some attacks_file => ret attacks_file
                 end))))))
                (world_after_setup args w) (attacks_file_of args) w1
                ([Log (repeat_str "=" 60) (Some "INFO")] ++
                 [Log "PHASE 0: AUTO-DETECT ATTACKS" (Some "START")] ++
                 [Log (repeat_str "=" 60) (Some "INFO")] ++
                 [Log ("Searching for: " ++ arg_motion args) None] ++ t0 ++ [])%list).
      { repeat (eapply runs_bind; [reflexivity|]; cbn beta).
        eapply runs_bind; [exact Hrun|]. reflexivity. }
      eapply outcome_runs_then; [exact Hr|]. cbn beta. oprim.
      unfold detection_ok in Hok. apply andb_prop in Hok. destruct Hok as [Hex Hdoc].
      rewrite Hex in *. cbn [negb orb]. oprim. oprim.
      destruct (util_load_json_file w1 (attacks_file_of args)) as [data|]; [|discriminate].
      oprim.
      destruct (doc_attacks data) as [[|a l]|]; try discriminate.
      unfold outcome. cbn. split; [split; reflexivity|].
      rewrite !steps_app, Hsteps. reflexivity.
    + rewrite !orb_true_r.
      eapply outcome_exits_then.
      * repeat (eapply exits_bind_later; [reflexivity|]; cbn beta).
        eapply exits_bind_later; [exact Hrun|]. reflexivity.
      * split; [reflexivity|]. rewrite !steps_app, Hsteps. reflexivity.
  - specialize (Hattacks eq_refl). rewrite !orb_false_r. oprim. oprim.
    destruct (fs_exists (world_after_setup args w) (attacks_file_of args)) eqn:Hex;
      cbn [negb orb].
    2: { eapply outcome_exits_then; [reflexivity|]. split; reflexivity. }
    specialize (Hattacks eq_refl). oprim. oprim.
    destruct (util_load_json_file _ (attacks_file_of args)) as [data|]; [|congruence].
    oprim.
    destruct (doc_attacks data) as [[|a l]|]; unfold outcome; cbn;
      (split; [try split; reflexivity|reflexivity]).
Qed.


(** ** The whole run *)

(** The attacks the relay runs over: those with the id given by
    --attack, or all of them. *)
Definition attacks_selected (args : Args) (w : World) : list Attack :=
  if truthy (arg_attack args)
  then filter (fun a => String.eqb (attack_id a) (py_str (arg_attack args)))
         (attacks_loaded args w)
  else attacks_loaded args w.

(** --attack names an id that no loaded attack has. *)
Definition attack_not_found (args : Args) (w : World) : bool :=
  truthy (arg_attack args)
  && match attacks_selected args w with
     | [] => true
     | _ :: _ => false
     end.

Lemma main_filter_spec args attacks w :
  outcome (main_filter args attacks) w
    (fun r w' t =>
       let selected := if truthy (arg_attack args)
                       then filter (fun a => String.eqb (attack_id a) (py_str (arg_attack args)))
                              attacks
                       else attacks in
       w' = w /\ steps t = []
       /\ r = (if truthy (arg_attack args)
                  && match selected with [] => true | _ :: _ => false end
               then Exit 1 else Ret selected)).
Proof.
  unfold outcome, main_filter. destruct (truthy (arg_attack args)); cbn.
  - destruct (filter _ attacks); cbn; auto.
  - auto.
Qed.

(** What any run of [main] does, settings.json and ATTACKS.json being
    readable: either it stops with status 1 before the relay, having at
    most invoked Phase 0, or it runs the relay over the selected attacks
    to its end. *)
Lemma main_spec args w :
  settings_readable args w ->
  attacks_readable args w ->
  outcome (main args) w
    (fun r _ t =>
       if load_fails args w || attack_not_found args w
       then r = Exit 1
            /\ steps t = (if detection_reached args w then [Called phase_0_name] else [])
       else r = Ret tt
            /\ exists s,
                loop_steps args (attacks_selected args w) (attacks_selected args w) s
                /\ steps t = ((if arg_auto_detect args then [Called phase_0_name] else [])
                              ++ s ++ [Slept 5; Called phase_e_name])%list
                /\ exists t1 t2, t = (t1 ++ relay_complete :: t2)%list /\ steps t2 = []).
Proof.
  intros Hsettings Hattacks.
  pose proof (main_load_spec args w Hsettings Hattacks) as Hload.
  unfold outcome in *. unfold main.
  destruct (main_load args w) as [r0 w0 t0] eqn:Hrun0. cbn [result final trace] in Hload.
  destruct Hload as [Hres Hsteps0].
  destruct (load_fails args w) eqn:Hfails; cbn [orb].
  - subst r0. unfold bind. rewrite Hrun0. cbn. auto.
  - destruct Hres as [-> ->].
    assert (Hreached : detection_reached args w = arg_auto_detect args).
    { unfold detection_reached. unfold load_fails in Hfails.
      destruct (case_folder_missing args w); [discriminate|].
      destruct (workspace_missing args w); [discriminate|].
      destruct (arg_auto_detect args); reflexivity. }
    rewrite Hreached in Hsteps0.
    rewrite (bind_runs _ _ _ _ _ _ Hrun0). cbn [result final trace fst snd].
    pose proof (main_filter_spec args (attacks_loaded args w) (world_at_load args w)) as Hf.
    unfold outcome in Hf. cbn zeta in Hf.
    fold (attacks_selected args w) in Hf. fold (attack_not_found args w) in Hf.
    destruct (main_filter args (attacks_loaded args w) (world_at_load args w))
      as [r1 w1 t1] eqn:Hrun1.
    cbn [result final trace] in Hf. destruct Hf as (-> & Hsteps1 & ->).
    destruct (attack_not_found args w) eqn:Hnf.
    + unfold bind. rewrite Hrun1. cbn. split; [reflexivity|].
      rewrite steps_app, Hsteps0, Hsteps1, Hreached. apply app_nil_r.
    + rewrite (bind_runs _ _ _ _ _ _ Hrun1). cbn [result final trace].
      destruct (main_relay_spec args (store_id_of args w) (attacks_selected args w)
                  (world_at_load args w))
        as ([] & w2 & t2 & Hrun2 & s & Hloop & Hsteps2 & ta & tb & Hsplit & Htb).
      unfold runs in Hrun2. rewrite Hrun2. cbn [result final trace].
      split; [reflexivity|]. exists s. split; [exact Hloop|]. split.
      * rewrite !steps_app, Hsteps0, Hsteps1, Hsteps2. reflexivity.
      * exists (t0 ++ t1 ++ ta)%list, tb. split; [|exact Htb].
        rewrite Hsplit, <- !app_assoc. reflexivity.
Qed.


(** ** The phases of a run *)

(** The per-attack phase sequence and the aggregate phase, as the
    specification counts them. *)
Definition per_attack_phases (a : Attack) : list string :=
  [phase_a_name a; phase_b_name a; phase_d_name a].

Definition claimed_phase_sequence (attacks : list Attack) : list string :=
  (flat_map per_attack_phases attacks ++ [phase_e_name])%list.

(** [s.startswith(p)] *)
Fixpoint starts_with (p s : string) : bool :=
  match p with
  | EmptyString => true
  | String c p' => match s with
                   | EmptyString => false
                   | String d s' => Ascii.eqb c d && starts_with p' s'
                   end
  end.

Definition is_phase_d (name : string) : bool := starts_with "Phase_D_Viability_" name.

Definition is_phase_e (name : string) : bool := String.eqb name phase_e_name.

Lemma called_attack_steps a reuse_a reuse_b is_final :
  called (attack_steps a reuse_a reuse_b is_final)
  = ((if reuse_a then [] else [phase_a_name a])
     ++ (if reuse_b then [] else [phase_b_name a]) ++ [phase_d_name a])%list.
Proof. destruct reuse_a, reuse_b, is_final; reflexivity. Qed.

Lemma loop_steps_phase_d args attacks l s :
  loop_steps args attacks l s ->
  filter is_phase_d (called s) = map phase_d_name l
  /\ filter is_phase_e (called s) = [].
Proof.
  induction 1 as [|a l ra rb s Ha Hb Hloop [IHd IHe]]; [split; reflexivity|].
  rewrite called_app, called_attack_steps, !filter_app, IHd, IHe.
  destruct ra, rb; split; reflexivity.
Qed.

Lemma loop_steps_no_skip args attacks l s :
  arg_skip_evidence args = false ->
  arg_skip_counter_req args = false ->
  loop_steps args attacks l s ->
  s = flat_map (fun a => attack_steps a false false (equals_last attacks a)) l.
Proof.
  intros Ha Hb. induction 1 as [|a l ra rb s Hra Hrb Hloop IH]; [reflexivity|].
  rewrite (Hra Ha), (Hrb Hb), IH. reflexivity.
Qed.

Lemma called_no_skip attacks l :
  called (flat_map (fun a => attack_steps a false false (equals_last attacks a)) l)
  = flat_map per_attack_phases l.
Proof.
  induction l as [|a l IH]; [reflexivity|].
  cbn [flat_map]. rewrite called_app, called_attack_steps, IH. reflexivity.
Qed.

Lemma steps_called_names (t : list Event) (s : list Step) :
  steps t = s -> phase_names t = called s.
Proof. intros <-. symmetry. apply called_steps. Qed.

Lemma count_occ_filter_nil (l : list string) :
  filter is_phase_e l = [] -> count_occ string_dec l phase_e_name = 0%nat.
Proof.
  induction l as [|x l IH]; [reflexivity|]. cbn [filter count_occ]. unfold is_phase_e at 1.
  destruct (String.eqb_spec x phase_e_name) as [->|Hne]; [discriminate|].
  intros H. destruct (string_dec x phase_e_name); [contradiction|]. auto.
Qed.

(** The settings and ATTACKS.json being readable and the start-up checks
    passed, the run reaches the relay over the selected attacks. *)
Lemma main_reaches_relay args w :
  settings_readable args w ->
  attacks_readable args w ->
  load_fails args w || attack_not_found args w = false ->
  result (main args w) = Ret tt
  /\ exists s,
      loop_steps args (attacks_selected args w) (attacks_selected args w) s
      /\ steps (trace (main args w))
         = ((if arg_auto_detect args then [Called phase_0_name] else [])
            ++ s ++ [Slept 5; Called phase_e_name])%list
      /\ exists t1 t2, trace (main args w) = (t1 ++ relay_complete :: t2)%list
                       /\ steps t2 = [].
Proof.
  intros Hs Ha Hok. pose proof (main_spec args w Hs Ha) as H.
  unfold outcome in H. rewrite Hok in H. exact H.
Qed.

Lemma main_stops_early args w :
  settings_readable args w ->
  attacks_readable args w ->
  load_fails args w || attack_not_found args w = true ->
  result (main args w) = Exit 1
  /\ steps (trace (main args w))
     = (if detection_reached args w then [Called phase_0_name] else []).
Proof.
  intros Hs Ha Hok. pose proof (main_spec args w Hs Ha) as H.
  unfold outcome in H. rewrite Hok in H. exact H.
Qed.

(** ** The phases of each pass *)

(** Line 843: the pass of [attack] that starts in [w] finds the
    attack's EVIDENCE_ANALYSIS.json under --skip-evidence, and leaves
    Phase A out. *)
Definition reuses_evidence (args : Args) (attack : Attack) (w : World) : bool :=
  let attack_dir := attack_dir_of (strategy_dir_of args) attack in
  arg_skip_evidence args
  && fs_exists (fs_mkdir w attack_dir) (attack_dir // "EVIDENCE_ANALYSIS.json").

(** The world in which line 860 looks for counter_requirements.json:
    after Phase A, or the reuse of its file, and the sleep. *)
Definition world_before_phase_b (args : Args) (file_search_store_id : option string)
    (attack : Attack) (w : World) : World :=
  let attack_dir := attack_dir_of (strategy_dir_of args) attack in
  clock_sleep 5
    (final (main_phase_a args attack (arg_case_folder args) attack_dir
              file_search_store_id (fs_mkdir w attack_dir))).

(** Line 860: the pass finds the attack's counter_requirements.json
    under --skip-counter-req, and leaves Phase B out. *)
Definition reuses_counter_req (args : Args) (file_search_store_id : option string)
    (attack : Attack) (w : World) : bool :=
  let attack_dir := attack_dir_of (strategy_dir_of args) attack in
  arg_skip_counter_req args
  && fs_exists (world_before_phase_b args file_search_store_id attack w)
       (attack_dir // "counter_requirements.json").

(** The phases invoked by the pass of [attack] that starts in [w]. *)
Definition pass_names (args : Args) (file_search_store_id : option string)
    (attack : Attack) (w : World) : list string :=
  ((if reuses_evidence args attack w then [] else [phase_a_name attack])
   ++ (if reuses_counter_req args file_search_store_id attack w
       then [] else [phase_b_name attack])
   ++ [phase_d_name attack])%list.

(** The phases invoked by the loop over [l] that starts in [w], each
    pass starting in the world the pass before it left. *)
Fixpoint loop_names (args : Args) (file_search_store_id : option string)
    (attacks l : list Attack) (w : World) : list string :=
  match l with
  | [] => []
  | attack :: rest =>
      (pass_names args file_search_store_id attack w
       ++ loop_names args file_search_store_id attacks rest
            (final (process_attack args file_search_store_id attacks attack w)))%list
  end.

Lemma process_attack_pass args fsid attacks attack w :
  attacks <> [] ->
  spec (process_attack args fsid attacks attack) w
    (fun _ _ t =>
       steps t = attack_steps attack (reuses_evidence args attack w)
                   (reuses_counter_req args fsid attack w) (equals_last attacks attack)).
Proof.
  intros Hne. unfold process_attack, reuses_evidence, reuses_counter_req,
    world_before_phase_b. cbv zeta.
  set (attack_dir := attack_dir_of (strategy_dir_of args) attack).
  do 4 prim.
  destruct (main_phase_a_runs args attack (arg_case_folder args) attack_dir fsid
              (fs_mkdir w attack_dir)) as (wa & ta & Ha & Hsa & _).
  eapply runs_then; [exact Ha|]; cbn beta. do 2 prim.
  destruct (main_phase_b_runs args attack (attack_dir // "EVIDENCE_ANALYSIS.json")
              (arg_case_folder args) attack_dir fsid (clock_sleep 5 wa))
    as (wb & tb & Hb & Hsb & _ & _).
  eapply runs_then; [exact Hb|]; cbn beta. do 2 prim.
  destruct (phase_d_runs (arg_agent args) attack (attack_dir // "EVIDENCE_ANALYSIS.json")
              (attack_dir // "counter_requirements.json") attack_dir (arg_case_folder args)
              (clock_sleep 5 wb)) as (cd & Hd & Hnd & _).
  eapply runs_then; [exact Hd|]; cbn beta. prim.
  eapply runs_then; [apply (last_attack_runs attacks attack _ Hne)|]; cbn beta.
  fold (equals_last attacks attack).
  assert (Hfinal : final (main_phase_a args attack (arg_case_folder args) attack_dir fsid
                            (fs_mkdir w attack_dir)) = wa)
    by (unfold runs in Ha; rewrite Ha; reflexivity).
  rewrite Hfinal.
  match goal with
  | |- spec _ _ ?Q =>
      assert (Hpost : forall (tail : list Event) (b : bool),
                 steps tail = (if b then [] else [Slept 5]) ->
                 b = equals_last attacks attack ->
                 forall (u : unit) (w0 : World), Q u w0 tail)
  end.
  { intros tail b Htail -> u w0.
    rewrite !steps_app, Hsa, Hsb, Htail. cbn [steps app]. rewrite Hnd.
    destruct (fs_exists _ (attack_dir // "analysis.md")); reflexivity. }
  destruct (equals_last attacks attack) eqn:Heq; cbn [negb].
  - apply spec_ret. apply (Hpost [] true); first [reflexivity | symmetry; assumption | exact tt | exact w].
  - prim. eapply spec_runs; [reflexivity|].
    apply (Hpost _ false); first [reflexivity | symmetry; assumption | exact tt | exact w].
Qed.

Lemma for_each_process_names args fsid attacks l w :
  attacks <> [] ->
  spec (for_each l (process_attack args fsid attacks)) w
    (fun _ _ t => called (steps t) = loop_names args fsid attacks l w).
Proof.
  intros Hne. revert w. induction l as [|a l IH]; intros w; cbn [for_each loop_names].
  - apply spec_ret. reflexivity.
  - destruct (process_attack_pass args fsid attacks a w Hne)
      as ([] & w1 & t1 & Hrun & Hsteps).
    eapply runs_then; [exact Hrun|]. cbn beta.
    assert (Hfinal : final (process_attack args fsid attacks a w) = w1)
      by (unfold runs in Hrun; rewrite Hrun; reflexivity).
    rewrite Hfinal.
    destruct (IH w1) as (u & w2 & t2 & Hrun2 & Hnames).
    exists u, w2, t2. split; [exact Hrun2|].
    rewrite steps_app, called_app, Hsteps, called_attack_steps, Hnames. reflexivity.
Qed.

(** The invocations of the relay: those of the passes, then Phase E. *)
Lemma main_relay_names args fsid attacks w :
  phase_names (trace (main_relay args fsid attacks w))
  = (loop_names args fsid attacks attacks w ++ [phase_e_name])%list.
Proof.
  assert (Hspec : spec (main_relay args fsid attacks) w
            (fun _ _ t => called (steps t)
                          = (loop_names args fsid attacks attacks w ++ [phase_e_name])%list)).
  { unfold main_relay. do 8 prim.
    assert (Hhead : spec (if truthy fsid
                          then log ("File Search: " ++ py_str fsid) None
                          else ret tt) w
                      (fun _ w' t => w' = w /\ steps t = [])).
    { destruct (truthy fsid); eapply spec_runs; try reflexivity; auto. }
    destruct Hhead as ([] & w0 & t0 & Hrun0 & -> & Hs0).
    eapply runs_then; [exact Hrun0|]. cbn beta. prim.
    assert (Hloop : spec (for_each attacks (process_attack args fsid attacks)) w
                      (fun _ _ t => called (steps t)
                                    = loop_names args fsid attacks attacks w)).
    { destruct attacks as [|a l].
      - apply spec_ret. reflexivity.
      - apply for_each_process_names. discriminate. }
    destruct Hloop as ([] & w1 & t1 & Hrun1 & Hnames1).
    eapply runs_then; [exact Hrun1|]. cbn beta. do 5 prim.
    destruct (phase_e_runs (arg_agent args) (strategy_dir_of args) (arg_case_folder args)
                (clock_sleep 5 w1)) as (ce & Hrune & Hne).
    eapply runs_then; [exact Hrune|]. cbn beta. prim.
    do 5 prim.
    destruct (for_each_log_created_files_runs (strategy_dir_of args) attacks
                (snd (util_run_agent ce (clock_sleep 5 w1)))) as (t3 & Hrun3 & Hs3).
    eapply runs_then; [exact Hrun3|]. cbn beta.
    eapply spec_runs; [reflexivity|].
    assert (He : forall line : bool,
               steps [Log "Phase E: Generating gap analysis" (Some "PHASE"); Invoke ce;
                      if line then Log "  → Created: GAP_ANALYSIS.md" (Some "DONE")
                      else Log "Agent did not create GAP_ANALYSIS.md" (Some "ERROR")]
               = [Called phase_e_name]).
    { intros line. cbn. rewrite Hne. destruct line; reflexivity. }
    rewrite !steps_app, Hs0, Hs3, He. cbn [steps app]. rewrite ?app_nil_r.
    rewrite called_app, Hnames1. reflexivity. }
  destruct Hspec as ([] & w' & t & Hrun & Hnames).
  unfold runs in Hrun. rewrite Hrun. cbn [trace]. rewrite <- called_steps. exact Hnames.
Qed.

(** The invocations of a run that reaches the relay. *)
Lemma main_names args w :
  settings_readable args w ->
  attacks_readable args w ->
  load_fails args w || attack_not_found args w = false ->
  phase_names (trace (main args w))
  = ((if arg_auto_detect args then [phase_0_name] else [])
     ++ loop_names args (store_id_of args w) (attacks_selected args w)
          (attacks_selected args w) (world_at_load args w)
     ++ [phase_e_name])%list.
Proof.
  intros Hsettings Hattacks Hok.
  apply orb_false_elim in Hok. destruct Hok as [Hfails Hnf].
  pose proof (main_load_spec args w Hsettings Hattacks) as Hload.
  unfold outcome in Hload. rewrite Hfails in Hload.
  destruct (main_load args w) as [r0 w0 t0] eqn:Hrun0. cbn [result final trace] in Hload.
  destruct Hload as [[-> ->] Hsteps0].
  assert (Hreached : detection_reached args w = arg_auto_detect args).
  { unfold detection_reached. unfold load_fails in Hfails.
    destruct (case_folder_missing args w); [discriminate|].
    destruct (workspace_missing args w); [discriminate|].
    destruct (arg_auto_detect args); reflexivity. }
  rewrite Hreached in Hsteps0.
  unfold main. rewrite (bind_runs _ _ _ _ _ _ Hrun0). cbn [result final trace fst snd].
  pose proof (main_filter_spec args (attacks_loaded args w) (world_at_load args w)) as Hf.
  unfold outcome in Hf. cbn zeta in Hf.
  fold (attacks_selected args w) in Hf. fold (attack_not_found args w) in Hf.
  destruct (main_filter args (attacks_loaded args w) (world_at_load args w))
    as [r1 w1 t1] eqn:Hrun1.
  cbn [result final trace] in Hf. destruct Hf as (-> & Hsteps1 & ->).
  rewrite Hnf in Hrun1.
  rewrite (bind_runs _ _ _ _ _ _ Hrun1). cbn [result final trace].
  rewrite <- called_steps, !steps_app, Hsteps0, Hsteps1, !called_app, called_steps.
  rewrite main_relay_names. destruct (arg_auto_detect args); reflexivity.
Qed.

(** C1, as amended.  For every readable ATTACKS.json that passes the
    start-up checks (so that its attacks list has N >= 1 entries) and no
    --attack filter: the run ends normally; after the Phase 0 call that
    --auto-detect adds, Phase D is invoked exactly once per attack, in list
    order, and Phase E exactly once, as the last invocation; and when
    neither --skip-evidence nor --skip-counter-req is given, the
    invocations are exactly Phase A, Phase B, Phase D per attack in list
    order, followed by Phase E.  In every case the pass of an attack
    invokes Phase A unless --skip-evidence is given and the attack's
    EVIDENCE_ANALYSIS.json exists when the pass looks for it, then Phase
    B unless --skip-counter-req is given and its counter_requirements.json
    exists when the pass looks for it, then Phase D; each pass starts in
    the world the pass before it left. *)
Theorem relay_invokes_phases_per_attack (args : Args) (w : World) :
  settings_readable args w ->
  attacks_readable args w ->
  load_fails args w = false ->
  truthy (arg_attack args) = false ->
  let attacks := attacks_loaded args w in
  let names := phase_names (trace (main args w)) in
  (1 <= length attacks)%nat
  /\ result (main args w) = Ret tt
  /\ exists relay_names,
      names = ((if arg_auto_detect args then [phase_0_name] else []) ++ relay_names)%list
      /\ filter is_phase_d relay_names = map phase_d_name attacks
      /\ count_occ string_dec relay_names phase_e_name = 1%nat
      /\ last relay_names "" = phase_e_name
      /\ (arg_skip_evidence args = false ->
          arg_skip_counter_req args = false ->
          relay_names = claimed_phase_sequence attacks)
      /\ relay_names
         = (loop_names args (store_id_of args w) attacks attacks (world_at_load args w)
            ++ [phase_e_name])%list.
Proof.
  intros Hs Ha Hload Hfilter attacks names. subst attacks names.
  assert (Hnf : attack_not_found args w = false)
    by (unfold attack_not_found; rewrite Hfilter; reflexivity).
  assert (Hsel : attacks_selected args w = attacks_loaded args w)
    by (unfold attacks_selected; rewrite Hfilter; reflexivity).
  destruct (main_reaches_relay args w Hs Ha) as (Hres & s & Hloop & Hsteps & _).
  { rewrite Hload, Hnf. reflexivity. }
  rewrite Hsel in Hloop.
  split.
  { unfold load_fails, attacks_list_empty in Hload.
    destruct (attacks_loaded args w); cbn [length]; [|lia].
    rewrite !orb_true_r in Hload. discriminate. }
  split; [exact Hres|].
  exists (called s ++ [phase_e_name])%list.
  destruct (loop_steps_phase_d _ _ _ _ Hloop) as [Hd He].
  assert (Hnames : phase_names (trace (main args w))
                   = ((if arg_auto_detect args then [phase_0_name] else [])
                      ++ called s ++ [phase_e_name])%list).
  { rewrite (steps_called_names _ _ Hsteps), !called_app.
    destruct (arg_auto_detect args); reflexivity. }
  split; [|split; [|split; [|split; [|split]]]].
  - exact Hnames.
  - rewrite filter_app, Hd. cbn. apply app_nil_r.
  - rewrite count_occ_app, (count_occ_filter_nil _ He). reflexivity.
  - apply last_last.
  - intros Hska Hskb. rewrite (loop_steps_no_skip _ _ _ _ Hska Hskb Hloop), called_no_skip.
    reflexivity.
  - assert (Hok : load_fails args w || attack_not_found args w = false)
      by (rewrite Hload, Hnf; reflexivity).
    pose proof (main_names args w Hs Ha Hok) as Hn.
    rewrite Hsel, Hnames in Hn. apply app_inv_head in Hn. exact Hn.
Qed.

(** C2.  Under --auto-detect, once the folders are there and the settings
    read: Phase 0 invokes the agent once and checks its postcondition in
    the world the agent leaves; it returns the path of ATTACKS.json when
    the file exists, parses and lists at least one attack, and None
    otherwise; and on None the run exits with status 1, the Phase 0 call
    being its only agent invocation. *)
Theorem detection_failure_aborts (args : Args) (w : World) :
  arg_auto_detect args = true ->
  fs_exists w (arg_case_folder args) = true ->
  fs_exists w (workspace_dir_of args) = true ->
  settings_readable args w ->
  let r0 := detection_run args w in
  let ok := detection_ok (final r0) (attacks_file_of args) in
  (exists c, calls (trace r0) = [c]
             /\ final r0 = snd (util_run_agent c (world_after_setup args w)))
  /\ result r0 = Ret (if ok then Some (attacks_file_of args) else None)
  /\ (ok = false ->
      result (main args w) = Exit 1
      /\ phase_names (trace (main args w)) = [phase_0_name]).
Proof.
  intros Hauto Hcase Hws Hs r0 ok. subst r0 ok. unfold detection_run.
  destruct (phase_0_runs (arg_agent args) (arg_case_folder args) (strategy_dir_of args)
              (arg_motion args) (store_id_of args w) (world_after_setup args w))
    as (c & t0 & Hrun & _ & Hcalls & _).
  fold (attacks_file_of args) in Hrun. unfold runs in Hrun. rewrite Hrun.
  cbn [result final trace].
  split; [exists c; auto|]. split; [reflexivity|].
  intros Hfail.
  assert (Hreadable : attacks_readable args w)
    by (intros Hno; rewrite Hauto in Hno; discriminate).
  assert (Hfails : load_fails args w = true).
  { unfold load_fails, detection_failed, world_at_load, detection_run.
    rewrite Hauto, Hrun. cbn [final]. rewrite Hfail. cbn. apply orb_true_r. }
  destruct (main_stops_early args w Hs Hreadable) as [Hres Hsteps].
  { rewrite Hfails. reflexivity. }
  split; [exact Hres|].
  rewrite (steps_called_names _ _ Hsteps). unfold detection_reached, case_folder_missing,
    workspace_missing. rewrite Hauto, Hcase, Hws. reflexivity.
Qed.



(** C4.  Whatever the agent does in Phases A, B and D, and whether or not
    the expected files exist afterwards, the relay goes through every
    attack in turn (Phase A unless reused, Phase B unless reused, Phase
    D), then Phase E, then logs its completion and returns: Phase D is
    invoked once per attack, Phase E is the last invocation, and nothing
    follows the completion line but log lines. *)
Theorem relay_always_completes (args : Args) (file_search_store_id : option string)
    (attacks : list Attack) (w : World) :
  let r := main_relay args file_search_store_id attacks w in
  result r = Ret tt
  /\ (exists s, loop_steps args attacks attacks s
                /\ steps (trace r) = (s ++ [Slept 5; Called phase_e_name])%list)
  /\ filter is_phase_d (phase_names (trace r)) = map phase_d_name attacks
  /\ last (phase_names (trace r)) "" = phase_e_name
  /\ exists t1 t2, trace r = (t1 ++ relay_complete :: t2)%list /\ steps t2 = [].
Proof.
  intros r. subst r.
  destruct (main_relay_spec args file_search_store_id attacks w)
    as ([] & w' & t & Hrun & s & Hloop & Hsteps & Hsplit).
  unfold runs in Hrun. rewrite Hrun. cbn [result final trace].
  destruct (loop_steps_phase_d _ _ _ _ Hloop) as [Hd _].
  split; [reflexivity|]. split; [eauto|].
  rewrite (steps_called_names _ _ Hsteps), called_app.
  split; [|split; [apply last_last | exact Hsplit]].
  rewrite filter_app, Hd. cbn. apply app_nil_r.
Qed.

(** C6, as amended.  If --attack gives a non-empty id and no attack of the
    loaded list has it, the run exits with status 1 without entering the
    relay: its only agent invocation is the Phase 0 call that
    --auto-detect made before the list was loaded, and there is none
    without --auto-detect. *)
Theorem unknown_attack_id_aborts (args : Args) (w : World) (id : string) :
  settings_readable args w ->
  attacks_readable args w ->
  load_fails args w = false ->
  arg_attack args = Some id ->
  id <> "" ->
  (forall a, In a (attacks_loaded args w) -> attack_id a <> id) ->
  result (main args w) = Exit 1
  /\ phase_names (trace (main args w))
     = (if arg_auto_detect args then [phase_0_name] else [])
  /\ length (calls (trace (main args w))) = (if arg_auto_detect args then 1 else 0)%nat.
Proof.
  intros Hs Ha Hload Hid Hne Hnone.
  assert (Hnf : attack_not_found args w = true).
  { unfold attack_not_found, attacks_selected. rewrite Hid.
    destruct id as [|c id]; [congruence|]. cbn [truthy py_str andb].
    replace (filter _ (attacks_loaded args w)) with (@nil Attack); [reflexivity|].
    symmetry. induction (attacks_loaded args w) as [|a l IH]; [reflexivity|].
    cbn [filter]. destruct (String.eqb_spec (attack_id a) (String c id)) as [Heq|_].
    - exfalso. apply (Hnone a); [left; reflexivity | exact Heq].
    - apply IH. intros b Hb. apply Hnone. right. exact Hb. }
  destruct (main_stops_early args w Hs Ha) as [Hres Hsteps].
  { rewrite Hnf. apply orb_true_r. }
  assert (Hreached : detection_reached args w = arg_auto_detect args).
  { unfold detection_reached. unfold load_fails in Hload.
    destruct (case_folder_missing args w); [discriminate|].
    destruct (workspace_missing args w); [discriminate|].
    destruct (arg_auto_detect args); reflexivity. }
  assert (Hnames : phase_names (trace (main args w))
                   = if arg_auto_detect args then [phase_0_name] else []).
  { rewrite (steps_called_names _ _ Hsteps), Hreached.
    destruct (arg_auto_detect args); reflexivity. }
  split; [exact Hres|]. split; [exact Hnames|].
  unfold phase_names in Hnames. apply (f_equal (@length string)) in Hnames.
  rewrite length_map in Hnames. rewrite Hnames.
  destruct (arg_auto_detect args); reflexivity.
Qed.

(** C9, at the failing input.  With no skip flag, a list that holds the
    same attack twice is processed without any sleep between the first
    pass and the second: [attack != attacks[-1]] is false in both. *)
Theorem repeated_attack_loses_its_delay (case_folder : Path)
    (workspace strategy agent motion : string) (auto_detect : bool)
    (file_search_store_id : option string) (a : Attack) (w : World) :
  let args := mkArgs case_folder workspace strategy agent None false false auto_detect
                motion in
  steps (trace (main_relay args file_search_store_id [a; a] w))
  = [ Called (phase_a_name a); Slept 5; Called (phase_b_name a); Slept 5;
      Called (phase_d_name a);
      Called (phase_a_name a); Slept 5; Called (phase_b_name a); Slept 5;
      Called (phase_d_name a);
      Slept 5; Called phase_e_name ].
Proof.
  intros args.
  destruct (main_relay_spec args file_search_store_id [a; a] w)
    as ([] & w' & t & Hrun & s & Hloop & Hsteps & _).
  unfold runs in Hrun. rewrite Hrun. cbn [trace]. rewrite Hsteps.
  rewrite (loop_steps_no_skip args [a; a] [a; a] s eq_refl eq_refl Hloop).
  unfold equals_last, attack_eqb. cbn [last flat_map].
  destruct (Attack_eq_dec a a) as [_|Hne]; [reflexivity | congruence].
Qed.

(** When the attacks are pairwise different the test of line 889 is a
    test of position, and the sleeps are the ones intended: two within
    each pass, one between consecutive passes, one before Phase E, and no
    other. *)
Lemma slept_attack_steps a reuse_a reuse_b is_final :
  slept (attack_steps a reuse_a reuse_b is_final)
  = (5 :: 5 :: if is_final then [] else [5])%Z.
Proof. destruct reuse_a, reuse_b, is_final; reflexivity. Qed.

Lemma last_app_cons {A} (pre l : list A) (a d : A) :
  last (pre ++ a :: l) d = last (a :: l) d.
Proof.
  revert d. induction pre as [|x pre IH]; intros d; [reflexivity|].
  change ((x :: pre) ++ a :: l)%list with (x :: (pre ++ a :: l))%list.
  rewrite last_cons, (IH x), !last_cons. reflexivity.
Qed.

Lemma loop_sleeps_distinct args attacks l s :
  loop_steps args attacks l s ->
  forall pre, attacks = (pre ++ l)%list ->
  NoDup attacks ->
  slept s = repeat 5%Z (3 * length l - 1).
Proof.
  induction 1 as [|a l ra rb s Ha Hb Hloop IH]; intros pre Heq Hnd; [reflexivity|].
  rewrite slept_app, slept_attack_steps.
  assert (Heq' : attacks = ((pre ++ [a]) ++ l)%list)
    by (rewrite <- app_assoc; exact Heq).
  rewrite (IH (pre ++ [a])%list Heq' Hnd).
  unfold equals_last, attack_eqb. rewrite Heq, last_app_cons, last_cons.
  destruct l as [|b l].
  - cbn [last]. destruct (Attack_eq_dec a a) as [_|Hne]; [reflexivity | congruence].
  - destruct (Attack_eq_dec a (last (b :: l) a)) as [Hlast|_].
    + exfalso. rewrite Heq in Hnd. apply NoDup_remove_2 in Hnd.
      apply Hnd. apply in_or_app. right. rewrite Hlast at 1.
      destruct (exists_last (l := b :: l)) as (l0 & z & Hz); [discriminate|].
      rewrite Hz, last_last. apply in_or_app. right. left. reflexivity.
    + cbn [length]. replace (3 * S (S (length l)) - 1)%nat
        with (3 + (3 * S (length l) - 1))%nat by lia.
      reflexivity.
Qed.

(** X18.  A relay over N >= 1 pairwise different attacks sleeps exactly
    3N times, 5 seconds each: twice within every pass, once between
    consecutive passes and once before Phase E. *)
Lemma sleeps_of_distinct_attacks args fsid attacks w :
  NoDup attacks ->
  attacks <> [] ->
  sleeps (trace (main_relay args fsid attacks w)) = repeat 5%Z (3 * length attacks).
Proof.
  intros Hnd Hne.
  destruct (main_relay_spec args fsid attacks w)
    as ([] & w' & t & Hrun & s & Hloop & Hsteps & _).
  unfold runs in Hrun. rewrite Hrun. cbn [trace].
  rewrite <- slept_steps, Hsteps, slept_app.
  rewrite (loop_sleeps_distinct args attacks attacks s Hloop [] eq_refl Hnd).
  destruct attacks as [|a l]; [congruence|]. cbn [length slept].
  replace (3 * S (length l) - 1)%nat with (2 + 3 * length l)%nat by lia.
  replace (3 * S (length l))%nat with (S (2 + 3 * length l))%nat by lia.
  generalize (2 + 3 * length l)%nat. intros n.
  induction n as [|n IH]; [reflexivity|]. cbn [repeat app]. rewrite IH. reflexivity.
Qed.


(** ** The artifact directory *)

Lemma map_string_length f s : String.length (map_string f s) = String.length s.
Proof. induction s as [|c s IH]; cbn; [reflexivity | now rewrite IH]. Qed.

Lemma map_string_compose f g s :
  map_string f (map_string g s) = map_string (fun c => f (g c)) s.
Proof. induction s as [|c s IH]; cbn; [reflexivity | now rewrite IH]. Qed.

Lemma map_string_ext f g s : (forall c, f c = g c) -> map_string f s = map_string g s.
Proof. intros H. induction s as [|c s IH]; cbn; [reflexivity | now rewrite H, IH]. Qed.

(** A slice has the characters asked for, or all there are. *)
Lemma char_count_slice_to n s : char_count (slice_to n s) = Nat.min n (char_count s).
Proof.
  revert n. induction s as [|c s IH]; intros n; cbn [slice_to char_count].
  - symmetry. apply Nat.min_0_r.
  - destruct (is_continuation c) eqn:Hc.
    + cbn [char_count]. rewrite Hc. apply IH.
    + destruct n as [|n]; [reflexivity|]. cbn [char_count]. rewrite Hc, IH. reflexivity.
Qed.

Lemma char_count_map_string f s :
  (forall c, is_continuation (f c) = is_continuation c) ->
  char_count (map_string f s) = char_count s.
Proof.
  intros Hf. induction s as [|c s IH]; [reflexivity|].
  cbn [map_string char_count]. rewrite Hf, IH. reflexivity.
Qed.

Lemma slice_to_map_string n f s :
  (forall c, is_continuation (f c) = is_continuation c) ->
  slice_to n (map_string f s) = map_string f (slice_to n s).
Proof.
  intros Hf. revert n. induction s as [|c s IH]; intros n; [reflexivity|].
  cbn [map_string slice_to]. rewrite Hf.
  destruct (is_continuation c); [cbn [map_string]; now rewrite IH|].
  destruct n as [|n]; [reflexivity|]. cbn [map_string]. now rewrite IH.
Qed.

Lemma slice_to_twice n s : slice_to n (slice_to n s) = slice_to n s.
Proof.
  revert n. induction s as [|c s IH]; intros n; [reflexivity|].
  cbn [slice_to]. destruct (is_continuation c) eqn:Hc.
  - cbn [slice_to]. rewrite Hc, IH. reflexivity.
  - destruct n as [|n]; [reflexivity|]. cbn [slice_to]. rewrite Hc, IH. reflexivity.
Qed.

Lemma In_slice_to c n s :
  In c (list_ascii_of_string (slice_to n s)) -> In c (list_ascii_of_string s).
Proof.
  revert n. induction s as [|d s IH]; intros n; [intros []|].
  cbn [slice_to]. destruct (is_continuation d).
  - cbn. intros [H|H]; [left; exact H | right; eauto].
  - destruct n as [|n]; [intros []|]. cbn. intros [H|H]; [left; exact H | right; eauto].
Qed.

Lemma In_map_string f c s :
  In c (list_ascii_of_string (map_string f s)) ->
  exists d, In d (list_ascii_of_string s) /\ c = f d.
Proof.
  induction s as [|d s IH]; cbn; [intros []|].
  intros [H|H].
  - exists d. auto.
  - destruct (IH H) as (e & He & ->). exists e. auto.
Qed.

Lemma replace_keeps_continuation old new c :
  is_continuation old = false -> is_continuation new = false ->
  is_continuation (if Ascii.eqb c old then new else c) = is_continuation c.
Proof.
  intros Hold Hnew. destruct (Ascii.eqb_spec c old) as [->|_]; [|reflexivity].
  rewrite Hold, Hnew. reflexivity.
Qed.

(** In ASCII text every byte is a character. *)
Lemma is_ascii_slice_to n s :
  is_ascii s = true -> String.length (slice_to n s) = Nat.min n (String.length s).
Proof.
  revert n. induction s as [|c s IH]; intros n H; cbn [slice_to String.length].
  - symmetry. apply Nat.min_0_r.
  - cbn [is_ascii] in H. apply andb_prop in H. destruct H as [Hc Hs].
    assert (Hcont : is_continuation c = false).
    { unfold is_continuation. apply Nat.ltb_lt in Hc.
      destruct (Nat.leb_spec 128 (nat_of_ascii c)); [lia | reflexivity]. }
    rewrite Hcont. destruct n as [|n]; [reflexivity|].
    cbn [String.length]. rewrite (IH n Hs). reflexivity.
Qed.

(** What line 833 does to one character of an ASCII name: a letter A-Z
    becomes a-z, a space or a hyphen becomes an underscore, and any
    other character stays. *)
Definition slug_char (c : ascii) : ascii :=
  let c := lower_char c in
  let c := if Ascii.eqb c " " then "_"%char else c in
  if Ascii.eqb c "-" then "_"%char else c.

Lemma slug_char_keeps_continuation c : is_continuation (slug_char c) = is_continuation c.
Proof. destruct c as [[] [] [] [] [] [] [] []]; reflexivity. Qed.

Lemma slug_char_twice c : slug_char (slug_char c) = slug_char c.
Proof. destruct c as [[] [] [] [] [] [] [] []]; reflexivity. Qed.

Lemma slug_of_ascii_name a :
  is_ascii (attack_name a) = true ->
  attack_name_slug a = map_string slug_char (slice_to 30 (attack_name a)).
Proof.
  intros H. unfold attack_name_slug, replace, lower. rewrite H.
  rewrite !map_string_compose.
  apply (slice_to_map_string 30 slug_char), slug_char_keeps_continuation.
Qed.

Lemma slug_without_space_or_hyphen a c :
  In c (list_ascii_of_string (attack_name_slug a)) -> c <> " "%char /\ c <> "-"%char.
Proof.
  intros Hc. unfold attack_name_slug in Hc. apply In_slice_to in Hc.
  unfold replace in Hc.
  apply In_map_string in Hc. destruct Hc as (d & Hd & ->).
  apply In_map_string in Hd. destruct Hd as (e & _ & ->).
  destruct (Ascii.eqb_spec e " ") as [->|Hsp]; [split; discriminate|].
  destruct (Ascii.eqb_spec e "-") as [->|Hhy]; [split; discriminate|].
  split; assumption.
Qed.

(** The attack of the specification's example. *)
Definition standing_defense : Attack :=
  mkAttack "002" "Standing Defense!!" None None None None [] "" "".

(** C5, as amended.  The artifact directory of an attack is the strategy
    directory joined with attacks and with {id}_{slug}, where the slug
    is the first 30 characters of the name lowercased by str.lower with
    its spaces and hyphens replaced by underscores: it has at most 30
    characters, none of them a space or a hyphen.  For an ASCII name the
    slug is the first 30 characters of the name, each mapped on its own:
    a letter A-Z to a-z, a space or hyphen to an underscore, any other
    character (punctuation included) to itself.  When {id}_{slug} is one
    path component (it holds no slash), the directory is the entry of
    that name in the directory attacks of the strategy directory.  For
    the attack with id 002 and name Standing Defense!! the directory is
    attacks/002_standing_defense!!. *)
Theorem attack_dir_is_derived (strategy_dir : Path) (a : Attack) :
  let slug := attack_name_slug a in
  let dir := attack_dir_of strategy_dir a in
  dir = strategy_dir // "attacks" // (attack_id a ++ "_" ++ slug)
  /\ slug = slice_to 30 (replace "-" "_" (replace " " "_" (lower (attack_name a))))
  /\ (char_count slug <= 30)%nat
  /\ (forall c, In c (list_ascii_of_string slug) -> c <> " "%char /\ c <> "-"%char)
  /\ (is_ascii (attack_name a) = true ->
      slug = map_string slug_char (slice_to 30 (attack_name a))
      /\ String.length slug = Nat.min 30 (String.length (attack_name a)))
  /\ (is_component (attack_id a ++ "_" ++ slug) = true ->
      path_root dir = path_root strategy_dir
      /\ path_parts dir
         = (path_parts strategy_dir
            ++ ["attacks"; (attack_id a ++ "_" ++ slug)%string])%list
      /\ path_name dir = attack_id a ++ "_" ++ slug
      /\ path_parent dir = strategy_dir // "attacks")
  /\ attack_dir_of strategy_dir standing_defense
     = strategy_dir // "attacks" // "002_standing_defense!!"
  /\ path_name (attack_dir_of strategy_dir standing_defense) = "002_standing_defense!!".
Proof.
  intros slug dir. subst slug dir.
  split; [reflexivity|]. split; [reflexivity|].
  split.
  { unfold attack_name_slug. rewrite char_count_slice_to. apply Nat.le_min_l. }
  split; [apply slug_without_space_or_hyphen|].
  split.
  { intros H. split; [apply slug_of_ascii_name, H|].
    rewrite (slug_of_ascii_name a H), map_string_length. apply is_ascii_slice_to, H. }
  split.
  { intros H. unfold attack_dir_of.
    rewrite (path_join_component _ _ H).
    rewrite (path_join_component strategy_dir "attacks" eq_refl).
    cbn [path_root path_parts]. unfold path_name, path_parent. cbn [path_root path_parts].
    split; [reflexivity|]. split; [rewrite <- app_assoc; reflexivity|].
    split; [apply last_last|]. rewrite removelast_last. reflexivity. }
  split; [reflexivity|].
  unfold attack_dir_of.
  change (attack_id standing_defense ++ "_" ++ attack_name_slug standing_defense)
    with "002_standing_defense!!".
  apply path_name_join. reflexivity.
Qed.

(** ** The header Phase D mandates *)

Definition analysis_header (name generated id : string) : string :=
  "
# Analysis: " ++ name ++ "

**Generated**: " ++ generated ++ "
**Attack ID**: " ++ id ++ "
".

Lemma append_assoc (a b c : string) : (a ++ b) ++ c = a ++ (b ++ c).
Proof.
  induction a as [|x a IH]; [reflexivity|].
  change (String x ((a ++ b) ++ c) = String x (a ++ (b ++ c))). now rewrite IH.
Qed.

(** In a string [a1 ++ (a2 ++ ... (x ++ rest))], what stands before [x]. *)
Ltac text_before x t :=
  lazymatch t with
  | x ++ _ => constr:(EmptyString)
  | ?a ++ ?rest => let p := text_before x rest in constr:(a ++ p)
  end.

(** C8.  For every attack, Phase D invokes the agent once, and the task
    it passes ends with the mandated header (the line "# Analysis: "
    with the attack's name, a blank line, the "**Generated**: " line
    with the time of the call, the "**Attack ID**: " line with the
    attack's id), a rule and the closing instruction. *)
Theorem phase_d_task_mandates_header (agent : string) (attack : Attack)
    (evidence_analysis_file counter_req_file output_dir case_folder : Path) (w : World) :
  exists c preamble,
    calls (trace (phase_d_viability_analysis agent attack evidence_analysis_file
                    counter_req_file output_dir case_folder w)) = [c]
    /\ call_phase_name c = phase_d_name attack
    /\ call_task c
       = preamble
         ++ analysis_header (attack_name attack) (clock_strftime w) (attack_id attack)
         ++ "
---

Then write the full analysis with clear sections.".
Proof.
  destruct (phase_d_runs agent attack evidence_analysis_file counter_req_file output_dir
              case_folder w) as (c & Hrun & Hname & _ & Htask).
  unfold runs in Hrun. rewrite Hrun. cbn [trace].
  exists c. unfold phase_d_task in Htask.
  match type of Htask with
  | _ = ?t =>
      let p := text_before ". Start the file with this header:

# Analysis: " t in
      exists (p ++ ". Start the file with this header:
")
  end.
  split; [destruct (fs_exists _ _); reflexivity|].
  split; [exact Hname|]. rewrite Htask. unfold analysis_header.
  rewrite !append_assoc. reflexivity.
Qed.

(** ** What the phases return *)

Lemma errors_of_phase (m created missing : string) (c : AgentCall) (written : bool) :
  errors [Log m (Some "PHASE"); Invoke c;
          if written then Log created (Some "DONE") else Log missing (Some "ERROR")]
  = if written then [] else [missing].
Proof. destruct written; reflexivity. Qed.

(** C10.  In every world and whatever the agent does, the functions of
    Phases A, B, D and E return the path derived for their output file,
    and log one error line exactly when that file is missing after the
    agent call; Phase 0 alone returns None, which it does whenever its
    postcondition fails, in particular when ATTACKS.json is missing. *)
Theorem phases_return_their_path (agent : string) (attack : Attack)
    (evidence_file counter_req_file case_folder output_dir strategy_dir : Path)
    (motion : string) (file_search_store_id : option string) (w : World) :
  let ra := phase_a_evidence_analysis agent attack case_folder output_dir
              file_search_store_id w in
  let rb := phase_b_counter_requirements agent attack evidence_file case_folder output_dir
              file_search_store_id w in
  let rd := phase_d_viability_analysis agent attack evidence_file counter_req_file
              output_dir case_folder w in
  let re := phase_e_gap_analysis agent strategy_dir case_folder w in
  let r0 := phase_0_detect_attacks agent case_folder strategy_dir motion
              file_search_store_id w in
  (result ra = Ret (output_dir // "EVIDENCE_ANALYSIS.json")
   /\ errors (trace ra)
      = if fs_exists (final ra) (output_dir // "EVIDENCE_ANALYSIS.json") then []
        else ["Agent did not create EVIDENCE_ANALYSIS.json"])
  /\ (result rb = Ret (output_dir // "counter_requirements.json")
      /\ errors (trace rb)
         = if fs_exists (final rb) (output_dir // "counter_requirements.json") then []
           else ["Agent did not create counter_requirements.json"])
  /\ (result rd = Ret (output_dir // "analysis.md")
      /\ errors (trace rd)
         = if fs_exists (final rd) (output_dir // "analysis.md") then []
           else ["Agent did not create analysis.md"])
  /\ (result re = Ret (strategy_dir // "GAP_ANALYSIS.md")
      /\ errors (trace re)
         = if fs_exists (final re) (strategy_dir // "GAP_ANALYSIS.md") then []
           else ["Agent did not create GAP_ANALYSIS.md"])
  /\ (result r0
      = Ret (if detection_ok (final r0) (strategy_dir // "ATTACKS.json")
             then Some (strategy_dir // "ATTACKS.json") else None)
      /\ if fs_exists (final r0) (strategy_dir // "ATTACKS.json") then True
         else result r0 = Ret None).
Proof.
  intros ra rb rd re r0. subst ra rb rd re r0.
  destruct (phase_a_runs agent attack case_folder output_dir file_search_store_id w)
    as (ca & Ha & _).
  destruct (phase_b_runs agent attack evidence_file case_folder output_dir
              file_search_store_id w) as (cb & Hb & _).
  destruct (phase_d_runs agent attack evidence_file counter_req_file output_dir
              case_folder w) as (cd & Hd & _).
  destruct (phase_e_runs agent strategy_dir case_folder w) as (ce & He & _).
  destruct (phase_0_runs agent case_folder strategy_dir motion file_search_store_id w)
    as (c0 & t0 & H0 & _).
  unfold runs in *. rewrite Ha, Hb, Hd, He, H0. cbn [result final trace].
  rewrite !errors_of_phase.
  repeat (split; [split; reflexivity|]).
  clear. unfold detection_ok.
  destruct (fs_exists (snd (util_run_agent c0 w)) (strategy_dir // "ATTACKS.json"));
    [exact I | reflexivity].
Qed.

(** ** Reusing the evidence analysis *)

Lemma phase_a_name_is_not_b a b : phase_a_name a <> phase_b_name b.
Proof. intros H. apply (f_equal (starts_with "Phase_A")) in H. discriminate. Qed.

Lemma phase_a_name_is_not_d a b : phase_a_name a <> phase_d_name b.
Proof. intros H. apply (f_equal (starts_with "Phase_A")) in H. discriminate. Qed.

(** The agent invocations of one pass through the loop body: those of
    the Phase A step, those of the Phase B step, which reads the evidence
    file in the world the Phase A step left (five seconds later), and the
    one of Phase D, which reads the same two paths. *)
Lemma process_attack_calls args fsid attacks attack w :
  attacks <> [] ->
  let attack_dir := attack_dir_of (strategy_dir_of args) attack in
  let evidence_file := attack_dir // "EVIDENCE_ANALYSIS.json" in
  spec (process_attack args fsid attacks attack) w
    (fun _ _ t =>
       exists wa ta tb wd cd,
         runs (main_phase_a args attack (arg_case_folder args) attack_dir fsid)
           (fs_mkdir w attack_dir) evidence_file wa ta
         /\ calls t = (calls ta ++ calls tb ++ [cd])%list
         /\ (forall c, In c (calls tb) ->
             call_phase_name c = phase_b_name attack
             /\ call_context c
                = phase_b_context (util_load_json_file (clock_sleep 5 wa) evidence_file)
                    (util_load_json_file (clock_sleep 5 wa)
                       (arg_case_folder args // "case-context" // "documents_index.json"))
                    attack)
         /\ call_phase_name cd = phase_d_name attack
         /\ call_context cd
            = phase_d_context (util_load_json_file wd evidence_file)
                (util_load_json_file wd (attack_dir // "counter_requirements.json"))).
Proof.
  intros Hne attack_dir evidence_file. subst evidence_file. unfold process_attack.
  fold attack_dir. do 4 prim.
  destruct (main_phase_a_runs args attack (arg_case_folder args) attack_dir fsid
              (fs_mkdir w attack_dir)) as (wa & ta & Ha & _ & _).
  eapply runs_then; [exact Ha|]; cbn beta. do 2 prim.
  destruct (main_phase_b_runs args attack (attack_dir // "EVIDENCE_ANALYSIS.json")
              (arg_case_folder args) attack_dir fsid (clock_sleep 5 wa))
    as (wb & tb & Hb & _ & _ & Hcb).
  eapply runs_then; [exact Hb|]; cbn beta. do 2 prim.
  destruct (phase_d_runs (arg_agent args) attack (attack_dir // "EVIDENCE_ANALYSIS.json")
              (attack_dir // "counter_requirements.json") attack_dir (arg_case_folder args)
              (clock_sleep 5 wb)) as (cd & Hd & Hnd & Hctx & _).
  eapply runs_then; [exact Hd|]; cbn beta. prim.
  eapply runs_then; [apply (last_attack_runs attacks attack _ Hne)|]; cbn beta.
  match goal with
  | |- spec _ _ ?Q =>
      assert (Hpost : forall (tail : list Event),
                 calls tail = [] -> forall (u : unit) (w0 : World), Q u w0 tail)
  end.
  { intros tail Htail u w0. exists wa, ta, tb, (clock_sleep 5 wb), cd.
    split; [exact Ha|]. split; [|split; [exact Hcb|split; [exact Hnd|exact Hctx]]].
    rewrite !calls_app, Htail. cbn [calls app].
    destruct (fs_exists _ (attack_dir // "analysis.md")); cbn [calls];
      rewrite ?app_nil_r; reflexivity. }
  destruct (negb (attack_eqb attack (last attacks attack))).
  - prim. eapply spec_runs; [reflexivity|]. apply Hpost; first [reflexivity | exact tt | exact w].
  - apply spec_ret. apply Hpost; first [reflexivity | exact tt | exact w].
Qed.

(** C7.  Under --skip-evidence, when EVIDENCE_ANALYSIS.json exists in the
    attack's directory: the Phase A step invokes no agent, leaves the
    world as it is and hands on the path of the existing file; no agent
    invocation of the pass is Phase A's; Phase B, when it runs, reads
    that file in the world as it was at the test, five seconds later;
    and Phase D is handed the same path. *)
Theorem skip_evidence_reuses_existing_file (args : Args)
    (file_search_store_id : option string) (attacks : list Attack) (attack : Attack)
    (w : World) :
  attacks <> [] ->
  arg_skip_evidence args = true ->
  let attack_dir := attack_dir_of (strategy_dir_of args) attack in
  let evidence_file := attack_dir // "EVIDENCE_ANALYSIS.json" in
  let w0 := fs_mkdir w attack_dir in
  fs_exists w0 evidence_file = true ->
  main_phase_a args attack (arg_case_folder args) attack_dir file_search_store_id w0
  = mkRun (Ret evidence_file) w0
      [Log "Skipping Phase A (using existing EVIDENCE_ANALYSIS.json)" (Some "INFO")]
  /\ let r := process_attack args file_search_store_id attacks attack w in
     result r = Ret tt
     /\ ~ In (phase_a_name attack) (phase_names (trace r))
     /\ exists wd cd,
         In cd (calls (trace r))
         /\ call_phase_name cd = phase_d_name attack
         /\ call_context cd
            = phase_d_context (util_load_json_file wd evidence_file)
                (util_load_json_file wd (attack_dir // "counter_requirements.json"))
         /\ forall c, In c (calls (trace r)) ->
              c = cd
              \/ (call_phase_name c = phase_b_name attack
                  /\ call_context c
                     = phase_b_context
                         (util_load_json_file (clock_sleep 5 w0) evidence_file)
                         (util_load_json_file (clock_sleep 5 w0)
                            (arg_case_folder args // "case-context"
                             // "documents_index.json"))
                         attack).
Proof.
  intros Hne Hskip attack_dir evidence_file w0 Hex.
  destruct (main_phase_a_runs args attack (arg_case_folder args) attack_dir
              file_search_store_id w0) as (wa & ta & Ha & _ & Hreuse).
  fold evidence_file in Ha, Hreuse. rewrite Hskip, Hex in Hreuse.
  destruct (Hreuse eq_refl) as [-> ->]. split; [exact Ha|].
  destruct (process_attack_calls args file_search_store_id attacks attack w Hne)
    as ([] & w' & t & Hrun & wa & ta & tb & wd & cd & Ha' & Hcalls & Hcb & Hnd & Hctx).
  fold attack_dir in Ha', Hcb, Hctx. fold evidence_file in Ha', Hcb, Hctx.
  fold w0 in Ha'.
  destruct (runs_inj _ _ _ _ _ _ _ _ Ha Ha') as (_ & <- & <-).
  unfold runs in Hrun. cbv zeta. rewrite Hrun. cbn [result trace].
  cbn [calls app] in Hcalls.
  split; [reflexivity|]. split.
  - unfold phase_names. rewrite Hcalls, map_app. intros Hin.
    apply in_app_or in Hin. destruct Hin as [Hin|[Hin|[]]].
    + apply in_map_iff in Hin. destruct Hin as (c & Hc & Hin).
      apply Hcb in Hin. destruct Hin as [Hn _]. rewrite Hn in Hc.
      symmetry in Hc. exact (phase_a_name_is_not_b _ _ Hc).
    + rewrite Hnd in Hin. symmetry in Hin. exact (phase_a_name_is_not_d _ _ Hin).
  - exists wd, cd. rewrite Hcalls.
    split; [apply in_or_app; right; left; reflexivity|].
    split; [exact Hnd|]. split; [exact Hctx|].
    intros c Hin. apply in_app_or in Hin. destruct Hin as [Hin|[Hin|[]]].
    + right. apply Hcb. exact Hin.
    + left. symmetry. exact Hin.
Qed.


(** * Further properties *)

(** ** What every event of a run looks like *)

(** Every event that [m] shows satisfies [P], in whatever world it runs. *)
Definition obeys {A} (P : Event -> Prop) (m : M A) : Prop :=
  forall w, Forall P (trace (m w)).

Lemma obeys_bind {A B} P (m : M A) (f : A -> M B) :
  obeys P m -> (forall a, obeys P (f a)) -> obeys P (bind m f).
Proof.
  intros Hm Hf w. unfold bind. specialize (Hm w).
  destruct (result (m w)) as [a| |]; cbn [trace]; [|assumption|assumption].
  apply Forall_app. split; [assumption | apply Hf].
Qed.

Lemma obeys_silent {A} P (m : M A) : (forall w, trace (m w) = []) -> obeys P m.
Proof. intros H w. rewrite H. constructor. Qed.

Lemma obeys_log P message level : P (Log message level) -> obeys P (log message level).
Proof. intros H w. repeat constructor. exact H. Qed.

Lemma obeys_time_sleep P seconds : P (Sleep seconds) -> obeys P (time_sleep seconds).
Proof. intros H w. repeat constructor. exact H. Qed.

Lemma obeys_run_agent P call : P (Invoke call) -> obeys P (run_agent call).
Proof. intros H w. repeat constructor. exact H. Qed.

Lemma obeys_for_each {A} P (l : list A) (body : A -> M unit) :
  (forall a, In a l -> obeys P (body a)) -> obeys P (for_each l body).
Proof.
  induction l as [|x l IH]; intros H; cbn [for_each].
  - apply obeys_silent. reflexivity.
  - apply obeys_bind; [apply H; left; reflexivity|].
    intros _. apply IH. intros a Ha. apply H. right. exact Ha.
Qed.

Lemma obeys_append_json_sections P files filename context :
  obeys P (append_json_sections files filename context).
Proof.
  intros w. destruct (append_json_sections_runs files filename context w) as [s Hs].
  unfold runs in Hs. rewrite Hs. constructor.
Qed.

Lemma obeys_append_text_sections P files context :
  obeys P (append_text_sections files context).
Proof.
  intros w. destruct (append_text_sections_runs files context w) as [s Hs].
  unfold runs in Hs. rewrite Hs. constructor.
Qed.

(** Goes through a straight-line block: binds, branches, the silent
    primitives, and leaves the log lines, sleeps and agent invocations. *)
Ltac obey :=
  repeat first
    [ apply obeys_bind; [|intros ?]
    | apply obeys_silent; reflexivity
    | apply obeys_append_json_sections
    | apply obeys_append_text_sections
    | apply obeys_log
    | apply obeys_time_sleep
    | apply obeys_run_agent
    | match goal with
      | |- obeys _ (if ?b then _ else _) => destruct b
      | |- obeys _ (match ?x with _ => _ end) => destruct x
      end ].

(** A run's agent invocations all go through [run_agent_defensive] with
    its defaults, for the chosen agent and from the case folder. *)
Definition call_uses_defaults (agent : string) (case_folder : Path) (c : AgentCall) : Prop :=
  call_agent c = agent
  /\ call_cwd c = case_folder
  /\ call_max_retries c = 5%nat
  /\ call_timeout c = 600%nat
  /\ call_output_file c <> None.

Definition event_is_regular (agent : string) (case_folder : Path) (e : Event) : Prop :=
  match e with
  | Log _ _ => True
  | Sleep seconds => seconds = 5%Z
  | Invoke c => call_uses_defaults agent case_folder c
  end.

Lemma phase_0_is_regular agent case_folder strategy_dir motion fsid :
  obeys (event_is_regular agent case_folder)
    (phase_0_detect_attacks agent case_folder strategy_dir motion fsid).
Proof.
  unfold phase_0_detect_attacks, run_agent_defensive. obey;
    try exact I; repeat split; discriminate.
Qed.

Lemma phase_a_is_regular agent attack case_folder output_dir fsid :
  obeys (event_is_regular agent case_folder)
    (phase_a_evidence_analysis agent attack case_folder output_dir fsid).
Proof.
  unfold phase_a_evidence_analysis, run_agent_defensive. obey;
    try exact I; repeat split; discriminate.
Qed.

Lemma phase_b_is_regular agent attack evidence_file case_folder output_dir fsid :
  obeys (event_is_regular agent case_folder)
    (phase_b_counter_requirements agent attack evidence_file case_folder output_dir fsid).
Proof.
  unfold phase_b_counter_requirements, run_agent_defensive. obey;
    try exact I; repeat split; discriminate.
Qed.

Lemma phase_d_is_regular agent attack evidence_file counter_req_file output_dir case_folder :
  obeys (event_is_regular agent case_folder)
    (phase_d_viability_analysis agent attack evidence_file counter_req_file output_dir
       case_folder).
Proof.
  unfold phase_d_viability_analysis, run_agent_defensive. obey;
    try exact I; repeat split; discriminate.
Qed.

Lemma phase_e_is_regular agent strategy_dir case_folder :
  obeys (event_is_regular agent case_folder)
    (phase_e_gap_analysis agent strategy_dir case_folder).
Proof.
  unfold phase_e_gap_analysis, run_agent_defensive. obey;
    try exact I; repeat split; discriminate.
Qed.

Ltac obey_regular :=
  repeat
    match goal with
    | |- obeys _ (phase_0_detect_attacks _ _ _ _ _) => apply phase_0_is_regular
    | |- obeys _ (phase_a_evidence_analysis _ _ _ _ _) => apply phase_a_is_regular
    | |- obeys _ (phase_b_counter_requirements _ _ _ _ _ _) => apply phase_b_is_regular
    | |- obeys _ (phase_d_viability_analysis _ _ _ _ _ _) => apply phase_d_is_regular
    | |- obeys _ (phase_e_gap_analysis _ _ _) => apply phase_e_is_regular
    | |- obeys _ (for_each _ _) => apply obeys_for_each; intros ? _
    | |- obeys _ (bind _ _) => apply obeys_bind; [|intros ?]
    | |- obeys _ (log _ _) => apply obeys_log; exact I
    | |- obeys _ (time_sleep _) => apply obeys_time_sleep; reflexivity
    | |- obeys _ (if ?b then _ else _) => destruct b
    | |- obeys _ (match ?x with _ => _ end) => destruct x
    | |- obeys _ (process_attack _ _ _ _) =>
        unfold process_attack, main_phase_a, main_phase_b, last_attack
    | |- obeys _ (log_created_files _ _) => unfold log_created_files
    | |- obeys _ _ => apply obeys_silent; reflexivity
    end.

Lemma main_is_regular args :
  obeys (event_is_regular (arg_agent args) (arg_case_folder args)) (main args).
Proof.
  unfold main. apply obeys_bind; [|intros loaded; apply obeys_bind; [|intros attacks]].
  - unfold main_load, dict_get. obey_regular.
  - unfold main_filter. obey_regular.
  - unfold main_relay. obey_regular.
Qed.

Lemma regular_calls agent case_folder t :
  Forall (event_is_regular agent case_folder) t ->
  Forall (call_uses_defaults agent case_folder) (calls t).
Proof.
  induction 1 as [|e t He _ IH]; [constructor|].
  destruct e; cbn [calls]; try assumption. constructor; assumption.
Qed.

Lemma regular_sleeps agent case_folder t :
  Forall (event_is_regular agent case_folder) t -> Forall (eq 5%Z) (sleeps t).
Proof.
  induction 1 as [|e t He _ IH]; [constructor|].
  destruct e; cbn [sleeps]; try assumption. constructor; [symmetry; exact He | assumption].
Qed.

(** X1.  In every run of [main], however it ends, every agent invocation
    is made for the agent given by --agent, from the case folder, with 5
    retries, a timeout of 600 seconds and an output file, and every sleep
    lasts 5 seconds. *)
Theorem every_invocation_uses_the_defaults (args : Args) (w : World) :
  Forall (call_uses_defaults (arg_agent args) (arg_case_folder args))
    (calls (trace (main args w)))
  /\ Forall (eq 5%Z) (sleeps (trace (main args w))).
Proof.
  pose proof (main_is_regular args w) as H.
  split; [eapply regular_calls | eapply regular_sleeps]; exact H.
Qed.

(** ** Where the artifacts go *)

(** The files the relay asks the agent for: three per attack, in the
    attack's directory, and the gap analysis. *)
Definition attack_artifacts (strategy_dir : Path) (a : Attack) : list Path :=
  [ attack_dir_of strategy_dir a // "EVIDENCE_ANALYSIS.json";
    attack_dir_of strategy_dir a // "counter_requirements.json";
    attack_dir_of strategy_dir a // "analysis.md" ].

Definition relay_artifacts (strategy_dir : Path) (attacks : list Attack) : list Path :=
  (flat_map (attack_artifacts strategy_dir) attacks ++ [strategy_dir // "GAP_ANALYSIS.md"])%list.

Definition event_writes_into (paths : list Path) (e : Event) : Prop :=
  match e with
  | Invoke c => exists p, In p paths /\ call_output_file c = Some (path_str p)
  | _ => True
  end.

Lemma obeys_weaken {A} (P Q : Event -> Prop) (m : M A) :
  (forall e, P e -> Q e) -> obeys P m -> obeys Q m.
Proof. intros HPQ H w. eapply Forall_impl; [exact HPQ | apply H]. Qed.

Ltac obey_paths :=
  repeat
    match goal with
    | |- obeys _ (bind _ _) => apply obeys_bind; [|intros ?]
    | |- obeys _ (log _ _) => apply obeys_log; exact I
    | |- obeys _ (time_sleep _) => apply obeys_time_sleep; exact I
    | |- obeys _ (if ?b then _ else _) => destruct b
    | |- obeys _ (match ?x with _ => _ end) => destruct x
    | |- obeys _ (append_json_sections _ _ _) => apply obeys_append_json_sections
    | |- obeys _ (append_text_sections _ _) => apply obeys_append_text_sections
    | |- obeys _ (run_agent_defensive _ _ _ _ _ _ _) =>
        unfold run_agent_defensive; apply obeys_run_agent
    | |- obeys _ _ => apply obeys_silent; reflexivity
    end.

Lemma process_attack_writes_into args fsid attacks a :
  obeys (event_writes_into (attack_artifacts (strategy_dir_of args) a))
    (process_attack args fsid attacks a).
Proof.
  unfold process_attack, main_phase_a, main_phase_b, last_attack,
    phase_a_evidence_analysis, phase_b_counter_requirements, phase_d_viability_analysis.
  obey_paths; eexists; (split; [|reflexivity]); cbn; auto.
Qed.

Lemma main_relay_writes_into args fsid attacks :
  obeys (event_writes_into (relay_artifacts (strategy_dir_of args) attacks))
    (main_relay args fsid attacks).
Proof.
  unfold main_relay.
  repeat
    match goal with
    | |- obeys _ (for_each _ (process_attack _ _ _)) => apply obeys_for_each; intros ? ?
    | |- obeys _ (for_each _ (log_created_files _)) =>
        apply obeys_for_each; intros ? _; unfold log_created_files
    | |- obeys _ (phase_e_gap_analysis _ _ _) => unfold phase_e_gap_analysis
    | |- obeys _ (process_attack _ _ _ _) => fail 1
    | |- obeys _ (bind _ _) => apply obeys_bind; [|intros ?]
    | |- obeys _ (log _ _) => apply obeys_log; exact I
    | |- obeys _ (time_sleep _) => apply obeys_time_sleep; exact I
    | |- obeys _ (if ?b then _ else _) => destruct b
    | |- obeys _ (append_json_sections _ _ _) => apply obeys_append_json_sections
    | |- obeys _ (append_text_sections _ _) => apply obeys_append_text_sections
    | |- obeys _ (run_agent_defensive _ _ _ _ _ _ _) =>
        unfold run_agent_defensive; apply obeys_run_agent
    | |- obeys _ (ret _) => apply obeys_silent; reflexivity
    | |- obeys _ (path_glob _ _) => apply obeys_silent; reflexivity
    | |- obeys _ (path_exists _) => apply obeys_silent; reflexivity
    | |- obeys _ (load_json_file _) => apply obeys_silent; reflexivity
    | |- obeys _ datetime_now_strftime => apply obeys_silent; reflexivity
    end.
  - eapply obeys_weaken; [|apply process_attack_writes_into].
    intros [| |c]; cbn; auto. intros (p & Hp & Hc). exists p. split; [|exact Hc].
    unfold relay_artifacts. apply in_or_app. left. apply in_flat_map. eauto.
  - eexists. split; [|reflexivity]. unfold relay_artifacts. apply in_or_app. right.
    left. reflexivity.
Qed.

(** X2.  Every agent invocation of the relay is asked to write one of
    the relay's artifacts: EVIDENCE_ANALYSIS.json, counter_requirements.json
    or analysis.md in the directory of one of the attacks, or
    GAP_ANALYSIS.md in the strategy directory; nothing is written
    elsewhere and ATTACKS.json is never asked for again. *)
Theorem relay_writes_only_its_artifacts (args : Args) (file_search_store_id : option string)
    (attacks : list Attack) (w : World) :
  Forall (fun c => exists p, In p (relay_artifacts (strategy_dir_of args) attacks)
                             /\ call_output_file c = Some (path_str p))
    (calls (trace (main_relay args file_search_store_id attacks w))).
Proof.
  pose proof (main_relay_writes_into args file_search_store_id attacks w) as H.
  induction H as [|e t He _ IH]; [constructor|].
  destruct e as [| |c0]; cbn [calls]; try exact IH.
  constructor; [exact He | exact IH].
Qed.

(** ** Runs that stop before the relay *)

Lemma stops_in_main_load args w r w' t :
  (forall a, r <> Ret a) ->
  main_load args w = mkRun r w' t ->
  main args w = mkRun (match r with
                       | Ret _ => Ret tt
                       | Exit code => Exit code
                       | Raise e => Raise e
                       end) w' t.
Proof.
  intros Hr H. unfold main, bind. rewrite H. cbn [result final trace].
  destruct r as [a| |]; [destruct (Hr a eq_refl) | reflexivity | reflexivity].
Qed.

Lemma outcome_raises_then {A B} (m : M A) (f : A -> M B) w e w1 t1
    (Q : Result B -> World -> list Event -> Prop) :
  m w = mkRun (Raise e) w1 t1 -> Q (Raise e) w1 t1 -> outcome (bind m f) w Q.
Proof. intros H HQ. unfold outcome, bind. rewrite H. exact HQ. Qed.

Lemma run_is {A} (m : M A) w r w' t :
  outcome m w (fun r0 w0 t0 => r0 = r /\ w0 = w' /\ t0 = t) -> m w = mkRun r w' t.
Proof. unfold outcome. destruct (m w) as [r0 w0 t0]. cbn. intros (-> & -> & ->). reflexivity. Qed.

(** X3.  When the case folder or the workspace directory is missing, the
    run ends with status 1 after a single error line: no directory is
    created, the settings are not read and no agent is invoked; the world
    is left as it was. *)
Theorem missing_folder_touches_nothing (args : Args) (w : World) :
  case_folder_missing args w || workspace_missing args w = true ->
  main args w
  = mkRun (Exit 1) w
      [Log (if case_folder_missing args w
            then "Case folder not found: " ++ path_str (arg_case_folder args)
            else "Workspace not found: " ++ path_str (workspace_dir_of args))
         (Some "ERROR")].
Proof.
  unfold case_folder_missing, workspace_missing. intros H.
  apply (stops_in_main_load args w (Exit 1)); [discriminate|].
  apply run_is. unfold main_load. oprim.
  destruct (fs_exists w (arg_case_folder args)) eqn:Hcase; cbn [negb orb] in *.
  - oprim. oprim. rewrite H.
    eapply outcome_exits_then; [reflexivity|]. repeat split.
  - eapply outcome_exits_then; [reflexivity|]. repeat split.
Qed.

(** X4.  Without --auto-detect, when the folders are there, the settings
    load and ATTACKS.json is missing, the run ends with status 1 without
    invoking any agent; it has created the strategy directory and logged
    the error and the hint to create the file or to use --auto-detect. *)
Theorem missing_attacks_file_stops_the_run (args : Args) (w : World) :
  arg_auto_detect args = false ->
  fs_exists w (arg_case_folder args) = true ->
  fs_exists w (workspace_dir_of args) = true ->
  settings_readable args w ->
  fs_exists (world_after_setup args w) (attacks_file_of args) = false ->
  main args w
  = mkRun (Exit 1) (world_after_setup args w)
      [Log ("ATTACKS.json not found: " ++ path_str (attacks_file_of args)) (Some "ERROR");
       Log "Either run with --auto-detect or create ATTACKS.json manually" (Some "INFO")].
Proof.
  unfold settings_readable, settings_of, world_after_setup, attacks_file_of, settings_file_of.
  intros Hauto Hcase Hws Hs Hfile.
  apply (stops_in_main_load args w (Exit 1)); [discriminate|].
  apply run_is. unfold main_load. oprim. rewrite Hcase. cbn [negb]. oprim. oprim.
  rewrite Hws. cbn [negb]. do 3 oprim.
  destruct (util_load_json_file _ _) as [settings|]; [|congruence]. oprim.
  rewrite Hauto. do 2 oprim. rewrite Hfile. cbn [negb].
  eapply outcome_exits_then; [reflexivity|]. repeat split.
Qed.

(** X5.  When [load_json_file] returns None for settings.json, the
    unguarded [settings.get] of line 775 raises AttributeError: the
    process ends with status 1 before any log line or agent invocation,
    the strategy directory having been created. *)
Theorem unreadable_settings_raise (args : Args) (w : World) :
  fs_exists w (arg_case_folder args) = true ->
  fs_exists w (workspace_dir_of args) = true ->
  settings_of args w = None ->
  main args w = mkRun (Raise AttributeError) (world_after_setup args w) []
  /\ exit_status (result (main args w)) = 1%Z.
Proof.
  unfold settings_of, world_after_setup, settings_file_of.
  intros Hcase Hws Hs.
  assert (H : main args w
              = mkRun (Raise AttributeError) (fs_mkdir w (strategy_dir_of args)) []).
  { apply (stops_in_main_load args w (Raise AttributeError)); [discriminate|].
    apply run_is. unfold main_load. oprim. rewrite Hcase. cbn [negb]. oprim. oprim.
    rewrite Hws. cbn [negb]. do 3 oprim. rewrite Hs.
    eapply outcome_raises_then; [reflexivity|]. repeat split. }
  rewrite H. split; reflexivity.
Qed.

(** X6.  Without --auto-detect, when ATTACKS.json exists and
    [load_json_file] returns None for it, the unguarded
    [attacks_data.get] of line 804 raises AttributeError: the process
    ends with status 1, no agent having been invoked and no error line
    logged. *)
Theorem unreadable_attacks_file_raises (args : Args) (w : World) :
  arg_auto_detect args = false ->
  fs_exists w (arg_case_folder args) = true ->
  fs_exists w (workspace_dir_of args) = true ->
  settings_readable args w ->
  fs_exists (world_after_setup args w) (attacks_file_of args) = true ->
  util_load_json_file (world_after_setup args w) (attacks_file_of args) = None ->
  main args w = mkRun (Raise AttributeError) (world_after_setup args w) []
  /\ exit_status (result (main args w)) = 1%Z.
Proof.
  unfold settings_readable, settings_of, world_after_setup, attacks_file_of, settings_file_of.
  intros Hauto Hcase Hws Hs Hfile Hload.
  assert (H : main args w
              = mkRun (Raise AttributeError) (fs_mkdir w (strategy_dir_of args)) []).
  { apply (stops_in_main_load args w (Raise AttributeError)); [discriminate|].
    apply run_is. unfold main_load. oprim. rewrite Hcase. cbn [negb]. oprim. oprim.
    rewrite Hws. cbn [negb]. do 3 oprim.
    destruct (util_load_json_file _ (arg_case_folder args // "case-context" // "settings.json"))
      as [settings|]; [|congruence]. oprim.
    rewrite Hauto. do 2 oprim. rewrite Hfile. cbn [negb]. do 2 oprim. rewrite Hload.
    eapply outcome_raises_then; [reflexivity|]. repeat split. }
  rewrite H. split; reflexivity.
Qed.

(** ** The directory name of an attack *)

Lemma lower_char_keeps_continuation c : is_continuation (lower_char c) = is_continuation c.
Proof. destruct c as [[] [] [] [] [] [] [] []]; reflexivity. Qed.

Lemma is_ascii_map_string f s :
  (forall c, (nat_of_ascii (f c) <? 128)%nat = (nat_of_ascii c <? 128)%nat) ->
  is_ascii (map_string f s) = is_ascii s.
Proof.
  intros Hf. induction s as [|c s IH]; [reflexivity|].
  cbn [map_string is_ascii]. rewrite Hf, IH. reflexivity.
Qed.

Lemma is_ascii_slice n s : is_ascii s = true -> is_ascii (slice_to n s) = true.
Proof.
  revert n. induction s as [|c s IH]; intros n H; [reflexivity|].
  cbn [is_ascii] in H. apply andb_prop in H. destruct H as [Hc Hs].
  cbn [slice_to]. destruct (is_continuation c).
  - cbn [is_ascii]. rewrite Hc, (IH n Hs). reflexivity.
  - destruct n as [|n]; [reflexivity|]. cbn [is_ascii]. rewrite Hc, (IH n Hs). reflexivity.
Qed.

Lemma slug_char_keeps_ascii c :
  (nat_of_ascii (slug_char c) <? 128)%nat = (nat_of_ascii c <? 128)%nat.
Proof. destruct c as [[] [] [] [] [] [] [] []]; reflexivity. Qed.

(** X7.  The slug has as many characters as the lower-cased name, up to
    30: it is cut, never padded.  For an ASCII name that is the length
    of the name itself, up to 30; for other names lower-casing may
    change the number of characters first. *)
Theorem slug_length (a : Attack) :
  char_count (attack_name_slug a) = Nat.min 30 (char_count (lower (attack_name a)))
  /\ (is_ascii (attack_name a) = true ->
      char_count (attack_name_slug a) = Nat.min 30 (char_count (attack_name a))).
Proof.
  assert (H : char_count (attack_name_slug a)
              = Nat.min 30 (char_count (lower (attack_name a)))).
  { unfold attack_name_slug, replace.
    rewrite char_count_slice_to, !char_count_map_string; [reflexivity| |];
      intros c; apply replace_keeps_continuation; reflexivity. }
  split; [exact H|].
  intros Hascii. rewrite H. unfold lower. rewrite Hascii.
  rewrite char_count_map_string; [reflexivity|]. apply lower_char_keeps_continuation.
Qed.

(** X8.  For ASCII names the directory depends on the id and on the
    first 30 characters of the name only: two attacks with the same id
    whose names agree on their first 30 characters share one artifact
    directory. *)
Theorem same_prefix_same_directory (strategy_dir : Path) (a b : Attack) :
  is_ascii (attack_name a) = true ->
  is_ascii (attack_name b) = true ->
  attack_id a = attack_id b ->
  slice_to 30 (attack_name a) = slice_to 30 (attack_name b) ->
  attack_dir_of strategy_dir a = attack_dir_of strategy_dir b.
Proof.
  intros Ha Hb Hid Hname. unfold attack_dir_of.
  rewrite (slug_of_ascii_name a Ha), (slug_of_ascii_name b Hb), Hid, Hname. reflexivity.
Qed.

(** X9.  For ASCII names slugging is idempotent: an attack named by the
    slug of another has that same slug, so a directory name fed back as
    a name is kept. *)
Theorem slug_is_idempotent (a : Attack) :
  is_ascii (attack_name a) = true ->
  attack_name_slug
    (mkAttack (attack_id a) (attack_name_slug a) (targets a) (opposing_argument a)
       (their_argument a) (jurisdiction a) (cases_cited_by_opponent a) (danger_level a)
       (status a))
  = attack_name_slug a.
Proof.
  intros Ha.
  assert (Hslug : is_ascii (attack_name_slug a) = true).
  { rewrite (slug_of_ascii_name a Ha), is_ascii_map_string by apply slug_char_keeps_ascii.
    apply is_ascii_slice, Ha. }
  rewrite (slug_of_ascii_name (mkAttack _ _ _ _ _ _ _ _ _)) by exact Hslug.
  cbn [attack_name]. rewrite (slug_of_ascii_name a Ha).
  rewrite (slice_to_map_string 30 slug_char) by apply slug_char_keeps_continuation.
  rewrite slice_to_twice, map_string_compose.
  apply map_string_ext. apply slug_char_twice.
Qed.

(** ** How much a relay costs *)

Lemma loop_steps_counts args attacks l s :
  loop_steps args attacks l s ->
  (length l <= length (called s) <= 3 * length l)%nat
  /\ (2 * length l <= length (slept s) <= 3 * length l)%nat.
Proof.
  induction 1 as [|a l ra rb s Ha Hb Hloop IH]; [cbn; lia|].
  rewrite called_app, slept_app, !length_app, called_attack_steps, slept_attack_steps.
  cbn [length]. destruct ra, rb, (equals_last attacks a); cbn [length app]; lia.
Qed.

Lemma loop_steps_last_pass args attacks l s :
  loop_steps args attacks l s ->
  forall pre, attacks = (pre ++ l)%list -> l <> [] ->
  (length (slept s) <= 3 * length l - 1)%nat.
Proof.
  induction 1 as [|a l ra rb s Ha Hb Hloop IH]; intros pre Heq Hne; [congruence|].
  rewrite slept_app, length_app, slept_attack_steps.
  destruct l as [|b l].
  - inversion Hloop; subst. unfold equals_last, attack_eqb.
    rewrite last_app_cons. cbn [last].
    destruct (Attack_eq_dec a a) as [_|Hna]; [cbn; lia | congruence].
  - assert (Heq' : attacks = ((pre ++ [a]) ++ b :: l)%list)
      by (rewrite <- app_assoc; exact Heq).
    specialize (IH _ Heq' ltac:(discriminate)).
    destruct (equals_last attacks a); cbn [length] in *; lia.
Qed.

(** X10.  A relay over N >= 1 attacks sleeps at least 2N+1 and at most
    3N times, whatever the flags and whatever the list holds; so it
    waits between 10N+5 and 15N seconds on top of the agent calls. *)
Theorem relay_sleeps_are_bounded (args : Args) (file_search_store_id : option string)
    (attacks : list Attack) (w : World) :
  attacks <> [] ->
  (2 * length attacks + 1
   <= length (sleeps (trace (main_relay args file_search_store_id attacks w)))
   <= 3 * length attacks)%nat.
Proof.
  intros Hne.
  destruct (main_relay_spec args file_search_store_id attacks w)
    as ([] & w' & t & Hrun & s & Hloop & Hsteps & _).
  unfold runs in Hrun. rewrite Hrun. cbn [trace].
  rewrite <- slept_steps, Hsteps, slept_app, length_app. cbn [slept length].
  destruct (loop_steps_counts _ _ _ _ Hloop) as [_ [Hlow _]].
  pose proof (loop_steps_last_pass _ _ _ _ Hloop [] eq_refl Hne) as Hhigh.
  destruct attacks; [congruence|]. cbn [length] in *. lia.
Qed.

(** X11.  A relay over N attacks invokes the agent at least N+1 and at
    most 3N+1 times, whatever the skip flags and the files found. *)
Theorem relay_invocations_are_bounded (args : Args) (file_search_store_id : option string)
    (attacks : list Attack) (w : World) :
  (length attacks + 1
   <= length (calls (trace (main_relay args file_search_store_id attacks w)))
   <= 3 * length attacks + 1)%nat.
Proof.
  destruct (main_relay_spec args file_search_store_id attacks w)
    as ([] & w' & t & Hrun & s & Hloop & Hsteps & _).
  unfold runs in Hrun. rewrite Hrun. cbn [trace].
  replace (length (calls t)) with (length (phase_names t))
    by (unfold phase_names; apply length_map).
  rewrite (steps_called_names _ _ Hsteps), called_app, length_app. cbn [called length].
  destruct (loop_steps_counts _ _ _ _ Hloop) as [Hcalls _]. lia.
Qed.

(** ** The attack filter *)

Lemma map_constant {A B} (f : A -> B) (b : B) (l : list A) :
  (forall a, In a l -> f a = b) -> map f l = repeat b (length l).
Proof.
  induction l as [|x l IH]; intros H; [reflexivity|].
  cbn [map length repeat]. rewrite (H x (or_introl eq_refl)), IH; [reflexivity|].
  intros a Ha. apply H. right. exact Ha.
Qed.

(** X12.  Under --attack with an id that some loaded attack has, the run
    completes and Phase D is invoked once for every loaded attack with
    that id (all of them, when the id is not unique) and for no other. *)
Theorem attack_filter_selects_by_id (args : Args) (w : World) (id : string) :
  settings_readable args w ->
  attacks_readable args w ->
  load_fails args w = false ->
  arg_attack args = Some id ->
  id <> "" ->
  (exists a, In a (attacks_loaded args w) /\ attack_id a = id) ->
  result (main args w) = Ret tt
  /\ filter is_phase_d (phase_names (trace (main args w)))
     = repeat ("Phase_D_Viability_" ++ id)
         (length (filter (fun a => String.eqb (attack_id a) id) (attacks_loaded args w))).
Proof.
  intros Hs Ha Hload Hid Hne (a & Hin & Ha_id).
  assert (Hsel : attacks_selected args w
                 = filter (fun a => String.eqb (attack_id a) id) (attacks_loaded args w)).
  { unfold attacks_selected. rewrite Hid. destruct id; [congruence | reflexivity]. }
  assert (Hfound : attack_not_found args w = false).
  { unfold attack_not_found. rewrite Hsel.
    assert (Hf : In a (filter (fun a => String.eqb (attack_id a) id) (attacks_loaded args w))).
    { apply filter_In. split; [exact Hin|]. rewrite Ha_id. apply String.eqb_refl. }
    destruct (filter _ _); [destruct Hf | apply andb_false_r]. }
  destruct (main_reaches_relay args w Hs Ha) as (Hres & s & Hloop & Hsteps & _).
  { rewrite Hload, Hfound. reflexivity. }
  split; [exact Hres|].
  destruct (loop_steps_phase_d _ _ _ _ Hloop) as [Hd _].
  rewrite (steps_called_names _ _ Hsteps), !called_app, !filter_app, Hd, Hsel.
  replace (filter is_phase_d (called (if arg_auto_detect args
                                      then [Called phase_0_name] else [])))
    with (@nil string) by (destruct (arg_auto_detect args); reflexivity).
  cbn [called filter app]. rewrite app_nil_r.
  apply map_constant. intros b Hb. apply filter_In in Hb. destruct Hb as [_ Hb].
  apply String.eqb_eq in Hb. unfold phase_d_name. rewrite Hb. reflexivity.
Qed.

(** ** A stale ATTACKS.json *)

(** X13.  Phase 0 cannot tell a fresh ATTACKS.json from one that was
    there before: when the agent leaves the world as it found it and a
    valid ATTACKS.json already exists, the detection succeeds and returns
    the path of that file. *)
Theorem stale_attacks_file_passes_detection (agent : string)
    (case_folder strategy_dir : Path) (motion : string)
    (file_search_store_id : option string) (w : World) :
  (forall c, snd (util_run_agent c w) = w) ->
  detection_ok w (strategy_dir // "ATTACKS.json") = true ->
  let r := phase_0_detect_attacks agent case_folder strategy_dir motion
             file_search_store_id w in
  result r = Ret (Some (strategy_dir // "ATTACKS.json"))
  /\ final r = w
  /\ length (calls (trace r)) = 1%nat.
Proof.
  intros Hidle Hok r. subst r.
  destruct (phase_0_runs agent case_folder strategy_dir motion file_search_store_id w)
    as (c & t & Hrun & _ & Hcalls & _).
  unfold runs in Hrun. rewrite Hrun. cbn [result final trace].
  rewrite Hidle, Hok, Hcalls. repeat split.
Qed.

(** ** What Phase E reads *)

(** [''.join(l)] *)
Definition join_all (l : list string) : string := fold_right String.append "" l.

(** The section that lines 624-630 add for one JSON artifact. *)
Definition json_section (w : World) (filename : string) (f : Path) : string :=
  ("
=== " ++ path_name (path_parent f) ++ "/" ++ filename ++ " ===
") ++ json_dumps (util_load_json_file w f).

(** The section that lines 632-634 add for one analysis. *)
Definition text_section (w : World) (f : Path) : string :=
  ("
=== " ++ path_name (path_parent f) ++ "/analysis.md ===
") ++ fs_read_text w f.

Lemma append_json_sections_value files filename context w :
  runs (append_json_sections files filename context) w
    (context ++ join_all (map (json_section w filename) files)) w [].
Proof.
  revert context. induction files as [|f rest IH]; intros context.
  - cbn [append_json_sections map join_all fold_right].
    replace (context ++ "") with context; [reflexivity|].
    clear. induction context as [|c s IHs]; [reflexivity|].
    change (String c s = String c (s ++ "")). now rewrite <- IHs.
  - cbn [append_json_sections]. unfold runs in *. unfold bind at 1.
    cbn [load_json_file result final trace]. rewrite IH. cbn [result final trace app].
    f_equal. f_equal. cbn [map join_all fold_right]. unfold json_section.
    rewrite !append_assoc. reflexivity.
Qed.

Lemma append_text_sections_value files context w :
  runs (append_text_sections files context) w
    (context ++ join_all (map (text_section w) files)) w [].
Proof.
  revert context. induction files as [|f rest IH]; intros context.
  - cbn [append_text_sections map join_all fold_right].
    replace (context ++ "") with context; [reflexivity|].
    clear. induction context as [|c s IHs]; [reflexivity|].
    change (String c s = String c (s ++ "")). now rewrite <- IHs.
  - cbn [append_text_sections]. unfold runs in *. unfold bind at 1.
    cbn [path_read_text result final trace]. rewrite IH. cbn [result final trace app].
    f_equal. f_equal. cbn [map join_all fold_right]. unfold text_section.
    rewrite !append_assoc. reflexivity.
Qed.

(** X14.  The context Phase E hands to the agent is the overview of
    ATTACKS.json followed by one section per file found by the three
    globs, in the order the file system lists them and grouped by kind:
    all evidence analyses, then all counter-requirements, then all
    analyses, not attack by attack; a JSON file that does not load adds
    its section with the rendering of None. *)
Theorem phase_e_context_follows_the_globs (agent : string) (strategy_dir case_folder : Path)
    (w : World) :
  exists c,
    calls (trace (phase_e_gap_analysis agent strategy_dir case_folder w)) = [c]
    /\ call_context c
       = phase_e_overview (util_load_json_file w (strategy_dir // "ATTACKS.json"))
         ++ join_all (map (json_section w "EVIDENCE_ANALYSIS.json")
                        (fs_glob w strategy_dir "attacks/*/EVIDENCE_ANALYSIS.json"))
         ++ join_all (map (json_section w "counter_requirements.json")
                        (fs_glob w strategy_dir "attacks/*/counter_requirements.json"))
         ++ join_all (map (text_section w)
                        (fs_glob w strategy_dir "attacks/*/analysis.md")).
Proof.
  unfold phase_e_gap_analysis. unfold bind at 1 2 3 4. cbn [path_glob load_json_file
    result final trace].
  rewrite (bind_runs _ _ _ _ _ _ (append_json_sections_value _ _ _ w)).
  cbn [result final trace].
  rewrite (bind_runs _ _ _ _ _ _ (append_json_sections_value _ _ _ w)).
  cbn [result final trace].
  rewrite (bind_runs _ _ _ _ _ _ (append_text_sections_value _ _ w)).
  cbn [result final trace].
  unfold bind, run_agent_defensive, run_agent, datetime_now_strftime, log, path_exists.
  cbn [result final trace app].
  eexists. split.
  - destruct (fs_exists _ _); reflexivity.
  - cbn [call_context]. rewrite !append_assoc. reflexivity.
Qed.

(** ** The baton *)

Lemma errors_log m level t :
  errors (Log m (Some level) :: t)
  = if String.eqb level "ERROR" then m :: errors t else errors t.
Proof.
  destruct level as [|c1 l1]; [reflexivity|].
  destruct c1 as [[] [] [] [] [] [] [] []]; try reflexivity.
  destruct l1 as [|c2 l2]; [reflexivity|].
  destruct c2 as [[] [] [] [] [] [] [] []]; try reflexivity.
  destruct l2 as [|c3 l3]; [reflexivity|].
  destruct c3 as [[] [] [] [] [] [] [] []]; try reflexivity.
  destruct l3 as [|c4 l4]; [reflexivity|].
  destruct c4 as [[] [] [] [] [] [] [] []]; try reflexivity.
  destruct l4 as [|c5 l5]; [reflexivity|].
  destruct c5 as [[] [] [] [] [] [] [] []]; try reflexivity.
  destruct l5; reflexivity.
Qed.

Lemma errors_app (t1 t2 : list Event) : errors (t1 ++ t2) = (errors t1 ++ errors t2)%list.
Proof.
  induction t1 as [|e t1 IH]; [reflexivity|].
  change ((e :: t1) ++ t2)%list with (e :: (t1 ++ t2))%list.
  destruct e as [m [level|]| |]; try exact IH.
  rewrite !errors_log, IH. destruct (String.eqb level "ERROR"); reflexivity.
Qed.

Lemma calls_of_phase (m created missing : string) (c : AgentCall) (written : bool) :
  calls [Log m (Some "PHASE"); Invoke c;
         if written then Log created (Some "DONE") else Log missing (Some "ERROR")]
  = [c].
Proof. destruct written; reflexivity. Qed.

(** X15.  With no skip flag, one pass invokes the agent three times, and
    each phase reads what the phase before it left: Phase B loads the
    evidence analysis from the world that Phase A's agent left (five
    seconds later), and Phase D loads the evidence analysis and the
    counter-requirements from the world that Phase B's agent left; the
    orchestrator writes nothing in between. *)
Theorem artifacts_are_handed_on (args : Args) (file_search_store_id : option string)
    (attacks : list Attack) (attack : Attack) (w : World) :
  attacks <> [] ->
  arg_skip_evidence args = false ->
  arg_skip_counter_req args = false ->
  let attack_dir := attack_dir_of (strategy_dir_of args) attack in
  let evidence_file := attack_dir // "EVIDENCE_ANALYSIS.json" in
  let counter_req_file := attack_dir // "counter_requirements.json" in
  let documents_index := arg_case_folder args // "case-context" // "documents_index.json" in
  exists ca cb cd,
    calls (trace (process_attack args file_search_store_id attacks attack w)) = [ca; cb; cd]
    /\ let wb := clock_sleep 5 (snd (util_run_agent ca (fs_mkdir w attack_dir))) in
       let wd := clock_sleep 5 (snd (util_run_agent cb wb)) in
       call_context cb
       = phase_b_context (util_load_json_file wb evidence_file)
           (util_load_json_file wb documents_index) attack
       /\ call_context cd
          = phase_d_context (util_load_json_file wd evidence_file)
              (util_load_json_file wd counter_req_file).
Proof.
  intros Hne Hska Hskb attack_dir evidence_file counter_req_file documents_index.
  subst evidence_file counter_req_file documents_index.
  destruct (phase_a_runs (arg_agent args) attack (arg_case_folder args) attack_dir
              file_search_store_id (fs_mkdir w attack_dir)) as (ca & Ha & _).
  cbv zeta in Ha.
  set (wb := clock_sleep 5 (snd (util_run_agent ca (fs_mkdir w attack_dir)))) in *.
  destruct (phase_b_runs (arg_agent args) attack (attack_dir // "EVIDENCE_ANALYSIS.json")
              (arg_case_folder args) attack_dir file_search_store_id wb)
    as (cb & Hb & _ & Hcb).
  cbv zeta in Hb.
  set (wd := clock_sleep 5 (snd (util_run_agent cb wb))) in *.
  destruct (phase_d_runs (arg_agent args) attack (attack_dir // "EVIDENCE_ANALYSIS.json")
              (attack_dir // "counter_requirements.json") attack_dir (arg_case_folder args)
              wd) as (cd & Hd & _ & Hcd & _).
  cbv zeta in Hd.
  exists ca, cb, cd. split; [|split; [exact Hcb | exact Hcd]].
  assert (Hspec : spec (process_attack args file_search_store_id attacks attack) w
                    (fun _ _ t => calls t = [ca; cb; cd])).
  { unfold process_attack. fold attack_dir. do 4 prim.
    eapply runs_then.
    { unfold runs, main_phase_a. rewrite Hska. unfold bind at 1.
      cbn [ret result final trace]. unfold runs in Ha. rewrite Ha. reflexivity. }
    cbn beta. do 2 prim.
    eapply runs_then.
    { unfold runs, main_phase_b. rewrite Hskb. unfold bind at 1.
      cbn [ret result final trace]. unfold runs in Hb. fold wb. rewrite Hb. reflexivity. }
    cbn beta. do 2 prim.
    eapply runs_then; [fold wb; fold wd; exact Hd|]. cbn beta. prim.
    eapply runs_then; [apply (last_attack_runs attacks attack _ Hne)|]. cbn beta.
    destruct (negb (attack_eqb attack (last attacks attack))).
    - prim. eapply spec_runs; [reflexivity|]. cbn [result final trace].
      rewrite !calls_app, !calls_of_phase. reflexivity.
    - apply spec_ret. cbn [result final trace].
      rewrite !calls_app, !calls_of_phase. reflexivity. }
  destruct Hspec as ([] & w' & t & Hrun & Hcalls).
  unfold runs in Hrun. rewrite Hrun. exact Hcalls.
Qed.

(** ** A relay without error lines *)

(** The agent always leaves the file it was asked for. *)
Definition agent_always_writes : Prop :=
  forall c w p,
    call_output_file c = Some (path_str p) ->
    fs_exists (snd (util_run_agent c w)) p = true.

(** [m] returns in every world and logs no error line. *)
Definition quiet {A} (m : M A) : Prop :=
  forall w, spec m w (fun _ _ t => errors t = []).

Lemma quiet_bind {A B} (m : M A) (f : A -> M B) :
  quiet m -> (forall a, quiet (f a)) -> quiet (bind m f).
Proof.
  intros Hm Hf w. destruct (Hm w) as (a & w1 & t1 & Hrun1 & Herr1).
  destruct (Hf a w1) as (b & w2 & t2 & Hrun2 & Herr2).
  exists b, w2, (t1 ++ t2)%list. split; [eapply runs_bind; eassumption|].
  rewrite errors_app, Herr1, Herr2. reflexivity.
Qed.

Lemma quiet_silent {A} (m : M A) :
  (forall w, exists a w', m w = mkRun (Ret a) w' []) -> quiet m.
Proof. intros H w. destruct (H w) as (a & w' & Hrun). exists a, w', []. auto. Qed.

Lemma quiet_log message level : errors [Log message level] = [] -> quiet (log message level).
Proof. intros H w. exists tt, w, [Log message level]. split; [reflexivity | exact H]. Qed.

Lemma quiet_time_sleep seconds : quiet (time_sleep seconds).
Proof. intros w. do 3 eexists. split; reflexivity. Qed.

Lemma quiet_for_each {A} (l : list A) (body : A -> M unit) :
  (forall a, quiet (body a)) -> quiet (for_each l body).
Proof.
  intros H. induction l as [|x l IH]; cbn [for_each].
  - apply quiet_silent. intros w. do 2 eexists. reflexivity.
  - apply quiet_bind; [apply H | intros _; exact IH].
Qed.

Ltac keep_quiet :=
  repeat
    match goal with
    | |- quiet (bind _ _) => apply quiet_bind; [|intros ?]
    | |- quiet (log _ _) => apply quiet_log; reflexivity
    | |- quiet (time_sleep _) => apply quiet_time_sleep
    | |- quiet (if ?b then _ else _) => destruct b
    | |- quiet (ret _) => apply quiet_silent; intros ?; do 2 eexists; reflexivity
    | |- quiet (path_exists _) => apply quiet_silent; intros ?; do 2 eexists; reflexivity
    | |- quiet (path_mkdir _) => apply quiet_silent; intros ?; do 2 eexists; reflexivity
    end.

Lemma event_writes_into_one p c :
  event_writes_into [p] (Invoke c) -> call_output_file c = Some (path_str p).
Proof. intros (q & [<-|[]] & H). exact H. Qed.

Section AgentAlwaysWrites.

Hypothesis Hwrites : agent_always_writes.

Lemma phase_a_is_quiet agent attack case_folder output_dir fsid :
  quiet (phase_a_evidence_analysis agent attack case_folder output_dir fsid).
Proof.
  intros w.
  destruct (phase_a_runs agent attack case_folder output_dir fsid w) as (c & Hrun & _).
  cbv zeta in Hrun. eapply spec_runs; [exact Hrun|]. cbv beta.
  assert (Hinto : obeys (event_writes_into [output_dir // "EVIDENCE_ANALYSIS.json"])
                    (phase_a_evidence_analysis agent attack case_folder output_dir fsid)).
  { unfold phase_a_evidence_analysis. obey_paths.
    eexists. split; [left; reflexivity | reflexivity]. }
  specialize (Hinto w). unfold runs in Hrun. rewrite Hrun in Hinto. cbn [trace] in Hinto.
  inversion Hinto as [|? ? _ Hrest]. inversion Hrest as [|? ? Hcall _].
  rewrite (Hwrites _ _ _ (event_writes_into_one _ _ Hcall)). reflexivity.
Qed.

Lemma phase_b_is_quiet agent attack evidence_file case_folder output_dir fsid :
  quiet (phase_b_counter_requirements agent attack evidence_file case_folder output_dir fsid).
Proof.
  intros w.
  destruct (phase_b_runs agent attack evidence_file case_folder output_dir fsid w)
    as (c & Hrun & _).
  cbv zeta in Hrun. eapply spec_runs; [exact Hrun|]. cbv beta.
  assert (Hinto : obeys (event_writes_into [output_dir // "counter_requirements.json"])
                    (phase_b_counter_requirements agent attack evidence_file case_folder
                       output_dir fsid)).
  { unfold phase_b_counter_requirements. obey_paths.
    eexists. split; [left; reflexivity | reflexivity]. }
  specialize (Hinto w). unfold runs in Hrun. rewrite Hrun in Hinto. cbn [trace] in Hinto.
  inversion Hinto as [|? ? _ Hrest]. inversion Hrest as [|? ? Hcall _].
  rewrite (Hwrites _ _ _ (event_writes_into_one _ _ Hcall)). reflexivity.
Qed.

Lemma phase_d_is_quiet agent attack evidence_file counter_req_file output_dir case_folder :
  quiet (phase_d_viability_analysis agent attack evidence_file counter_req_file output_dir
           case_folder).
Proof.
  intros w.
  destruct (phase_d_runs agent attack evidence_file counter_req_file output_dir
              case_folder w) as (c & Hrun & _).
  cbv zeta in Hrun. eapply spec_runs; [exact Hrun|]. cbv beta.
  assert (Hinto : obeys (event_writes_into [output_dir // "analysis.md"])
                    (phase_d_viability_analysis agent attack evidence_file counter_req_file
                       output_dir case_folder)).
  { unfold phase_d_viability_analysis. obey_paths.
    eexists. split; [left; reflexivity | reflexivity]. }
  specialize (Hinto w). unfold runs in Hrun. rewrite Hrun in Hinto. cbn [trace] in Hinto.
  inversion Hinto as [|? ? _ Hrest]. inversion Hrest as [|? ? Hcall _].
  rewrite (Hwrites _ _ _ (event_writes_into_one _ _ Hcall)). reflexivity.
Qed.

Lemma phase_e_is_quiet agent strategy_dir case_folder :
  quiet (phase_e_gap_analysis agent strategy_dir case_folder).
Proof.
  intros w.
  destruct (phase_e_runs agent strategy_dir case_folder w) as (c & Hrun & _).
  cbv zeta in Hrun. eapply spec_runs; [exact Hrun|]. cbv beta.
  assert (Hinto : obeys (event_writes_into [strategy_dir // "GAP_ANALYSIS.md"])
                    (phase_e_gap_analysis agent strategy_dir case_folder)).
  { unfold phase_e_gap_analysis. obey_paths.
    eexists. split; [left; reflexivity | reflexivity]. }
  specialize (Hinto w). unfold runs in Hrun. rewrite Hrun in Hinto. cbn [trace] in Hinto.
  inversion Hinto as [|? ? _ Hrest]. inversion Hrest as [|? ? Hcall _].
  rewrite (Hwrites _ _ _ (event_writes_into_one _ _ Hcall)). reflexivity.
Qed.

Lemma process_attack_is_quiet args fsid attacks attack :
  attacks <> [] -> quiet (process_attack args fsid attacks attack).
Proof.
  intros Hne. unfold process_attack, main_phase_a, main_phase_b.
  repeat
    match goal with
    | |- quiet (phase_a_evidence_analysis _ _ _ _ _) => apply phase_a_is_quiet
    | |- quiet (phase_b_counter_requirements _ _ _ _ _ _) => apply phase_b_is_quiet
    | |- quiet (phase_d_viability_analysis _ _ _ _ _ _) => apply phase_d_is_quiet
    | |- quiet (last_attack _) =>
        apply quiet_silent; intros w0; do 2 eexists;
        apply (last_attack_runs attacks attack w0 Hne)
    | |- quiet (bind _ _) => apply quiet_bind; [|intros ?]
    | |- quiet (log _ _) => apply quiet_log; reflexivity
    | |- quiet (time_sleep _) => apply quiet_time_sleep
    | |- quiet (if ?b then _ else _) => destruct b
    | |- quiet (ret _) => apply quiet_silent; intros ?; do 2 eexists; reflexivity
    | |- quiet (path_exists _) => apply quiet_silent; intros ?; do 2 eexists; reflexivity
    | |- quiet (path_mkdir _) => apply quiet_silent; intros ?; do 2 eexists; reflexivity
    end.
Qed.

Lemma main_relay_is_quiet args fsid attacks : quiet (main_relay args fsid attacks).
Proof.
  assert (Hloop : quiet (for_each attacks (process_attack args fsid attacks))).
  { destruct attacks as [|a0 rest].
    - apply quiet_silent. intros w. do 2 eexists. reflexivity.
    - apply quiet_for_each. intros a. apply process_attack_is_quiet. discriminate. }
  unfold main_relay.
  repeat
    match goal with
    | |- quiet (phase_e_gap_analysis _ _ _) => apply phase_e_is_quiet
    | |- quiet (for_each _ (process_attack _ _ _)) => exact Hloop
    | |- quiet (for_each _ (log_created_files _)) =>
        apply quiet_for_each; intros ?; unfold log_created_files
    | |- quiet (bind _ _) => apply quiet_bind; [|intros ?]
    | |- quiet (log _ _) => apply quiet_log; reflexivity
    | |- quiet (time_sleep _) => apply quiet_time_sleep
    | |- quiet (if ?b then _ else _) => destruct b
    | |- quiet (ret _) => apply quiet_silent; intros ?; do 2 eexists; reflexivity
    end.
Qed.

End AgentAlwaysWrites.

(** X16.  When the agent always leaves the file it is asked for, the
    relay logs no error line: every phase finds its artifact. *)
Theorem relay_without_errors (args : Args) (file_search_store_id : option string)
    (attacks : list Attack) (w : World) :
  agent_always_writes ->
  result (main_relay args file_search_store_id attacks w) = Ret tt
  /\ errors (trace (main_relay args file_search_store_id attacks w)) = [].
Proof.
  intros Hwrites.
  destruct (main_relay_is_quiet Hwrites args file_search_store_id attacks w)
    as ([] & w' & t & Hrun & Herr).
  unfold runs in Hrun. rewrite Hrun. split; [reflexivity | exact Herr].
Qed.

(** ** The closing summary *)

(** The three lines that lines 920-922 log for one attack. *)
Definition summary_lines (strategy_dir : Path) (a : Attack) : list Event :=
  [ Log ("  - " ++ path_name (attack_dir_of strategy_dir a) ++ "/EVIDENCE_ANALYSIS.json") None;
    Log ("  - " ++ path_name (attack_dir_of strategy_dir a) ++ "/counter_requirements.json")
      None;
    Log ("  - " ++ path_name (attack_dir_of strategy_dir a) ++ "/analysis.md") None ].

Lemma for_each_log_created_files_trace strategy_dir l w :
  runs (for_each l (log_created_files strategy_dir)) w tt w
    (flat_map (summary_lines strategy_dir) l).
Proof.
  induction l as [|a l IH]; [reflexivity|].
  cbn [for_each flat_map]. eapply runs_bind; [reflexivity | exact IH].
Qed.

Lemma main_relay_loop_returns args fsid attacks w :
  exists w' t, runs (for_each attacks (process_attack args fsid attacks)) w tt w' t.
Proof.
  destruct attacks as [|a l].
  - do 2 eexists. reflexivity.
  - destruct (for_each_process_spec args fsid (a :: l) (a :: l) w ltac:(discriminate))
      as ([] & w' & t & Hrun & _).
    eauto.
Qed.

(** X17.  The relay ends by listing, under "Files created/updated:", the
    three artifacts of every attack in list order and GAP_ANALYSIS.md;
    the list is written from the attacks alone, whether or not the files
    exist. *)
Theorem summary_lists_every_artifact (args : Args) (file_search_store_id : option string)
    (attacks : list Attack) (w : World) :
  exists t,
    trace (main_relay args file_search_store_id attacks w)
    = (t ++ Log "Files created/updated:" None
         :: flat_map (summary_lines (strategy_dir_of args)) attacks
         ++ [Log "  - GAP_ANALYSIS.md" None])%list.
Proof.
  assert (Hspec : spec (main_relay args file_search_store_id attacks) w
            (fun _ _ t0 =>
               exists t,
                 t0 = (t ++ Log "Files created/updated:" None
                         :: flat_map (summary_lines (strategy_dir_of args)) attacks
                         ++ [Log "  - GAP_ANALYSIS.md" None])%list)).
  { unfold main_relay. do 8 prim.
    assert (Hhead : spec (if truthy file_search_store_id
                          then log ("File Search: " ++ py_str file_search_store_id) None
                          else ret tt) w (fun _ w' _ => w' = w)).
    { destruct (truthy file_search_store_id); eapply spec_runs; reflexivity. }
    destruct Hhead as ([] & w0 & t0 & Hrun0 & ->).
    eapply runs_then; [exact Hrun0|]. cbn beta. prim.
    destruct (main_relay_loop_returns args file_search_store_id attacks w)
      as (w1 & t1 & Hrun1).
    eapply runs_then; [exact Hrun1|]. cbn beta. do 5 prim.
    destruct (phase_e_runs (arg_agent args) (strategy_dir_of args) (arg_case_folder args)
                (clock_sleep 5 w1)) as (ce & Hrune & _).
    eapply runs_then; [exact Hrune|]. cbn beta. do 6 prim.
    eapply runs_then; [apply for_each_log_created_files_trace|]. cbn beta.
    eapply spec_runs; [reflexivity|].
    match goal with
    | |- exists t, ?t0 = _ =>
        let p := before (Log "Files created/updated:" None) t0 in exists p
    end.
    rewrite <- !app_assoc. reflexivity. }
  destruct Hspec as ([] & w' & t0 & Hrun & t & Ht).
  unfold runs in Hrun. rewrite Hrun. exists t. exact Ht.
Qed.

End RelayFacts.

(** * Concrete runs

    A small world for running the script: a disk that maps the text of a
    path to what the file parses to, and agents that write the file they
    are asked for, or nothing at all.  Its [unicode_lower] lower-cases
    the letters A-Z only: the names used below hold no other cased
    letter. *)

Module Stub.

Record Disk := mkDisk {
  disk_entries : list (string * option Document);
  disk_clock : Z
}.

Definition disk_lookup (d : Disk) (p : Path) : option (option Document) :=
  match find (fun e => String.eqb (fst e) (path_str p)) (disk_entries d) with
  | Some e => Some (snd e)
  | None => None
  end.

Definition disk_exists (d : Disk) (p : Path) : bool :=
  match disk_lookup d p with
  | Some _ => true
  | None => false
  end.

Definition disk_load (d : Disk) (p : Path) : option Document :=
  match disk_lookup d p with
  | Some content => content
  | None => None
  end.

Definition disk_put (d : Disk) (name : string) (content : option Document) : Disk :=
  mkDisk ((name, content) :: disk_entries d) (disk_clock d).

Definition disk_mkdir (d : Disk) (p : Path) : Disk :=
  if disk_exists d p then d else disk_put d (path_str p) None.

Definition environment (agent : AgentCall -> Disk -> string * Disk) : Env :=
  {| World := Disk;
     fs_exists := disk_exists;
     fs_mkdir := disk_mkdir;
     fs_glob := fun _ _ _ => [];
     fs_read_text := fun _ _ => "";
     clock_isoformat := fun _ => "2026-01-27T10:00:00";
     clock_strftime := fun _ => "2026-01-27 10:00";
     clock_sleep := fun n d => mkDisk (disk_entries d) (disk_clock d + n);
     json_dumps := fun v => match v with Some _ => "{}" | None => "null" end;
     util_load_json_file := disk_load;
     util_build_context_string := fun _ _ => "";
     util_run_agent := agent;
     unicode_lower := map_string lower_char |}.

Definition standing : Attack :=
  mkAttack "001" "Standing" (Some ["Count I"]) (Some "Plaintiff lacks standing.")
    None None ["Spokeo v. Robins"] "high" "confirmed".

Definition limitations : Attack :=
  mkAttack "002" "Statute of Limitations" (Some ["Count II"])
    (Some "The claim is time-barred.") None (Some "Georgia") [] "medium" "confirmed".

Definition empty_object : Document := mkDocument None None [].

Definition attacks_object (l : list Attack) : Document :=
  mkDocument None (Some l) [("strategy_type", "defensive")].

(** An agent that writes the file it is asked for: a list with one
    attack in Phase 0, an empty object in the other phases. *)
Definition writing_agent (c : AgentCall) (d : Disk) : string * Disk :=
  ("",
   match call_output_file c with
   | Some name =>
       disk_put d name
         (Some (if String.eqb (call_phase_name c) phase_0_name
                then attacks_object [standing] else empty_object))
   | None => d
   end).

(** An agent that writes nothing. *)
Definition idle_agent (c : AgentCall) (d : Disk) : string * Disk := ("", d).

Definition writing : Env := environment writing_agent.
Definition idle : Env := environment idle_agent.

Definition plain_args : Args :=
  mkArgs (root // "case") "ws" "s1" "auggie" None false false false "Motion to Dismiss".

Definition with_skip_evidence (args : Args) : Args :=
  mkArgs (arg_case_folder args) (arg_workspace args) (arg_strategy args) (arg_agent args)
    (arg_attack args) true (arg_skip_counter_req args) (arg_auto_detect args)
    (arg_motion args).

Definition with_attack (id : string) (args : Args) : Args :=
  mkArgs (arg_case_folder args) (arg_workspace args) (arg_strategy args) (arg_agent args)
    (Some id) (arg_skip_evidence args) (arg_skip_counter_req args) (arg_auto_detect args)
    (arg_motion args).

Definition with_auto_detect (args : Args) : Args :=
  mkArgs (arg_case_folder args) (arg_workspace args) (arg_strategy args) (arg_agent args)
    (arg_attack args) (arg_skip_evidence args) (arg_skip_counter_req args) true
    (arg_motion args).

(** The case folder, the workspace and the settings, without ATTACKS.json. *)
Definition bare_disk : Disk :=
  mkDisk [ (path_str (arg_case_folder plain_args), None);
           (path_str (workspace_dir_of plain_args), None);
           (path_str (arg_case_folder plain_args // "case-context" // "settings.json"),
            Some empty_object) ] 0.

(** The same with an ATTACKS.json that lists one attack. *)
Definition disk : Disk :=
  disk_put bare_disk (path_str (strategy_dir_of plain_args // "ATTACKS.json"))
    (Some (attacks_object [standing])).

(** The same with the evidence analysis of that attack already there. *)
Definition disk_with_evidence : Disk :=
  disk_put disk
    (path_str (attack_dir_of (env := writing) (strategy_dir_of plain_args) standing
               // "EVIDENCE_ANALYSIS.json"))
    (Some empty_object).

End Stub.

(** ** C1 *)

(** C1 as stated fails: under --skip-evidence, with the evidence analysis
    of the one attack already on disk, ATTACKS.json is valid, no --attack
    filter is given, and Phase A is not invoked. *)
Lemma skip_evidence_leaves_phase_a_out :
  let args := Stub.with_skip_evidence Stub.plain_args in
  let w := Stub.disk_with_evidence in
  load_fails (env := Stub.writing) args w = false
  /\ truthy (arg_attack args) = false
  /\ attacks_loaded (env := Stub.writing) args w = [Stub.standing]
  /\ phase_names (trace (main (env := Stub.writing) args w))
     = [phase_b_name Stub.standing; phase_d_name Stub.standing; phase_e_name]
  /\ phase_names (trace (main (env := Stub.writing) args w))
     <> claimed_phase_sequence (attacks_loaded (env := Stub.writing) args w).
Proof.
  cbv zeta.
  split; [vm_compute; reflexivity|]. split; [reflexivity|].
  split; [vm_compute; reflexivity|]. split; [vm_compute; reflexivity|].
  vm_compute. discriminate.
Qed.

Lemma relay_invokes_phases_per_attack_witness :
  let args := Stub.plain_args in
  let w := Stub.disk in
  settings_readable (env := Stub.writing) args w
  /\ attacks_readable (env := Stub.writing) args w
  /\ load_fails (env := Stub.writing) args w = false
  /\ truthy (arg_attack args) = false
  /\ phase_names (trace (main (env := Stub.writing) args w))
     = claimed_phase_sequence [Stub.standing].
Proof.
  cbv zeta.
  assert (H1 : settings_readable (env := Stub.writing) Stub.plain_args Stub.disk)
    by (vm_compute; discriminate).
  assert (H2 : attacks_readable (env := Stub.writing) Stub.plain_args Stub.disk)
    by (intros _ _; vm_compute; discriminate).
  assert (H3 : load_fails (env := Stub.writing) Stub.plain_args Stub.disk = false)
    by (vm_compute; reflexivity).
  assert (H4 : truthy (arg_attack Stub.plain_args) = false) by reflexivity.
  split; [exact H1|]. split; [exact H2|]. split; [exact H3|]. split; [exact H4|].
  destruct (relay_invokes_phases_per_attack (env := Stub.writing) Stub.plain_args Stub.disk
              H1 H2 H3 H4) as (_ & _ & names & Hnames & _ & _ & _ & Hseq & _).
  rewrite Hnames, (Hseq eq_refl eq_refl). vm_compute. reflexivity.
Defined.

(** ** C2 *)

Lemma detection_failure_aborts_witness :
  let args := Stub.with_auto_detect Stub.plain_args in
  let w := Stub.bare_disk in
  arg_auto_detect args = true
  /\ fs_exists (Env := Stub.idle) w (arg_case_folder args) = true
  /\ fs_exists (Env := Stub.idle) w (workspace_dir_of args) = true
  /\ settings_readable (env := Stub.idle) args w
  /\ result (detection_run (env := Stub.idle) args w) = Ret None
  /\ result (main (env := Stub.idle) args w) = Exit 1
  /\ phase_names (trace (main (env := Stub.idle) args w)) = [phase_0_name].
Proof.
  cbv zeta.
  assert (H1 : arg_auto_detect (Stub.with_auto_detect Stub.plain_args) = true)
    by reflexivity.
  assert (H2 : fs_exists (Env := Stub.idle) Stub.bare_disk
                 (arg_case_folder (Stub.with_auto_detect Stub.plain_args)) = true)
    by (vm_compute; reflexivity).
  assert (H3 : fs_exists (Env := Stub.idle) Stub.bare_disk
                 (workspace_dir_of (Stub.with_auto_detect Stub.plain_args)) = true)
    by (vm_compute; reflexivity).
  assert (H4 : settings_readable (env := Stub.idle)
                 (Stub.with_auto_detect Stub.plain_args) Stub.bare_disk)
    by (vm_compute; discriminate).
  split; [exact H1|]. split; [exact H2|]. split; [exact H3|]. split; [exact H4|].
  destruct (detection_failure_aborts (env := Stub.idle)
              (Stub.with_auto_detect Stub.plain_args) Stub.bare_disk H1 H2 H3 H4)
    as (_ & Hres & Habort).
  split; [rewrite Hres; vm_compute; reflexivity|].
  apply Habort. vm_compute. reflexivity.
Defined.

(** A stub that writes a well-formed ATTACKS.json makes Phase 0 return
    the path of that file. *)
Example detection_returns_the_path :
  result (detection_run (env := Stub.writing) (Stub.with_auto_detect Stub.plain_args)
            Stub.bare_disk)
  = Ret (Some (attacks_file_of (Stub.with_auto_detect Stub.plain_args))).
Proof. vm_compute. reflexivity. Qed.

(** ** C3 *)



(** ** C5 *)

(** C5 as stated fails: the directory of the attack with id 002 and name
    Standing Defense!! is not attacks/002_standing_defense; the two
    exclamation marks stay. *)
Lemma standing_defense_keeps_its_punctuation :
  attack_dir_of (env := Stub.writing) root standing_defense
  <> root // "attacks" // "002_standing_defense".
Proof. vm_compute. discriminate. Qed.

Lemma attack_dir_is_derived_witness :
  let a := Stub.limitations in
  let dir := attack_dir_of (env := Stub.writing) (root // "s") a in
  is_ascii (attack_name a) = true
  /\ is_component (attack_id a ++ "_" ++ attack_name_slug (env := Stub.writing) a) = true
  /\ attack_name_slug (env := Stub.writing) a
     = map_string slug_char (slice_to 30 "Statute of Limitations")
  /\ path_name dir = "002" ++ "_" ++ attack_name_slug (env := Stub.writing) a
  /\ path_parent dir = root // "s" // "attacks".
Proof.
  cbv zeta.
  assert (H1 : is_ascii (attack_name Stub.limitations) = true) by reflexivity.
  assert (H2 : is_component (attack_id Stub.limitations ++ "_"
                             ++ attack_name_slug (env := Stub.writing) Stub.limitations)
               = true) by (vm_compute; reflexivity).
  destruct (attack_dir_is_derived (env := Stub.writing) (root // "s") Stub.limitations)
    as (_ & _ & _ & _ & Hascii & Hcomponent & _).
  destruct (Hascii H1) as [Hslug _].
  destruct (Hcomponent H2) as (_ & _ & Hname & Hparent).
  split; [exact H1|]. split; [exact H2|]. split; [exact Hslug|].
  split; [exact Hname | exact Hparent].
Defined.

(** The cut is at 30 characters, not bytes: the section sign takes two
    bytes and has no case, and the slug keeps 30 characters in 31
    bytes. *)
Example slug_counts_characters :
  let a := mkAttack "004" "FDCPA § 1692g Validation Notice Defects" None None None None []
             "" "" in
  attack_name_slug (env := Stub.writing) a = "fdcpa_§_1692g_validation_notic"
  /\ char_count (attack_name_slug (env := Stub.writing) a) = 30%nat
  /\ String.length (attack_name_slug (env := Stub.writing) a) = 31%nat.
Proof. vm_compute. repeat split. Qed.

(** A slash in the name starts a sub-directory: the directory is then
    not an entry of attacks, and its name is what follows the slash. *)
Example slash_in_a_name_nests_the_directory :
  let a := mkAttack "x" "Fraud/Misrepresentation" None None None None [] "" "" in
  let dir := attack_dir_of (env := Stub.writing) (root // "s") a in
  path_str dir = "/s/attacks/x_fraud/misrepresentation"
  /\ path_name dir = "misrepresentation"
  /\ path_parent dir = root // "s" // "attacks" // "x_fraud".
Proof. vm_compute. repeat split. Qed.

(** ** C6 *)

(** C6 as stated fails: under --auto-detect the agent is invoked for
    Phase 0 before the list can be searched for the id given by
    --attack. *)
Lemma unknown_attack_id_after_detection :
  let args := Stub.with_attack "999" (Stub.with_auto_detect Stub.plain_args) in
  let w := Stub.bare_disk in
  arg_attack args = Some "999"
  /\ (forall a, In a (attacks_loaded (env := Stub.writing) args w) -> attack_id a <> "999")
  /\ ~ (exit_status (result (main (env := Stub.writing) args w)) <> 0%Z
        /\ calls (trace (main (env := Stub.writing) args w)) = []).
Proof.
  cbv zeta. split; [reflexivity|]. split.
  - vm_compute. intros a [<-|[]]. discriminate.
  - intros [_ H]. vm_compute in H. discriminate H.
Qed.

Lemma unknown_attack_id_aborts_witness :
  let args := Stub.with_attack "999" (Stub.with_auto_detect Stub.plain_args) in
  let w := Stub.bare_disk in
  settings_readable (env := Stub.writing) args w
  /\ attacks_readable (env := Stub.writing) args w
  /\ load_fails (env := Stub.writing) args w = false
  /\ arg_attack args = Some "999"
  /\ "999" <> ""
  /\ (forall a, In a (attacks_loaded (env := Stub.writing) args w) -> attack_id a <> "999")
  /\ result (main (env := Stub.writing) args w) = Exit 1
  /\ phase_names (trace (main (env := Stub.writing) args w)) = [phase_0_name]
  /\ length (calls (trace (main (env := Stub.writing) args w))) = 1%nat.
Proof.
  cbv zeta.
  set (args := Stub.with_attack "999" (Stub.with_auto_detect Stub.plain_args)).
  assert (H1 : settings_readable (env := Stub.writing) args Stub.bare_disk)
    by (vm_compute; discriminate).
  assert (H2 : attacks_readable (env := Stub.writing) args Stub.bare_disk)
    by (intros Hno; vm_compute in Hno; discriminate Hno).
  assert (H3 : load_fails (env := Stub.writing) args Stub.bare_disk = false)
    by (vm_compute; reflexivity).
  assert (H4 : arg_attack args = Some "999") by reflexivity.
  assert (H5 : "999" <> "") by discriminate.
  assert (H6 : forall a, In a (attacks_loaded (env := Stub.writing) args Stub.bare_disk) ->
                         attack_id a <> "999")
    by (vm_compute; intros a [<-|[]]; discriminate).
  split; [exact H1|]. split; [exact H2|]. split; [exact H3|]. split; [exact H4|].
  split; [exact H5|]. split; [exact H6|].
  exact (unknown_attack_id_aborts (env := Stub.writing) args Stub.bare_disk "999"
           H1 H2 H3 H4 H5 H6).
Defined.

(** ** C7 *)

Lemma skip_evidence_reuses_existing_file_witness :
  let args := Stub.with_skip_evidence Stub.plain_args in
  let attack_dir := attack_dir_of (env := Stub.writing) (strategy_dir_of args) Stub.standing in
  let w := Stub.disk_with_evidence in
  [Stub.standing] <> []
  /\ arg_skip_evidence args = true
  /\ fs_exists (Env := Stub.writing) (fs_mkdir (Env := Stub.writing) w attack_dir)
       (attack_dir // "EVIDENCE_ANALYSIS.json") = true
  /\ ~ In (phase_a_name Stub.standing)
         (phase_names (trace (process_attack (env := Stub.writing) args None
                                [Stub.standing] Stub.standing w))).
Proof.
  cbv zeta.
  set (args := Stub.with_skip_evidence Stub.plain_args).
  assert (H1 : [Stub.standing] <> []) by discriminate.
  assert (H2 : arg_skip_evidence args = true) by reflexivity.
  assert (H3 : fs_exists (Env := Stub.writing)
                 (fs_mkdir (Env := Stub.writing) Stub.disk_with_evidence
                    (attack_dir_of (env := Stub.writing) (strategy_dir_of args) Stub.standing))
                 (attack_dir_of (env := Stub.writing) (strategy_dir_of args) Stub.standing
                  // "EVIDENCE_ANALYSIS.json") = true)
    by (vm_compute; reflexivity).
  split; [exact H1|]. split; [exact H2|]. split; [exact H3|].
  exact (proj1 (proj2 (proj2 (skip_evidence_reuses_existing_file (env := Stub.writing)
                                args None [Stub.standing] Stub.standing
                                Stub.disk_with_evidence H1 H2 H3)))).
Defined.

(** ** C9 *)

(** With two different attacks the delay is there: the list of steps has
    a sleep between the first attack's Phase D and the second attack's
    Phase A. *)
Example distinct_attacks_are_delayed :
  steps (trace (main_relay (env := Stub.writing) Stub.plain_args None
                  [Stub.standing; Stub.limitations] Stub.disk))
  = [ Called "Phase_A_Evidence_001"; Slept 5; Called "Phase_B_Counter_Req_001"; Slept 5;
      Called "Phase_D_Viability_001"; Slept 5;
      Called "Phase_A_Evidence_002"; Slept 5; Called "Phase_B_Counter_Req_002"; Slept 5;
      Called "Phase_D_Viability_002";
      Slept 5; Called "Phase_E_Gap_Analysis" ].
Proof. vm_compute. reflexivity. Qed.

(** * Concrete runs for the further properties *)

Module Cases.

(** A disk without the case folder. *)
Definition empty_disk : Stub.Disk := Stub.mkDisk [] 0.

(** The case folder and the workspace, without settings.json. *)
Definition disk_without_settings : Stub.Disk :=
  Stub.mkDisk [ (path_str (arg_case_folder Stub.plain_args), None);
                (path_str (workspace_dir_of Stub.plain_args), None) ] 0.

(** The folders and the settings, with an ATTACKS.json that does not parse. *)
Definition disk_with_broken_attacks : Stub.Disk :=
  Stub.disk_put Stub.bare_disk
    (path_str (strategy_dir_of Stub.plain_args // "ATTACKS.json")) None.

(** Two attacks whose names differ after their 30th character. *)
Definition first_long : Attack :=
  mkAttack "003" "Failure to State a Claim under Rule 12(b)(6)" None None None None []
    "high" "confirmed".

Definition second_long : Attack :=
  mkAttack "003" "Failure to State a Claim under the FDCPA" None None None None []
    "low" "confirmed".

End Cases.

Lemma missing_folder_touches_nothing_witness :
  case_folder_missing (env := Stub.writing) Stub.plain_args Cases.empty_disk
  || workspace_missing (env := Stub.writing) Stub.plain_args Cases.empty_disk = true
  /\ main (env := Stub.writing) Stub.plain_args Cases.empty_disk
     = mkRun (env := Stub.writing) (Exit 1) Cases.empty_disk
         [Log "Case folder not found: /case" (Some "ERROR")].
Proof.
  assert (H : case_folder_missing (env := Stub.writing) Stub.plain_args Cases.empty_disk
              || workspace_missing (env := Stub.writing) Stub.plain_args Cases.empty_disk
              = true) by (vm_compute; reflexivity).
  split; [exact H|].
  rewrite (missing_folder_touches_nothing (env := Stub.writing) Stub.plain_args
             Cases.empty_disk H).
  vm_compute. reflexivity.
Defined.

Lemma missing_attacks_file_stops_the_run_witness :
  arg_auto_detect Stub.plain_args = false
  /\ fs_exists (Env := Stub.writing) Stub.bare_disk (arg_case_folder Stub.plain_args) = true
  /\ fs_exists (Env := Stub.writing) Stub.bare_disk (workspace_dir_of Stub.plain_args) = true
  /\ settings_readable (env := Stub.writing) Stub.plain_args Stub.bare_disk
  /\ fs_exists (Env := Stub.writing)
       (world_after_setup (env := Stub.writing) Stub.plain_args Stub.bare_disk)
       (attacks_file_of Stub.plain_args) = false
  /\ result (main (env := Stub.writing) Stub.plain_args Stub.bare_disk) = Exit 1
  /\ calls (trace (main (env := Stub.writing) Stub.plain_args Stub.bare_disk)) = [].
Proof.
  assert (H1 : arg_auto_detect Stub.plain_args = false) by reflexivity.
  assert (H2 : fs_exists (Env := Stub.writing) Stub.bare_disk
                 (arg_case_folder Stub.plain_args) = true) by (vm_compute; reflexivity).
  assert (H3 : fs_exists (Env := Stub.writing) Stub.bare_disk
                 (workspace_dir_of Stub.plain_args) = true) by (vm_compute; reflexivity).
  assert (H4 : settings_readable (env := Stub.writing) Stub.plain_args Stub.bare_disk)
    by (vm_compute; discriminate).
  assert (H5 : fs_exists (Env := Stub.writing)
                 (world_after_setup (env := Stub.writing) Stub.plain_args Stub.bare_disk)
                 (attacks_file_of Stub.plain_args) = false) by (vm_compute; reflexivity).
  split; [exact H1|]. split; [exact H2|]. split; [exact H3|]. split; [exact H4|].
  split; [exact H5|].
  rewrite (missing_attacks_file_stops_the_run (env := Stub.writing) Stub.plain_args
             Stub.bare_disk H1 H2 H3 H4 H5).
  split; reflexivity.
Defined.

Lemma unreadable_settings_raise_witness :
  fs_exists (Env := Stub.writing) Cases.disk_without_settings
    (arg_case_folder Stub.plain_args) = true
  /\ fs_exists (Env := Stub.writing) Cases.disk_without_settings
       (workspace_dir_of Stub.plain_args) = true
  /\ settings_of (env := Stub.writing) Stub.plain_args Cases.disk_without_settings = None
  /\ exit_status (result (main (env := Stub.writing) Stub.plain_args
                            Cases.disk_without_settings)) = 1%Z.
Proof.
  assert (H1 : fs_exists (Env := Stub.writing) Cases.disk_without_settings
                 (arg_case_folder Stub.plain_args) = true) by (vm_compute; reflexivity).
  assert (H2 : fs_exists (Env := Stub.writing) Cases.disk_without_settings
                 (workspace_dir_of Stub.plain_args) = true) by (vm_compute; reflexivity).
  assert (H3 : settings_of (env := Stub.writing) Stub.plain_args
                 Cases.disk_without_settings = None) by (vm_compute; reflexivity).
  split; [exact H1|]. split; [exact H2|]. split; [exact H3|].
  exact (proj2 (unreadable_settings_raise (env := Stub.writing) Stub.plain_args
                  Cases.disk_without_settings H1 H2 H3)).
Defined.

Lemma unreadable_attacks_file_raises_witness :
  arg_auto_detect Stub.plain_args = false
  /\ fs_exists (Env := Stub.writing) Cases.disk_with_broken_attacks
       (arg_case_folder Stub.plain_args) = true
  /\ fs_exists (Env := Stub.writing) Cases.disk_with_broken_attacks
       (workspace_dir_of Stub.plain_args) = true
  /\ settings_readable (env := Stub.writing) Stub.plain_args Cases.disk_with_broken_attacks
  /\ fs_exists (Env := Stub.writing)
       (world_after_setup (env := Stub.writing) Stub.plain_args
          Cases.disk_with_broken_attacks)
       (attacks_file_of Stub.plain_args) = true
  /\ util_load_json_file (Env := Stub.writing)
       (world_after_setup (env := Stub.writing) Stub.plain_args
          Cases.disk_with_broken_attacks)
       (attacks_file_of Stub.plain_args) = None
  /\ exit_status (result (main (env := Stub.writing) Stub.plain_args
                            Cases.disk_with_broken_attacks)) = 1%Z.
Proof.
  assert (H1 : arg_auto_detect Stub.plain_args = false) by reflexivity.
  assert (H2 : fs_exists (Env := Stub.writing) Cases.disk_with_broken_attacks
                 (arg_case_folder Stub.plain_args) = true) by (vm_compute; reflexivity).
  assert (H3 : fs_exists (Env := Stub.writing) Cases.disk_with_broken_attacks
                 (workspace_dir_of Stub.plain_args) = true) by (vm_compute; reflexivity).
  assert (H4 : settings_readable (env := Stub.writing) Stub.plain_args
                 Cases.disk_with_broken_attacks) by (vm_compute; discriminate).
  assert (H5 : fs_exists (Env := Stub.writing)
                 (world_after_setup (env := Stub.writing) Stub.plain_args
                    Cases.disk_with_broken_attacks)
                 (attacks_file_of Stub.plain_args) = true) by (vm_compute; reflexivity).
  assert (H6 : util_load_json_file (Env := Stub.writing)
                 (world_after_setup (env := Stub.writing) Stub.plain_args
                    Cases.disk_with_broken_attacks)
                 (attacks_file_of Stub.plain_args) = None) by (vm_compute; reflexivity).
  split; [exact H1|]. split; [exact H2|]. split; [exact H3|]. split; [exact H4|].
  split; [exact H5|]. split; [exact H6|].
  exact (proj2 (unreadable_attacks_file_raises (env := Stub.writing) Stub.plain_args
                  Cases.disk_with_broken_attacks H1 H2 H3 H4 H5 H6)).
Defined.

Lemma slug_length_witness :
  is_ascii (attack_name Cases.first_long) = true
  /\ char_count (attack_name Cases.first_long) = 44%nat
  /\ char_count (attack_name_slug (env := Stub.writing) Cases.first_long) = 30%nat.
Proof.
  assert (H : is_ascii (attack_name Cases.first_long) = true) by reflexivity.
  split; [exact H|]. split; [reflexivity|].
  exact (proj2 (slug_length (env := Stub.writing) Cases.first_long) H).
Defined.

Lemma same_prefix_same_directory_witness :
  is_ascii (attack_name Cases.first_long) = true
  /\ is_ascii (attack_name Cases.second_long) = true
  /\ attack_id Cases.first_long = attack_id Cases.second_long
  /\ slice_to 30 (attack_name Cases.first_long) = slice_to 30 (attack_name Cases.second_long)
  /\ Cases.first_long <> Cases.second_long
  /\ attack_dir_of (env := Stub.writing) (root // "s") Cases.first_long
     = attack_dir_of (env := Stub.writing) (root // "s") Cases.second_long.
Proof.
  assert (Ha : is_ascii (attack_name Cases.first_long) = true) by reflexivity.
  assert (Hb : is_ascii (attack_name Cases.second_long) = true) by reflexivity.
  assert (H1 : attack_id Cases.first_long = attack_id Cases.second_long) by reflexivity.
  assert (H2 : slice_to 30 (attack_name Cases.first_long)
               = slice_to 30 (attack_name Cases.second_long)) by (vm_compute; reflexivity).
  split; [exact Ha|]. split; [exact Hb|].
  split; [exact H1|]. split; [exact H2|]. split; [discriminate|].
  exact (same_prefix_same_directory (env := Stub.writing) (root // "s")
           Cases.first_long Cases.second_long Ha Hb H1 H2).
Defined.

Lemma slug_is_idempotent_witness :
  is_ascii (attack_name Stub.limitations) = true
  /\ attack_name_slug (env := Stub.writing) Stub.limitations = "statute_of_limitations"
  /\ attack_name_slug (env := Stub.writing)
       (mkAttack "002" "statute_of_limitations" (Some ["Count II"])
          (Some "The claim is time-barred.") None (Some "Georgia") [] "medium" "confirmed")
     = "statute_of_limitations".
Proof.
  assert (H : is_ascii (attack_name Stub.limitations) = true) by reflexivity.
  split; [exact H|]. split; [reflexivity|].
  exact (slug_is_idempotent (env := Stub.writing) Stub.limitations H).
Defined.

Lemma relay_sleeps_are_bounded_witness :
  [Stub.standing; Stub.standing] <> []
  /\ (5 <= length (sleeps (trace (main_relay (env := Stub.writing) Stub.plain_args None
                                    [Stub.standing; Stub.standing] Stub.disk))) <= 6)%nat.
Proof.
  assert (H : [Stub.standing; Stub.standing] <> []) by discriminate.
  split; [exact H|].
  exact (relay_sleeps_are_bounded (env := Stub.writing) Stub.plain_args None
           [Stub.standing; Stub.standing] Stub.disk H).
Defined.

Lemma sleeps_of_distinct_attacks_witness :
  NoDup [Stub.standing; Stub.limitations]
  /\ [Stub.standing; Stub.limitations] <> []
  /\ sleeps (trace (main_relay (env := Stub.writing) Stub.plain_args None
                      [Stub.standing; Stub.limitations] Stub.disk))
     = [5; 5; 5; 5; 5; 5]%Z.
Proof.
  assert (H1 : NoDup [Stub.standing; Stub.limitations]).
  { constructor; [intros [H|[]]; discriminate H|]. constructor; [intros []|constructor]. }
  assert (H2 : [Stub.standing; Stub.limitations] <> []) by discriminate.
  split; [exact H1|]. split; [exact H2|].
  exact (sleeps_of_distinct_attacks (env := Stub.writing) Stub.plain_args None
           [Stub.standing; Stub.limitations] Stub.disk H1 H2).
Defined.

Lemma attack_filter_selects_by_id_witness :
  let args := Stub.with_attack "001" Stub.plain_args in
  settings_readable (env := Stub.writing) args Stub.disk
  /\ attacks_readable (env := Stub.writing) args Stub.disk
  /\ load_fails (env := Stub.writing) args Stub.disk = false
  /\ arg_attack args = Some "001"
  /\ "001" <> ""
  /\ (exists a, In a (attacks_loaded (env := Stub.writing) args Stub.disk)
                /\ attack_id a = "001")
  /\ filter is_phase_d (phase_names (trace (main (env := Stub.writing) args Stub.disk)))
     = ["Phase_D_Viability_001"].
Proof.
  cbv zeta. set (args := Stub.with_attack "001" Stub.plain_args).
  assert (H1 : settings_readable (env := Stub.writing) args Stub.disk)
    by (vm_compute; discriminate).
  assert (H2 : attacks_readable (env := Stub.writing) args Stub.disk)
    by (intros _ _; vm_compute; discriminate).
  assert (H3 : load_fails (env := Stub.writing) args Stub.disk = false)
    by (vm_compute; reflexivity).
  assert (H4 : arg_attack args = Some "001") by reflexivity.
  assert (H5 : "001" <> "") by discriminate.
  assert (H6 : exists a, In a (attacks_loaded (env := Stub.writing) args Stub.disk)
                         /\ attack_id a = "001").
  { exists Stub.standing. split; [vm_compute; left; reflexivity | reflexivity]. }
  split; [exact H1|]. split; [exact H2|]. split; [exact H3|]. split; [exact H4|].
  split; [exact H5|]. split; [exact H6|].
  rewrite (proj2 (attack_filter_selects_by_id (env := Stub.writing) args Stub.disk "001"
                    H1 H2 H3 H4 H5 H6)).
  vm_compute. reflexivity.
Defined.

Lemma stale_attacks_file_passes_detection_witness :
  (forall c, snd (util_run_agent (Env := Stub.idle) c Stub.disk) = Stub.disk)
  /\ detection_ok (env := Stub.idle) Stub.disk
       (strategy_dir_of Stub.plain_args // "ATTACKS.json") = true
  /\ result (phase_0_detect_attacks (env := Stub.idle) "auggie" (root // "case")
               (strategy_dir_of Stub.plain_args) "Motion to Dismiss" None Stub.disk)
     = Ret (Some (strategy_dir_of Stub.plain_args // "ATTACKS.json")).
Proof.
  assert (H1 : forall c, snd (util_run_agent (Env := Stub.idle) c Stub.disk) = Stub.disk)
    by reflexivity.
  assert (H2 : detection_ok (env := Stub.idle) Stub.disk
                 (strategy_dir_of Stub.plain_args // "ATTACKS.json") = true)
    by (vm_compute; reflexivity).
  split; [exact H1|]. split; [exact H2|].
  exact (proj1 (stale_attacks_file_passes_detection (env := Stub.idle) "auggie" (root // "case")
                  (strategy_dir_of Stub.plain_args) "Motion to Dismiss" None Stub.disk
                  H1 H2)).
Defined.

Lemma artifacts_are_handed_on_witness :
  [Stub.standing] <> []
  /\ arg_skip_evidence Stub.plain_args = false
  /\ arg_skip_counter_req Stub.plain_args = false
  /\ length (calls (trace (process_attack (env := Stub.writing) Stub.plain_args None
                             [Stub.standing] Stub.standing Stub.disk))) = 3%nat.
Proof.
  assert (H1 : [Stub.standing] <> []) by discriminate.
  assert (H2 : arg_skip_evidence Stub.plain_args = false) by reflexivity.
  assert (H3 : arg_skip_counter_req Stub.plain_args = false) by reflexivity.
  split; [exact H1|]. split; [exact H2|]. split; [exact H3|].
  destruct (artifacts_are_handed_on (env := Stub.writing) Stub.plain_args None
              [Stub.standing] Stub.standing Stub.disk H1 H2 H3) as (ca & cb & cd & -> & _).
  reflexivity.
Defined.

Lemma writing_agent_always_writes : agent_always_writes (env := Stub.writing).
Proof.
  intros c w p Hfile. cbn. unfold Stub.writing_agent. cbn in Hfile. rewrite Hfile. cbn.
  unfold Stub.disk_exists, Stub.disk_lookup, Stub.disk_put. cbn.
  rewrite String.eqb_refl. reflexivity.
Defined.

Lemma relay_without_errors_witness :
  agent_always_writes (env := Stub.writing)
  /\ errors (trace (main_relay (env := Stub.writing) Stub.plain_args None
                      [Stub.standing; Stub.limitations] Stub.disk)) = [].
Proof.
  split; [exact writing_agent_always_writes|].
  exact (proj2 (relay_without_errors (env := Stub.writing) Stub.plain_args None
                  [Stub.standing; Stub.limitations] Stub.disk
                  writing_agent_always_writes)).
Defined.
